(** * Over-the-air update server: check and download endpoints

    A shallow embedding of the two Go servers of the repository:

    - [otaserver/main.go], the gin server with one shared artifact
      directory, a lexicographic version order, a checksum on the default
      check endpoint and three artifact families ([Module Otaserver]),
      and the second program of the same file, which serves the single
      family [app_<version>.wasm] and computes no checksum
      ([Module OtaserverApp]);
    - the [net/http] server that parses semantic versions and scans its
      directory once at start-up ([Module SemverServer]).

    Go strings are byte strings and are modelled by [string]; the few
    functions of [strings], [path/filepath], [sort], [encoding/hex] and
    [crypto/sha256] the programs call are written out first, followed by
    a small model of the file system the handlers read.  A handler is a
    function of the file system and of the query of the request; it
    returns what it leaves behind (a response or a panic) and the calls
    it made to the file system. *)

From Stdlib Require Import String Ascii List ZArith Lia Bool.
From Stdlib Require Import Sorted Permutation.
Import ListNotations.

Local Open Scope list_scope.
Local Open Scope string_scope.

Set Implicit Arguments.

(* ===================================================================== *)
(** * The Go library functions used by the servers                        *)
(* ===================================================================== *)

Module GoStrings.

(** [len(s)] and the slices [s[i:]] and [s[:i]], which are [drop i s]
    and [take i s] for [0 <= i <= len(s)]. *)
Definition len (s : string) : Z := Z.of_nat (String.length s).

Fixpoint drop (n : nat) (s : string) : string :=
  match n, s with
  | O, _ => s
  | S n', String _ s' => drop n' s'
  | S _, EmptyString => EmptyString
  end.

Fixpoint take (n : nat) (s : string) : string :=
  match n, s with
  | S n', String c s' => String c (take n' s')
  | _, _ => EmptyString
  end.

(** [strings.HasPrefix], [strings.HasSuffix], [strings.TrimSuffix]. *)
Definition HasPrefix (s pre : string) : bool := String.prefix pre s.

Definition HasSuffix (s suffix : string) : bool :=
  (String.length suffix <=? String.length s)%nat
  && String.eqb (drop (String.length s - String.length suffix) s) suffix.

Definition TrimSuffix (s suffix : string) : string :=
  if HasSuffix s suffix
  then take (String.length s - String.length suffix) s
  else s.

(** [strings.Index] and [strings.Contains]: the first position at which
    [substr] occurs, or [-1]. *)
Fixpoint Index_from (i : Z) (s substr : string) : Z :=
  if String.prefix substr s then i
  else match s with
       | EmptyString => (-1)%Z
       | String _ s' => Index_from (i + 1) s' substr
       end.

Definition Index (s substr : string) : Z := Index_from 0 s substr.

Definition Contains (s substr : string) : bool := (0 <=? Index s substr)%Z.

(** [strings.LastIndex]: the last position at which [substr] occurs, or
    [-1]. *)
Fixpoint LastIndex_from (i : Z) (s substr : string) : Z :=
  match s with
  | EmptyString => if String.prefix substr s then i else (-1)%Z
  | String _ s' =>
      let r := LastIndex_from (i + 1) s' substr in
      if (0 <=? r)%Z then r
      else if String.prefix substr s then i else (-1)%Z
  end.

Definition LastIndex (s substr : string) : Z := LastIndex_from 0 s substr.

(** [strings.Split(s, sep)] for a non-empty separator: the pieces of [s]
    between the occurrences of [sep], found left to right without
    overlap.  [skip] counts the bytes of a separator still to be passed
    over and [cur] holds the piece being read, reversed.  With an empty
    separator Go cuts after each UTF-8 sequence; the servers never do
    that and the model cuts after each byte. *)
Fixpoint split_go (sep : string) (skip : nat) (cur : list ascii) (s : string)
  : list string :=
  match s with
  | EmptyString => [string_of_list_ascii (rev cur)]
  | String c s' =>
      match skip with
      | S k => split_go sep k cur s'
      | O =>
          if String.prefix sep s
          then string_of_list_ascii (rev cur)
               :: split_go sep (String.length sep - 1) [] s'
          else split_go sep 0 (c :: cur) s'
      end
  end.

Definition Split (s sep : string) : list string :=
  match sep with
  | EmptyString => map (fun c => String c EmptyString) (list_ascii_of_string s)
  | _ => split_go sep 0 [] s
  end.

(** A string has the byte [c] among its bytes. *)
Definition has (c : ascii) (s : string) : Prop := In c (list_ascii_of_string s).

(** [fmt.Sprintf] with a single [%s] verb between two literals. *)
Definition Sprintf_s (before arg after : string) : string :=
  before ++ arg ++ after.

End GoStrings.

Module GoFilepath.
Import GoStrings.

Definition Separator : ascii := "/"%char.

Definition IsPathSeparator (c : ascii) : bool := Ascii.eqb c Separator.

(** [filepath.Ext]: Go scans the path from its end and stops at the
    first separator; the extension starts at the first dot met.  [r] is
    the path reversed, [acc] the bytes already passed. *)
Fixpoint ext_scan (r acc : list ascii) : list ascii :=
  match r with
  | [] => []
  | c :: r' =>
      if IsPathSeparator c then []
      else if Ascii.eqb c "."%char then c :: acc
      else ext_scan r' (c :: acc)
  end.

Definition Ext (path : string) : string :=
  string_of_list_ascii (ext_scan (rev (list_ascii_of_string path)) []).

(** The components of a path: the pieces between separators. *)
Definition components (path : string) : list string := Split path "/".

(** [filepath.Clean] on a Unix path: drop empty and [.] components,
    cancel each inner [..] with the component before it, drop the [..]
    that follow the root, and answer [.] for an empty result.  [stack]
    holds the components kept so far, last first. *)
Fixpoint clean_go (rooted : bool) (stack : list string) (cs : list string)
  : list string :=
  match cs with
  | [] => rev stack
  | c :: cs' =>
      if String.eqb c "" || String.eqb c "." then clean_go rooted stack cs'
      else if String.eqb c ".." then
        match stack with
        | top :: below =>
            if String.eqb top ".." then clean_go rooted (c :: stack) cs'
            else clean_go rooted below cs'
        | [] =>
            if rooted then clean_go rooted stack cs'
            else clean_go rooted (c :: stack) cs'
        end
      else clean_go rooted (c :: stack) cs'
  end.

Definition Clean (path : string) : string :=
  let rooted := HasPrefix path "/" in
  let body := String.concat "/" (clean_go rooted [] (components path)) in
  let out := if rooted then "/" ++ body else body in
  if String.eqb out "" then "." else out.

(** [filepath.Join] of two elements: empty elements are ignored, the
    rest is joined by a separator and cleaned. *)
Definition Join (a b : string) : string :=
  match String.eqb a "", String.eqb b "" with
  | true, true => ""
  | true, false => Clean b
  | false, true => Clean a
  | false, false => Clean (a ++ "/" ++ b)
  end.

(** [filepath.Base]: the last component after trailing separators are
    removed. *)
Definition Base (path : string) : string :=
  if String.eqb path "" then "."
  else match rev (filter (fun c => negb (String.eqb c "")) (components path)) with
       | [] => "/"
       | c :: _ => c
       end.

End GoFilepath.

Module GoSort.

(** [sort.Strings] and [sort.Slice] order a slice in place by a
    comparison sort.  Go runs an insertion sort on short slices and a
    pattern-defeating quicksort on long ones; the model is the insertion
    sort.  Over strings the outcome does not depend on the algorithm,
    the order being total; with [sort.Slice] elements that compare equal
    may come out in any order, and every statement below about a sorted
    catalog is proved from [ascending] alone. *)
Section Sorting.
Variable A : Type.
Variable less : A -> A -> bool.

Fixpoint insert (x : A) (l : list A) : list A :=
  match l with
  | [] => [x]
  | y :: l' => if less x y then x :: l else y :: insert x l'
  end.

Definition sort_by (l : list A) : list A :=
  fold_left (fun sorted x => insert x sorted) l [].

(** A slice is ascending when no element is less than an earlier one. *)
Definition ascending (l : list A) : Prop :=
  StronglySorted (fun a b => less b a = false) l.

Fixpoint ascendingb (l : list A) : bool :=
  match l with
  | [] => true
  | x :: l' => forallb (fun y => negb (less y x)) l' && ascendingb l'
  end.
End Sorting.

Definition Strings (l : list string) : list string := sort_by String.ltb l.

End GoSort.

Module GoHex.

Definition hexdigit (n : Z) : ascii :=
  match String.get (Z.to_nat n) "0123456789abcdef" with
  | Some c => c
  | None => "0"%char
  end.

(** [hex.EncodeToString]: two lower-case digits per byte. *)
Fixpoint EncodeToString (bytes : list Z) : string :=
  match bytes with
  | [] => EmptyString
  | b :: bs =>
      String (hexdigit (Z.shiftr b 4))
        (String (hexdigit (Z.land b 15)) (EncodeToString bs))
  end.

End GoHex.

(** ** SHA-256 ([crypto/sha256]), on 32-bit words held in [Z] *)
Module SHA256.
Local Open Scope Z_scope.

Definition mask32 : Z := 4294967295.

Definition add32 (a b : Z) : Z := Z.land (a + b) mask32.

Definition rotr (n x : Z) : Z :=
  Z.land (Z.lor (Z.shiftr x n) (Z.shiftl x (32 - n))) mask32.

Definition not32 (x : Z) : Z := Z.lxor x mask32.

Definition Ch (x y z : Z) : Z := Z.lxor (Z.land x y) (Z.land (not32 x) z).

Definition Maj (x y z : Z) : Z :=
  Z.lxor (Z.lxor (Z.land x y) (Z.land x z)) (Z.land y z).

Definition bsig0 (x : Z) : Z := Z.lxor (Z.lxor (rotr 2 x) (rotr 13 x)) (rotr 22 x).
Definition bsig1 (x : Z) : Z := Z.lxor (Z.lxor (rotr 6 x) (rotr 11 x)) (rotr 25 x).
Definition ssig0 (x : Z) : Z := Z.lxor (Z.lxor (rotr 7 x) (rotr 18 x)) (Z.shiftr x 3).
Definition ssig1 (x : Z) : Z := Z.lxor (Z.lxor (rotr 17 x) (rotr 19 x)) (Z.shiftr x 10).

(** The round constants: the first 32 bits of the fractional parts of
    the cube roots of the first 64 primes. *)
Definition K : list Z :=
  [ 1116352408; 1899447441; 3049323471; 3921009573; 961987163; 1508970993;
    2453635748; 2870763221; 3624381080; 310598401; 607225278; 1426881987;
    1925078388; 2162078206; 2614888103; 3248222580; 3835390401; 4022224774;
    264347078; 604807628; 770255983; 1249150122; 1555081692; 1996064986;
    2554220882; 2821834349; 2952996808; 3210313671; 3336571891; 3584528711;
    113926993; 338241895; 666307205; 773529912; 1294757372; 1396182291;
    1695183700; 1986661051; 2177026350; 2456956037; 2730485921; 2820302411;
    3259730800; 3345764771; 3516065817; 3600352804; 4094571909; 275423344;
    430227734; 506948616; 659060556; 883997877; 958139571; 1322822218;
    1537002063; 1747873779; 1955562222; 2024104815; 2227730452; 2361852424;
    2428436474; 2756734187; 3204031479; 3329325298 ].

Definition init : list Z :=
  [ 1779033703; 3144134277; 1013904242; 2773480762;
    1359893119; 2600822924; 528734635; 1541459225 ].

(** Big-endian bytes of a word and back. *)
Definition be_bytes (n : nat) (x : Z) : list Z :=
  map (fun i => Z.land (Z.shiftr x (8 * Z.of_nat i)) 255) (rev (seq 0 n)).

Definition be_word (bs : list Z) : Z :=
  fold_left (fun acc b => Z.lor (Z.shiftl acc 8) b) bs 0.

(** Padding: a [0x80] byte, zeros up to 56 modulo 64, then the length of
    the message in bits on eight bytes. *)
Definition pad (msg : list Z) : list Z :=
  let n := Z.of_nat (List.length msg) in
  let zeros := Z.to_nat ((55 - n) mod 64) in
  (msg ++ 128 :: repeat 0 zeros ++ be_bytes 8 (8 * n))%list.

Fixpoint chunks (fuel : nat) (k : nat) (l : list Z) : list (list Z) :=
  match fuel, l with
  | _, [] => []
  | O, _ => []
  | S fuel', _ => firstn k l :: chunks fuel' k (skipn k l)
  end.

Definition blocks (bytes : list Z) : list (list Z) :=
  chunks (List.length bytes) 64 bytes.

(** The message schedule, most recent word first. *)
Fixpoint extend (n : nat) (w : list Z) : list Z :=
  match n with
  | O => w
  | S n' =>
      let x := add32 (add32 (ssig1 (nth 1 w 0)) (nth 6 w 0))
                     (add32 (ssig0 (nth 14 w 0)) (nth 15 w 0)) in
      extend n' (x :: w)
  end.

Definition schedule (block : list Z) : list Z :=
  rev (extend 48 (rev (map be_word (chunks 16 4 block)))).

Definition round (s : list Z) (kw : Z * Z) : list Z :=
  match s with
  | [a; b; c; d; e; f; g; h] =>
      let t1 := add32 (add32 (add32 h (bsig1 e)) (add32 (Ch e f g) (fst kw))) (snd kw) in
      let t2 := add32 (bsig0 a) (Maj a b c) in
      [add32 t1 t2; a; b; c; add32 d t1; e; f; g]
  | _ => s
  end.

Definition compress (h : list Z) (block : list Z) : list Z :=
  let s := fold_left round (combine K (schedule block)) h in
  map (fun p => add32 (fst p) (snd p)) (combine h s).

(** [sha256.Sum256]: the 32 bytes of the digest. *)
Definition Sum256 (msg : list Z) : list Z :=
  flat_map (be_bytes 4) (fold_left compress (blocks (pad msg)) init).

Definition bytes_of_string (s : string) : list Z :=
  map (fun c => Z.of_N (N_of_ascii c)) (list_ascii_of_string s).

End SHA256.

(* ===================================================================== *)
(** * The file system the handlers read                                    *)
(* ===================================================================== *)

Module FS.
Import GoStrings GoFilepath.

(** The errors of the system calls made. *)
Inductive error : Type :=
| ENOENT         (* no such file or directory *)
| ENOTDIR        (* a component of the path is not a directory *)
| EACCES         (* permission denied *)
| EISDIR         (* read of a directory *)
| EINVAL         (* a path with a NUL byte, refused before the system call *)
| ENAMETOOLONG.  (* a component or a path over the limits of the system *)

(** The limits of Linux on a component and on a whole path, the latter
    counted with the NUL byte that ends it. *)
Definition NAME_MAX : Z := 255.
Definition PATH_MAX : Z := 4096.

Definition NUL : ascii := ascii_of_nat 0.

Definition hasNUL (path : string) : bool :=
  existsb (Ascii.eqb NUL) (list_ascii_of_string path).

Definition IsNotExist (err : option error) : bool :=
  match err with
  | Some ENOENT => true
  | _ => false
  end.

(** A node is a regular file or a directory.  A file holds its bytes, or
    [None] when it cannot be opened for reading; a directory lists its
    entries by name, in the order [ReadDir] yields them, and is
    [readable] or not.  Symbolic links and search permissions are not
    modelled, so [Lstat] and [Stat] agree. *)
#[local] Unset Elimination Schemes.
Inductive Node : Type :=
| File (content : option string)
| Dir (readable : bool) (entries : list (string * Node)).
#[local] Set Elimination Schemes.

(** Induction on a tree, with the hypothesis for every entry of a
    directory. *)
Section NodeInduction.
Variable P : Node -> Prop.
Hypothesis HFile : forall content, P (File content).
Hypothesis HDir : forall readable entries,
  Forall (fun e => P (snd e)) entries -> P (Dir readable entries).

Fixpoint Node_ind (n : Node) : P n :=
  match n with
  | File content => HFile content
  | Dir readable entries =>
      HDir readable
        ((fix all (es : list (string * Node)) : Forall (fun e => P (snd e)) es :=
            match es with
            | [] => Forall_nil _
            | e :: es' => Forall_cons e (Node_ind (snd e)) (all es')
            end) entries)
  end.
End NodeInduction.

Definition isDir (n : Node) : bool :=
  match n with
  | Dir _ _ => true
  | File _ => false
  end.

(** The whole tree from [/] and the working directory of the process. *)
Record FileSystem : Type := {
  root : Node;
  cwd : list string
}.

Fixpoint assoc (name : string) (entries : list (string * Node)) : option Node :=
  match entries with
  | [] => None
  | (n, x) :: rest => if String.eqb n name then Some x else assoc name rest
  end.

Fixpoint lookup (n : Node) (path : list string) : option Node :=
  match path with
  | [] => Some n
  | c :: rest =>
      match n with
      | Dir _ entries =>
          match assoc c entries with
          | Some child => lookup child rest
          | None => None
          end
      | File _ => None
      end
  end.

(** Path resolution as the kernel does it, one component at a time from
    the directory reached so far.  A name longer than [NAME_MAX] is
    refused when it is looked up in a directory. *)
Fixpoint walk_path (r : Node) (cur : list string) (comps : list string)
  : error + list string :=
  match comps with
  | [] => inr cur
  | c :: rest =>
      match lookup r cur with
      | Some (Dir _ _) =>
          if String.eqb c "" || String.eqb c "." then walk_path r cur rest
          else if String.eqb c ".." then walk_path r (removelast cur) rest
          else if (NAME_MAX <? len c)%Z then inl ENAMETOOLONG
          else walk_path r (cur ++ [c])%list rest
      | Some (File _) => inl ENOTDIR
      | None => inl ENOENT
      end
  end.

(** Go refuses a path with a NUL byte before any system call; the kernel
    refuses the empty path, and a path that does not fit in [PATH_MAX]
    bytes, before it looks at any component. *)
Definition resolve (fs : FileSystem) (path : string) : error + Node :=
  if hasNUL path then inl EINVAL
  else if String.eqb path "" then inl ENOENT
  else if (PATH_MAX <=? len path)%Z then inl ENAMETOOLONG
  else
    let start := if HasPrefix path "/" then [] else cwd fs in
    match walk_path (root fs) start (components path) with
    | inl e => inl e
    | inr p =>
        match lookup (root fs) p with
        | Some n => inr n
        | None => inl ENOENT
        end
    end.

(** [os.FileInfo] and [os.DirEntry], as far as the servers look. *)
Record FileInfo : Type := {
  Name : string;
  IsDir : bool
}.

(** [os.Stat] and [os.Lstat]. *)
Definition Stat (fs : FileSystem) (path : string) : error + FileInfo :=
  match resolve fs path with
  | inl e => inl e
  | inr n => inr {| Name := Base path; IsDir := isDir n |}
  end.

(** [os.Open] followed by a read to the end of the file. *)
Definition ReadAll (fs : FileSystem) (path : string) : error + string :=
  match resolve fs path with
  | inl e => inl e
  | inr (File (Some bytes)) => inr bytes
  | inr (File None) => inl EACCES
  | inr (Dir _ _) => inl EISDIR
  end.

(** ** The directory walks of [path/filepath]

    The callback reads and writes variables of the enclosing function;
    it is modelled by a function on that state that also returns the
    callback's error.  Neither server's callback returns [SkipDir] or
    [SkipAll], which are left out: any error returned stops the walk and
    becomes its result. *)
Section Walks.
Variable St : Type.
Variable fn : string -> option FileInfo -> option error -> St -> St * option error.

(** [filepath.Walk]'s recursive helper: the callback sees a directory
    once, with the error of reading it, before its entries. *)
Fixpoint walk (path name : string) (n : Node) (st : St) : St * option error :=
  match n with
  | File _ => fn path (Some {| Name := name; IsDir := false |}) None st
  | Dir readable entries =>
      let err := if readable then None else Some EACCES in
      let '(st1, err1) := fn path (Some {| Name := name; IsDir := true |}) err st in
      match err, err1 with
      | None, None =>
          (fix each (es : list (string * Node)) (st : St) : St * option error :=
             match es with
             | [] => (st, None)
             | (nm, child) :: es' =>
                 let '(st', e) := walk (Join path nm) nm child st in
                 match e with
                 | Some _ => (st', e)
                 | None => each es' st'
                 end
             end) entries st1
      | _, _ => (st1, err1)
      end
  end.

Definition Walk (fs : FileSystem) (rootPath : string) (st : St) : St * option error :=
  match resolve fs rootPath with
  | inl e => fn rootPath None (Some e) st
  | inr n => walk rootPath (Base rootPath) n st
  end.

(** [filepath.WalkDir]'s helper: the callback sees every entry first
    without error, and a directory that cannot be read a second time
    with the error. *)
Fixpoint walkDir (path name : string) (n : Node) (st : St) : St * option error :=
  let d := {| Name := name; IsDir := isDir n |} in
  let '(st1, err1) := fn path (Some d) None st in
  match err1, n with
  | Some _, _ => (st1, err1)
  | None, File _ => (st1, None)
  | None, Dir false _ => fn path (Some d) (Some EACCES) st1
  | None, Dir true entries =>
      (fix each (es : list (string * Node)) (st : St) : St * option error :=
         match es with
         | [] => (st, None)
         | (nm, child) :: es' =>
             let '(st', e) := walkDir (Join path nm) nm child st in
             match e with
             | Some _ => (st', e)
             | None => each es' st'
             end
         end) entries st1
  end.

Definition WalkDir (fs : FileSystem) (rootPath : string) (st : St) : St * option error :=
  match resolve fs rootPath with
  | inl e => fn rootPath None (Some e) st
  | inr n => walkDir rootPath (Base rootPath) n st
  end.
End Walks.

(** The names of the regular files of a tree, at any depth and in the
    order the walks meet them, and whether every directory of the tree
    can be read. *)
Fixpoint files (name : string) (n : Node) : list string :=
  match n with
  | File _ => [name]
  | Dir _ entries => flat_map (fun e => files (fst e) (snd e)) entries
  end.

Fixpoint readable_tree (n : Node) : bool :=
  match n with
  | File _ => true
  | Dir readable entries =>
      readable && forallb (fun e => readable_tree (snd e)) entries
  end.

(** A walk from [path] meets no error: the path resolves and every
    directory below it can be read. *)
Definition walkable (fs : FileSystem) (path : string) : bool :=
  match resolve fs path with
  | inl _ => false
  | inr tree => readable_tree tree
  end.

(** ** Calls that touch the file system

    A handler's result comes with the list of the calls it made to the
    file system, in order. *)
Inductive FsCall : Type :=
| CallWalk (rootPath : string)
| CallStat (path : string)
| CallOpen (path : string).

Definition IO (A : Type) : Type := (A * list FsCall)%type.

Definition ret {A : Type} (x : A) : IO A := (x, []).

Definition bind {A B : Type} (m : IO A) (k : A -> IO B) : IO B :=
  let '(a, l1) := m in
  let '(b, l2) := k a in
  (b, (l1 ++ l2)%list).

Definition call {A : Type} (c : FsCall) (x : A) : IO A := (x, [c]).

Definition result {A : Type} (m : IO A) : A := fst m.
Definition calls {A : Type} (m : IO A) : list FsCall := snd m.

End FS.

Notation "x <- m ;; k" := (FS.bind m (fun x => k))
  (at level 61, m at next level, right associativity).

(** The parsed query of a request: its parameters by name. *)
Definition Request : Type := list (string * string).

(** ** The query of a locator ([net/url])

    The server reads the parameters from the part of the request URI
    after the first question mark, with [url.ParseQuery]: the pairs are
    separated by [&], a pair is cut at its first [=], both sides are
    unescaped ([+] is a space, [%XX] a byte), and a pair that has a
    semicolon or does not unescape is dropped. *)
Module GoURL.
Import GoStrings.

(** [strings.Cut]. *)
Definition Cut (s sep : string) : string * string * bool :=
  let i := Index s sep in
  if (i <? 0)%Z then (s, "", false)
  else (take (Z.to_nat i) s, drop (Z.to_nat i + String.length sep) s, true).

Definition unhex (c : ascii) : option N :=
  let n := N_of_ascii c in
  if ((48 <=? n) && (n <=? 57))%N then Some (n - 48)%N
  else if ((97 <=? n) && (n <=? 102))%N then Some (n - 87)%N
  else if ((65 <=? n) && (n <=? 70))%N then Some (n - 55)%N
  else None.

(** [url.QueryUnescape]; [None] is its error. *)
Fixpoint QueryUnescape (s : string) : option string :=
  match s with
  | EmptyString => Some EmptyString
  | String c s' =>
      if Ascii.eqb c "+"%char then option_map (String " "%char) (QueryUnescape s')
      else if Ascii.eqb c "%"%char then
        match s' with
        | String a (String b s'') =>
            match unhex a, unhex b with
            | Some x, Some y =>
                option_map (String (ascii_of_N (16 * x + y))) (QueryUnescape s'')
            | _, _ => None
            end
        | _ => None
        end
      else option_map (String c) (QueryUnescape s')
  end.

Definition parsePair (pair : string) : list (string * string) :=
  if Contains pair ";" then []
  else if String.eqb pair "" then []
  else
    let '(key, value, _) := Cut pair "=" in
    match QueryUnescape key, QueryUnescape value with
    | Some key, Some value => [(key, value)]
    | _, _ => []
    end.

Definition ParseQuery (query : string) : Request :=
  flat_map parsePair (Split query "&").

(** The parameters the server reads from a request whose target carries
    the text of [locator] after the first question mark.  The text is
    taken as the client wrote it: this is the request the server gets
    when the client sends every byte of the locator as it is and
    [net/http] accepts the request line, which holds for the bytes of a
    [literal] value below, and not for a space or a control byte. *)
Definition request_of (locator : string) : Request :=
  let '(_, rawQuery, _) := Cut locator "?" in
  ParseQuery rawQuery.

(** A value that passes through a query unchanged: none of its bytes
    separates pairs or starts an escape. *)
Definition plain (value : string) : Prop :=
  ~ has "&"%char value /\ ~ has ";"%char value
  /\ ~ has "+"%char value /\ ~ has "%"%char value.

(** The unreserved characters of a locator: the letters and digits of
    ASCII and the four marks [-], [.], [_] and [~]. *)
Definition unreserved (c : ascii) : bool :=
  let n := N_of_ascii c in
  ((48 <=? n) && (n <=? 57)
   || (65 <=? n) && (n <=? 90)
   || (97 <=? n) && (n <=? 122)
   || (n =? 45) || (n =? 46) || (n =? 95) || (n =? 126))%N.

(** A value of unreserved characters only.  Such a value is valid UTF-8
    that [encoding/json] writes as it is, a client sends it in a request
    target as it is, and the server reads it back unchanged. *)
Definition literal (value : string) : bool :=
  forallb unreserved (list_ascii_of_string value).

End GoURL.

(** [c.Query(key)] of gin and [r.URL.Query().Get(key)] of [net/http]: the
    first value of the parameter, or the empty string without one. *)
Fixpoint Query (r : Request) (key : string) : string :=
  match r with
  | [] => ""
  | (k, v) :: rest => if String.eqb k key then v else Query rest key
  end.

(** [s[i]] on a slice: Go panics when the index is out of range. *)
Definition index {A : Type} (s : list A) (i : Z) : option A :=
  if (i <? 0)%Z then None else nth_error s (Z.to_nat i).

Definition dquote : string := String (ascii_of_nat 34) EmptyString.

(* ===================================================================== *)
(** * [otaserver/main.go]: the gin server                                  *)
(* ===================================================================== *)

Module Otaserver.
Import GoStrings GoFilepath FS.

Record VersionInfo : Type := {
  LatestVersion : string;  (* json:"latest_version" *)
  DownloadURL : string;    (* json:"download_url,omitempty" *)
  CheckSum : string        (* json:"checksum,omitempty" *)
}.

(** The fields [encoding/json] writes for a [VersionInfo]: an
    [omitempty] field is left out when it holds the empty string. *)
Definition omitempty (key value : string) : list (string * string) :=
  if String.eqb value "" then [] else [(key, value)].

Definition json_fields (v : VersionInfo) : list (string * string) :=
  (("latest_version", LatestVersion v)
     :: omitempty "download_url" (DownloadURL v)
     ++ omitempty "checksum" (CheckSum v))%list.

(** What a handler leaves behind: a JSON body with its status
    ([c.JSON]), a file sent with a [Content-Disposition] header
    ([c.Header] then [c.File]), or a run-time panic. *)
Inductive Body : Type :=
| ErrorBody (msg : string)       (* gin.H{"error": msg} *)
| VersionBody (v : VersionInfo).

Inductive Outcome : Type :=
| JSON (code : Z) (body : Body)
| SendFile (contentDisposition : string) (filePath : string)
| Panic (msg : string).

Definition StatusOK : Z := 200.
Definition StatusBadRequest : Z := 400.
Definition StatusNotFound : Z := 404.
Definition StatusInternalServerError : Z := 500.

Definition otaFilesPath : string := "./ota_files/".

(** Helper function to parse the version from the file name. *)
Definition extractVersionFromFile (fileName : string) : string :=
  let baseName := TrimSuffix fileName (Ext fileName) in
  let parts := Split baseName "_" in
  if (List.length parts =? 2)%nat then nth 1 parts "" else "".

(** The callback handed to [filepath.Walk]; [versions] is the variable
    of [getAvailableVersions] it appends to. *)
Definition walkFn (path : string) (info : option FileInfo) (err : option error)
  (versions : list string) : list string * option error :=
  match err, info with
  | Some e, _ => (versions, Some e)
  | None, Some info =>
      if negb (IsDir info) then
        let version := extractVersionFromFile (Name info) in
        if negb (String.eqb version "")
        then ((versions ++ [version])%list, None)
        else (versions, None)
      else (versions, None)
  | None, None => (versions, None)
  end.

(** What a regular file of that name adds to [versions]. *)
Definition versionsOf (name : string) : list string :=
  let version := extractVersionFromFile name in
  if String.eqb version "" then [] else [version].

(** Helper function to get all OTA files and extract versions. *)
Definition getAvailableVersions (fs : FileSystem) : IO (list string * option error) :=
  call (CallWalk otaFilesPath) (Walk walkFn fs otaFilesPath []).

(** [CalculateChecksum] computes the SHA-256 checksum of a file. *)
Definition CalculateChecksum (fs : FileSystem) (filePath : string)
  : IO (string * option error) :=
  call (CallOpen filePath)
    match ReadAll fs filePath with
    | inl e => ("", Some e)
    | inr bytes =>
        (GoHex.EncodeToString (SHA256.Sum256 (SHA256.bytes_of_string bytes)), None)
    end.

(** Endpoint to check for a new version. *)
Definition checkForUpdate (fs : FileSystem) (c : Request) : IO Outcome :=
  let currentVersion := Query c "current_version" in
  if String.eqb currentVersion "" then
    ret (JSON StatusBadRequest (ErrorBody "current_version is required"))
  else
    r <- getAvailableVersions fs ;;
    match r with
    | (_, Some _) =>
        ret (JSON StatusInternalServerError
               (ErrorBody "Could not fetch available versions"))
    | (versions, None) =>
        let versions := GoSort.Strings versions in
        match index versions (Z.of_nat (List.length versions) - 1) with
        | None => ret (Panic "index out of range [-1]")
        | Some latestVersion =>
            let fileName := Sprintf_s "plugin_" latestVersion ".wasm" in
            let filePath := Join otaFilesPath fileName in
            sum <- CalculateChecksum fs filePath ;;
            match sum with
            | (_, Some _) =>
                ret (JSON StatusInternalServerError
                       (ErrorBody "Error calculating checksum"))
            | (checksum, None) =>
                if String.ltb currentVersion latestVersion then
                  let downloadURL := Sprintf_s "/download?version=" latestVersion "" in
                  ret (JSON StatusOK (VersionBody {|
                         LatestVersion := latestVersion;
                         DownloadURL := downloadURL;
                         CheckSum := checksum |}))
                else
                  ret (JSON StatusOK (VersionBody {|
                         LatestVersion := latestVersion;
                         DownloadURL := "";
                         CheckSum := "" |}))
            end
        end
    end.

(** The two check endpoints of the blink families are the same function
    up to the route written in the download URL; [route] is that
    literal. *)
Definition checkForUpdateBlink (route : string) (fs : FileSystem) (c : Request)
  : IO Outcome :=
  let currentVersion := Query c "current_version" in
  if String.eqb currentVersion "" then
    ret (JSON StatusBadRequest (ErrorBody "current_version is required"))
  else
    r <- getAvailableVersions fs ;;
    match r with
    | (_, Some _) =>
        ret (JSON StatusInternalServerError
               (ErrorBody "Could not fetch available versions"))
    | (versions, None) =>
        let versions := GoSort.Strings versions in
        match index versions (Z.of_nat (List.length versions) - 1) with
        | None => ret (Panic "index out of range [-1]")
        | Some latestVersion =>
            if String.ltb currentVersion latestVersion then
              let downloadURL := Sprintf_s route latestVersion "" in
              ret (JSON StatusOK (VersionBody {|
                     LatestVersion := latestVersion;
                     DownloadURL := downloadURL;
                     CheckSum := "" |}))
            else
              ret (JSON StatusOK (VersionBody {|
                     LatestVersion := latestVersion;
                     DownloadURL := "";
                     CheckSum := "" |}))
        end
    end.

(** Endpoint to check for a new version on one blink. *)
Definition checkForUpdateBlinkOne : FileSystem -> Request -> IO Outcome :=
  checkForUpdateBlink "/download-blink-one?version=".

(** Endpoint to check for a new version on five blink. *)
Definition checkForUpdateBlinkFive : FileSystem -> Request -> IO Outcome :=
  checkForUpdateBlink "/download-blink-five?version=".

(** The three download endpoints differ in the file-name template only;
    [family] is the literal before the version. *)
Definition download (family : string) (fs : FileSystem) (c : Request) : IO Outcome :=
  let requestedVersion := Query c "version" in
  if String.eqb requestedVersion "" then
    ret (JSON StatusBadRequest (ErrorBody "version is required"))
  else
    let fileName := Sprintf_s family requestedVersion ".wasm" in
    let filePath := Join otaFilesPath fileName in
    st <- call (CallStat filePath) (Stat fs filePath) ;;
    let err := match st with inl e => Some e | inr _ => None end in
    if IsNotExist err then
      ret (JSON StatusNotFound (ErrorBody "version not found"))
    else
      ret (SendFile ("attachment; filename=" ++ dquote ++ fileName ++ dquote) filePath).

(** Endpoint to download the new version file. *)
Definition downloadNewVersion : FileSystem -> Request -> IO Outcome :=
  download "plugin_".

Definition downloadNewVersionBlinkOne : FileSystem -> Request -> IO Outcome :=
  download "one-second-delay_".

Definition downloadNewVersionBlinkFive : FileSystem -> Request -> IO Outcome :=
  download "five-second-delay_".




(** The path whose bytes [checkForUpdate] hashes for a latest version. *)
Definition pluginPath (latestVersion : string) : string :=
  Join otaFilesPath (Sprintf_s "plugin_" latestVersion ".wasm").

(** The members of the JSON object a body is written as. *)
Definition body_fields (b : Body) : list (string * string) :=
  match b with
  | ErrorBody msg => [("error", msg)]
  | VersionBody v => json_fields v
  end.

(** The members of an answer other than the checksum. *)
Definition without_checksum (fields : list (string * string))
  : list (string * string) :=
  filter (fun kv => negb (String.eqb (fst kv) "checksum")) fields.

(** [main] registers six routes on the engine, all for the method
    [GET], and runs it on port 8080. *)
Definition Handler : Type := FileSystem -> Request -> IO Outcome.

Definition main : list (string * Handler) :=
  [ ("/check-update", checkForUpdate);
    ("/download", downloadNewVersion);
    ("/check-update-blink-one", checkForUpdateBlinkOne);
    ("/download-blink-one", downloadNewVersionBlinkOne);
    ("/check-update-blink-five", checkForUpdateBlinkFive);
    ("/download-blink-five", downloadNewVersionBlinkFive) ].

(** The handler registered for exactly the path [path], if any. *)
Fixpoint handlerOf (routes : list (string * Handler)) (path : string)
  : option Handler :=
  match routes with
  | [] => None
  | (p, h) :: rest => if String.eqb p path then Some h else handlerOf rest path
  end.

End Otaserver.

(* ===================================================================== *)
(** * [otaserver/main.go]: the single-family program                       *)
(* ===================================================================== *)

(** The second program of the file serves one family, [app_<version>.wasm],
    and computes no checksum.  Its two helpers are written as the first
    program has them. *)
Module OtaserverApp.
Import GoStrings GoFilepath FS.

Record VersionInfo : Type := {
  LatestVersion : string;  (* json:"latest_version" *)
  DownloadURL : string     (* json:"download_url,omitempty" *)
}.

Definition json_fields (v : VersionInfo) : list (string * string) :=
  ("latest_version", LatestVersion v)
    :: Otaserver.omitempty "download_url" (DownloadURL v).

Inductive Body : Type :=
| ErrorBody (msg : string)       (* gin.H{"error": msg} *)
| VersionBody (v : VersionInfo).

Definition body_fields (b : Body) : list (string * string) :=
  match b with
  | ErrorBody msg => [("error", msg)]
  | VersionBody v => json_fields v
  end.

Inductive Outcome : Type :=
| JSON (code : Z) (body : Body)
| SendFile (contentDisposition : string) (filePath : string)
| Panic (msg : string).

Definition StatusOK : Z := 200.
Definition StatusBadRequest : Z := 400.
Definition StatusNotFound : Z := 404.
Definition StatusInternalServerError : Z := 500.

Definition otaFilesPath : string := "./ota_files/".

(** Helper function to parse the version from the file name. *)
Definition extractVersionFromFile (fileName : string) : string :=
  let baseName := TrimSuffix fileName (Ext fileName) in
  let parts := Split baseName "_" in
  if (List.length parts =? 2)%nat then nth 1 parts "" else "".

Definition walkFn (path : string) (info : option FileInfo) (err : option error)
  (versions : list string) : list string * option error :=
  match err, info with
  | Some e, _ => (versions, Some e)
  | None, Some info =>
      if negb (IsDir info) then
        let version := extractVersionFromFile (Name info) in
        if negb (String.eqb version "")
        then ((versions ++ [version])%list, None)
        else (versions, None)
      else (versions, None)
  | None, None => (versions, None)
  end.

(** Helper function to get all OTA files and extract versions. *)
Definition getAvailableVersions (fs : FileSystem) : IO (list string * option error) :=
  call (CallWalk otaFilesPath) (Walk walkFn fs otaFilesPath []).

(** Endpoint to check for a new version. *)
Definition checkForUpdate (fs : FileSystem) (c : Request) : IO Outcome :=
  let currentVersion := Query c "current_version" in
  if String.eqb currentVersion "" then
    ret (JSON StatusBadRequest (ErrorBody "current_version is required"))
  else
    r <- getAvailableVersions fs ;;
    match r with
    | (_, Some _) =>
        ret (JSON StatusInternalServerError
               (ErrorBody "Could not fetch available versions"))
    | (versions, None) =>
        let versions := GoSort.Strings versions in
        match index versions (Z.of_nat (List.length versions) - 1) with
        | None => ret (Panic "index out of range [-1]")
        | Some latestVersion =>
            if String.ltb currentVersion latestVersion then
              let downloadURL := Sprintf_s "/download?version=" latestVersion "" in
              ret (JSON StatusOK (VersionBody {|
                     LatestVersion := latestVersion;
                     DownloadURL := downloadURL |}))
            else
              ret (JSON StatusOK (VersionBody {|
                     LatestVersion := latestVersion;
                     DownloadURL := "" |}))
        end
    end.

(** Endpoint to download the new version file. *)
Definition downloadNewVersion (fs : FileSystem) (c : Request) : IO Outcome :=
  let requestedVersion := Query c "version" in
  if String.eqb requestedVersion "" then
    ret (JSON StatusBadRequest (ErrorBody "version is required"))
  else
    let fileName := Sprintf_s "app_" requestedVersion ".wasm" in
    let filePath := Join otaFilesPath fileName in
    st <- call (CallStat filePath) (Stat fs filePath) ;;
    let err := match st with inl e => Some e | inr _ => None end in
    if IsNotExist err then
      ret (JSON StatusNotFound (ErrorBody "version not found"))
    else
      ret (SendFile ("attachment; filename=" ++ dquote ++ fileName ++ dquote) filePath).

(** [main] registers the two routes. *)
Definition Handler : Type := FileSystem -> Request -> IO Outcome.

Definition main : list (string * Handler) :=
  [ ("/check-update", checkForUpdate);
    ("/download", downloadNewVersion) ].

End OtaserverApp.

(* ===================================================================== *)
(** * The semantic-version server                                          *)
(* ===================================================================== *)

(** ** The semantic-version package

    The server imports [github.com/Masterminds/semver/v3], which is not
    part of the repository.  It enters as an interface: a type of parsed
    versions, the parser, the three-way comparison and the printer.
    [Precedence] states what the server relies on when it sorts with
    [LessThan] and scans with [GreaterThan]: the comparison is a total
    preorder. *)
Module Semver.

Class Lib : Type := {
  Version : Type;
  NewVersion : string -> option Version;  (* [None]: the string does not parse *)
  Compare : Version -> Version -> Z;      (* negative, zero or positive *)
  String : Version -> string
}.

Definition LessThan `{Lib} (v o : Version) : bool := (Compare v o <? 0)%Z.
Definition GreaterThan `{Lib} (v o : Version) : bool := (0 <? Compare v o)%Z.

Class Precedence (L : Lib) : Prop := {
  Compare_flip : forall v o : Version, (Compare v o < 0 <-> 0 < Compare o v)%Z;
  Compare_trans : forall a b c : Version,
    (Compare a b <= 0 -> Compare b c <= 0 -> Compare a c <= 0)%Z
}.

End Semver.

Module SemverServer.
Import GoStrings GoFilepath FS.

Section Server.
Context {L : Semver.Lib}.

(** [VersionInfo] holds information about a specific version of a file. *)
Record VersionInfo : Type := {
  Version : Semver.Version;  (* parsed semantic version *)
  FileName : string;         (* name of the file *)
  DownloadURL : string       (* URL to download the file *)
}.

(** [Server] represents the OTA server with its configuration and
    available versions. *)
Record Server : Type := {
  FilesDir : string;            (* directory where files are stored *)
  BaseURL : string;             (* base URL for constructing download links *)
  Versions : list VersionInfo   (* sorted list of available versions *)
}.

(** The body written by [handleCheck]: a JSON object with the keys
    [update_available] and [latest_version], and [download_url] when an
    update is offered. *)
Record CheckResponse : Type := {
  update_available : bool;
  latest_version : string;
  download_url : option string
}.

Inductive Outcome : Type :=
| Error (msg : string) (code : Z)  (* http.Error *)
| Encode (body : CheckResponse)    (* json.NewEncoder(w).Encode, status 200 *)
| ServeFile (filePath : string)    (* http.ServeFile *)
| Panic (msg : string).

Definition StatusBadRequest : Z := 400.
Definition StatusNotFound : Z := 404.

(** The lines of the walk callback that cut the version string out of a
    file name: at least one underscore, then the part of the name
    without extension after its last underscore.  The index
    [underscoreIdx+1] is at most [len(base)], so the slice never
    panics. *)
Definition versionStrOf (filename : string) : option string :=
  let parts := Split filename "_" in
  if (List.length parts <? 2)%nat then None
  else
    let base := TrimSuffix filename (Ext filename) in
    let underscoreIdx := LastIndex base "_" in
    if (underscoreIdx =? -1)%Z then None
    else Some (drop (Z.to_nat (underscoreIdx + 1)) base).

(** The callback handed to [filepath.WalkDir]; [versions] is the variable
    of [loadVersions] it appends to. *)
Definition walkDirFn (s : Server) (path : string) (d : option FileInfo)
  (err : option error) (versions : list VersionInfo)
  : list VersionInfo * option error :=
  match err, d with
  | Some e, _ => (versions, Some e)
  | None, None => (versions, None)
  | None, Some d =>
      if IsDir d then (versions, None)
      else
        let filename := Name d in
        match versionStrOf filename with
        | None => (versions, None)
        | Some versionStr =>
            match Semver.NewVersion versionStr with
            | None => (versions, None)
            | Some version =>
                let downloadURL := BaseURL s ++ "/download?file=" ++ filename in
                let vInfo := {| Version := version;
                                FileName := filename;
                                DownloadURL := downloadURL |} in
                ((versions ++ [vInfo])%list, None)
            end
        end
  end.

(** What a regular file of that name adds to [versions]. *)
Definition infosOf (s : Server) (filename : string) : list VersionInfo :=
  match versionStrOf filename with
  | None => []
  | Some versionStr =>
      match Semver.NewVersion versionStr with
      | None => []
      | Some version =>
          [{| Version := version;
              FileName := filename;
              DownloadURL := BaseURL s ++ "/download?file=" ++ filename |}]
      end
  end.

Definition lessVersion (a b : VersionInfo) : bool :=
  Semver.LessThan (Version a) (Version b).

(** [loadVersions] scans the [FilesDir], parses versioned filenames, and
    populates the [Versions] slice. *)
Definition loadVersions (s : Server) (fs : FileSystem) : IO (Server * option error) :=
  r <- call (CallWalk (FilesDir s)) (WalkDir (walkDirFn s) fs (FilesDir s) []) ;;
  match r with
  | (_, Some e) => ret (s, Some e)
  | (versions, None) =>
      let versions := GoSort.sort_by lessVersion versions in
      ret ({| FilesDir := FilesDir s; BaseURL := BaseURL s; Versions := versions |},
           None)
  end.

(** [NewServer] initializes the [Server] by loading available versions
    from the [FilesDir]. *)
Definition NewServer (filesDir baseURL : string) (fs : FileSystem)
  : IO (option Server * option error) :=
  let server := {| FilesDir := filesDir; BaseURL := baseURL; Versions := [] |} in
  r <- loadVersions server fs ;;
  match r with
  | (_, Some e) => ret (None, Some e)
  | (server, None) => ret (Some server, None)
  end.

(** [main] up to the registration of the routes: it builds the server
    over [./files], and [log.Fatalf] ends the process when that fails. *)
Inductive Startup : Type :=
| Fatal (err : error)
| Listening (server : option Server).

Definition main (fs : FileSystem) : IO Startup :=
  let filesDir := "./files" in
  let baseURL := "http://localhost:8080" in
  r <- NewServer filesDir baseURL fs ;;
  match r with
  | (_, Some e) => ret (Fatal e)
  | (server, None) => ret (Listening server)
  end.

(** The loop of [handleCheck] over [s.Versions]; [latestAvailable] is
    [None] for the nil pointer. *)
Fixpoint scan (currentVersion : Semver.Version) (versions : list VersionInfo)
  (latestAvailable : option VersionInfo) : option VersionInfo :=
  match versions with
  | [] => latestAvailable
  | v :: rest =>
      scan currentVersion rest
        (if Semver.GreaterThan (Version v) currentVersion then Some v
         else latestAvailable)
  end.

(** [handleCheck] processes the [/check] endpoint to determine if a
    newer version is available. *)
Definition handleCheck (s : Server) (r : Request) : Outcome :=
  let currentVersionStr := Query r "current_version" in
  if String.eqb currentVersionStr "" then
    Error "Missing 'current_version' parameter" StatusBadRequest
  else
    match Semver.NewVersion currentVersionStr with
    | None => Error "Invalid 'current_version' format" StatusBadRequest
    | Some currentVersion =>
        match scan currentVersion (Versions s) None with
        | Some latestAvailable =>
            Encode {| update_available := true;
                      latest_version := Semver.String (Version latestAvailable);
                      download_url := Some (DownloadURL latestAvailable) |}
        | None =>
            let n := Z.of_nat (List.length (Versions s)) in
            if (0 <? n)%Z then
              match index (Versions s) (n - 1) with
              | Some last =>
                  Encode {| update_available := false;
                            latest_version := Semver.String (Version last);
                            download_url := None |}
              | None => Panic "index out of range"
              end
            else
              Encode {| update_available := false;
                        latest_version := "0.0.0";
                        download_url := None |}
        end
    end.

(** [handleDownload] processes the [/download] endpoint to serve the
    requested file. *)
Definition handleDownload (s : Server) (fs : FileSystem) (r : Request) : IO Outcome :=
  let file := Query r "file" in
  if String.eqb file "" then
    ret (Error "Missing 'file' parameter" StatusBadRequest)
  else if Contains file "/" || Contains file "\" then
    ret (Error "Invalid 'file' parameter" StatusBadRequest)
  else
    let filePath := Join (FilesDir s) file in
    st <- call (CallStat filePath) (Stat fs filePath) ;;
    match st with
    | inl e =>
        if IsNotExist (Some e) then ret (Error "File not found" StatusNotFound)
        else ret (Panic "nil pointer dereference")
    | inr fi =>
        if IsDir fi then ret (Error "Requested file is a directory" StatusBadRequest)
        else ret (ServeFile filePath)
    end.

(** The check as the simpler definition words it: compare the catalog
    maximum against the current version and offer the maximum.
    [maximum] is the greatest element by precedence, the later one of
    two that compare equal. *)
Definition maximum (versions : list VersionInfo) : option VersionInfo :=
  fold_left
    (fun best v =>
       match best with
       | None => Some v
       | Some m => if lessVersion v m then Some m else Some v
       end)
    versions None.

Definition handleCheck_simple (s : Server) (r : Request) : Outcome :=
  let currentVersionStr := Query r "current_version" in
  if String.eqb currentVersionStr "" then
    Error "Missing 'current_version' parameter" StatusBadRequest
  else
    match Semver.NewVersion currentVersionStr with
    | None => Error "Invalid 'current_version' format" StatusBadRequest
    | Some currentVersion =>
        match maximum (Versions s) with
        | None =>
            Encode {| update_available := false;
                      latest_version := "0.0.0";
                      download_url := None |}
        | Some m =>
            if Semver.GreaterThan (Version m) currentVersion then
              Encode {| update_available := true;
                        latest_version := Semver.String (Version m);
                        download_url := Some (DownloadURL m) |}
            else
              Encode {| update_available := false;
                        latest_version := Semver.String (Version m);
                        download_url := None |}
        end
    end.

End Server.
End SemverServer.

(** ** A semantic-version package for the examples

    Three numeric components separated by dots, compared component by
    component: the core of semantic versioning, enough to run the server
    on concrete directories. *)
Module Triple.
Local Open Scope Z_scope.

Definition digit (c : ascii) : option Z :=
  let n := Z.of_N (N_of_ascii c) in
  if (48 <=? n) && (n <=? 57) then Some (n - 48) else None.

Fixpoint number (acc : Z) (s : string) : option Z :=
  match s with
  | EmptyString => Some acc
  | String c s' =>
      match digit c with
      | Some d => number (10 * acc + d) s'
      | None => None
      end
  end.

Definition component (s : string) : option Z :=
  if String.eqb s "" then None else number 0 s.

Definition parse (s : string) : option (Z * Z * Z) :=
  match GoStrings.Split s "." with
  | [a; b; c] =>
      match component a, component b, component c with
      | Some x, Some y, Some z => Some (x, y, z)
      | _, _, _ => None
      end
  | _ => None
  end.

Definition cmp (x y : Z) : Z := if x <? y then -1 else if y <? x then 1 else 0.

Definition compare (v o : Z * Z * Z) : Z :=
  let '(a, b, c) := v in
  let '(a', b', c') := o in
  if cmp a a' =? 0 then (if cmp b b' =? 0 then cmp c c' else cmp b b') else cmp a a'.

Fixpoint digits (fuel : nat) (n : Z) (acc : string) : string :=
  match fuel with
  | O => acc
  | S fuel' =>
      let acc' := String (ascii_of_N (Z.to_N (48 + n mod 10))) acc in
      if n <? 10 then acc' else digits fuel' (n / 10) acc'
  end.

Definition print (v : Z * Z * Z) : string :=
  let '(a, b, c) := v in
  let show n := digits (S (Z.to_nat n)) n "" in
  show a ++ "." ++ show b ++ "." ++ show c.

#[export] Instance lib : Semver.Lib := {|
  Semver.Version := Z * Z * Z;
  Semver.NewVersion := parse;
  Semver.Compare := compare;
  Semver.String := print
|}.

End Triple.

(* ===================================================================== *)
(** * Directories used in the examples                                     *)
(* ===================================================================== *)

Module Fixtures.
Import FS.

(** A file system whose working directory [/srv] holds [entries]. *)
Definition under_srv (entries : list (string * Node)) : FileSystem :=
  {| root := Dir true [("srv", Dir true entries)]; cwd := ["srv"] |}.

Definition file (bytes : string) : Node := File (Some bytes).

(** The artifact directory exists and holds no file. *)
Definition fs_empty : FileSystem := under_srv [("ota_files", Dir true [])].

(** One plugin artifact. *)
Definition fs_plugin : FileSystem :=
  under_srv [("ota_files", Dir true [("plugin_1.0.0.wasm", file "abc")])].

(** Three plugin artifacts: the catalog 1.0.0, 1.1.0, 2.0.0. *)
Definition fs_three : FileSystem :=
  under_srv [("ota_files", Dir true [("plugin_1.0.0.wasm", file "one");
                                     ("plugin_1.1.0.wasm", file "two");
                                     ("plugin_2.0.0.wasm", file "three")])].

(** The only artifact lies in a subdirectory of the artifact directory. *)
Definition fs_nested : FileSystem :=
  under_srv [("ota_files",
              Dir true [("old", Dir true [("plugin_9.9.9.wasm", file "nine")])])].

(** A file next to the artifact directory, outside of it. *)
Definition fs_secret : FileSystem :=
  under_srv [("ota_files", Dir true [("plugin_1.0.0.wasm", file "abc")]);
             ("secret.wasm", file "credentials")].

(** A directory that bears the name of an artifact. *)
Definition fs_dir_artifact : FileSystem :=
  under_srv [("ota_files", Dir true [("plugin_1.0.0.wasm", Dir true [])])].

(** A plugin artifact whose version carries build metadata. *)
Definition fs_build : FileSystem :=
  under_srv [("ota_files", Dir true [("plugin_1.0.0+b5.wasm", file "build")])].

(** Only the one-second-delay family has an artifact. *)
Definition fs_blink : FileSystem :=
  under_srv [("ota_files", Dir true [("one-second-delay_1.2.0.wasm", file "blink")])].

(** The artifact directory cannot be read, or does not exist. *)
Definition fs_locked : FileSystem :=
  under_srv [("ota_files", Dir false [("plugin_1.0.0.wasm", file "abc")]);
             ("files", Dir false [("app_1.0.0.zip", file "abc")])].

Definition fs_missing : FileSystem := under_srv [].

(** The plugin of 1.0.0 beside a five-second-delay artifact of 2.0.0, in
    the order [ReadDir] yields them. *)
Definition fs_mixed : FileSystem :=
  under_srv [("ota_files", Dir true [("five-second-delay_2.0.0.wasm", file "five");
                                     ("plugin_1.0.0.wasm", file "abc")])].

(** A name of 256 bytes, one more than the system takes. *)
Definition long_name : string :=
  string_of_list_ascii (List.repeat "a"%char 256).

(** The directory of the semantic-version server. *)
Definition fs_files : FileSystem :=
  under_srv [("files", Dir true [("app_1.0.0.zip", file "one");
                                 ("app_1.1.0.zip", file "two");
                                 ("app_2.0.0.zip", file "three");
                                 ("notes.txt", file "text")])].

Definition fs_files_nested : FileSystem :=
  under_srv [("files",
              Dir true [("app_1.0.0.zip", file "one");
                        ("beta", Dir true [("app_2.0.0.zip", file "two")])])].

(** The servers [NewServer] builds over these two directories. *)
Definition info (version : Z * Z * Z) (filename : string)
  : SemverServer.VersionInfo (L := Triple.lib) :=
  @SemverServer.Build_VersionInfo Triple.lib version filename
    ("http://localhost:8080/download?file=" ++ filename).

Definition srv_files : SemverServer.Server (L := Triple.lib) :=
  {| SemverServer.FilesDir := "./files";
     SemverServer.BaseURL := "http://localhost:8080";
     SemverServer.Versions := [info (1, 0, 0)%Z "app_1.0.0.zip";
                               info (1, 1, 0)%Z "app_1.1.0.zip";
                               info (2, 0, 0)%Z "app_2.0.0.zip"] |}.

Definition srv_nested : SemverServer.Server (L := Triple.lib) :=
  {| SemverServer.FilesDir := "./files";
     SemverServer.BaseURL := "http://localhost:8080";
     SemverServer.Versions := [info (1, 0, 0)%Z "app_1.0.0.zip";
                               info (2, 0, 0)%Z "app_2.0.0.zip"] |}.

(** The update [checkForUpdate] offers over [fs_three] to a client at
    1.0.0. *)
Definition offer_three : Otaserver.VersionInfo :=
  {| Otaserver.LatestVersion := "2.0.0";
     Otaserver.DownloadURL := "/download?version=2.0.0";
     Otaserver.CheckSum :=
       GoHex.EncodeToString (SHA256.Sum256 (SHA256.bytes_of_string "three")) |}.

(** The update [checkForUpdateBlinkOne] offers over [fs_blink] to a client
    at 1.0.0. *)
Definition offer_blink : Otaserver.VersionInfo :=
  {| Otaserver.LatestVersion := "1.2.0";
     Otaserver.DownloadURL := "/download-blink-one?version=1.2.0";
     Otaserver.CheckSum := "" |}.

(** The server before its scan, and the entries of [./files] in
    [fs_files]. *)
Definition srv_start : SemverServer.Server (L := Triple.lib) :=
  {| SemverServer.FilesDir := "./files";
     SemverServer.BaseURL := "http://localhost:8080";
     SemverServer.Versions := [] |}.





End Fixtures.

(* ===================================================================== *)
(** * Facts about the library functions                                    *)
(* ===================================================================== *)

Module StringOrder.

Lemma ascii_compare_N (a b : ascii) :
  Ascii.compare a b = N.compare (N_of_ascii a) (N_of_ascii b).
Proof. reflexivity. Qed.

Lemma compare_cons (a b : ascii) (s t : string) :
  String.compare (String a s) (String b t)
  = match Ascii.compare a b with
    | Eq => String.compare s t
    | c => c
    end.
Proof. simpl. destruct (Ascii.compare a b); reflexivity. Qed.

(** The byte-wise order on strings is transitive. *)
Lemma compare_le_trans (s t u : string) :
  String.compare s t <> Gt -> String.compare t u <> Gt -> String.compare s u <> Gt.
Proof.
  revert t u. induction s as [|a s IH]; intros [|b t] [|c u]; simpl; try congruence.
  rewrite !ascii_compare_N.
  destruct (N.compare_spec (N_of_ascii a) (N_of_ascii b)) as [E1|L1|G1];
    destruct (N.compare_spec (N_of_ascii b) (N_of_ascii c)) as [E2|L2|G2];
    try congruence; intros H1 H2.
  - rewrite E1, E2, N.compare_refl. eauto.
  - rewrite E1. apply N.compare_lt_iff in L2. rewrite L2. congruence.
  - rewrite <- E2. apply N.compare_lt_iff in L1. rewrite L1. congruence.
  - assert (L : (N_of_ascii a < N_of_ascii c)%N) by lia.
    apply N.compare_lt_iff in L. rewrite L. congruence.
Qed.

Lemma ltb_false_iff (s t : string) :
  String.ltb s t = false <-> String.compare t s <> Gt.
Proof.
  unfold String.ltb. rewrite (String.compare_antisym t s).
  destruct (String.compare s t); simpl; split; congruence.
Qed.

Lemma ltb_asym (s t : string) : String.ltb s t = true -> String.ltb t s = false.
Proof.
  unfold String.ltb. rewrite (String.compare_antisym t s).
  destruct (String.compare s t); simpl; congruence.
Qed.

Lemma ltb_negtrans (s t u : string) :
  String.ltb t s = false -> String.ltb u t = false -> String.ltb u s = false.
Proof.
  rewrite !ltb_false_iff. intros. eapply compare_le_trans; eauto.
Qed.

Lemma ltb_irrefl (s : string) : String.ltb s s = false.
Proof.
  unfold String.ltb. pose proof (String.compare_antisym s s) as E.
  destruct (String.compare s s); simpl in E; congruence.
Qed.

End StringOrder.

Module StringFacts.
Import GoStrings.

Lemma append_empty_r (s : string) : s ++ "" = s.
Proof. induction s as [|c s IH]; simpl; [|rewrite IH]; reflexivity. Qed.

Lemma append_assoc (s t u : string) : (s ++ t) ++ u = s ++ t ++ u.
Proof. induction s as [|c s IH]; simpl; [|rewrite IH]; reflexivity. Qed.

Lemma length_append (s t : string) :
  String.length (s ++ t) = (String.length s + String.length t)%nat.
Proof. induction s as [|c s IH]; simpl; [|rewrite IH]; reflexivity. Qed.

Lemma list_of_append (s t : string) :
  list_ascii_of_string (s ++ t)
  = (list_ascii_of_string s ++ list_ascii_of_string t)%list.
Proof. induction s as [|c s IH]; simpl; [|rewrite IH]; reflexivity. Qed.

Lemma drop_append (s t : string) : drop (String.length s) (s ++ t) = t.
Proof. induction s as [|c s IH]; simpl; [destruct t|]; auto. Qed.

Lemma take_append (s t : string) : take (String.length s) (s ++ t) = s.
Proof.
  induction s as [|c s IH]; simpl; [destruct t; reflexivity|]. rewrite IH. reflexivity.
Qed.

Lemma has_append (c : ascii) (s t : string) : has c (s ++ t) <-> has c s \/ has c t.
Proof. unfold has. rewrite list_of_append. apply in_app_iff. Qed.

Lemma prefix_byte (c : ascii) (s : string) :
  String.prefix (String c "") s
  = match s with
    | String a _ => Ascii.eqb c a
    | EmptyString => false
    end.
Proof.
  destruct s as [|a s]; simpl; [reflexivity|].
  destruct (ascii_dec c a) as [->|Hne].
  - rewrite Ascii.eqb_refl. destruct s; reflexivity.
  - symmetry. apply Ascii.eqb_neq. exact Hne.
Qed.

Lemma drop_past (c : ascii) (s t : string) :
  drop (S (String.length s)) (s ++ String c t) = t.
Proof. induction s as [|a s IH]; simpl; [destruct t; reflexivity|exact IH]. Qed.

Lemma count_append (c : ascii) (s t : string) :
  count_occ ascii_dec (list_ascii_of_string (s ++ t)) c
  = (count_occ ascii_dec (list_ascii_of_string s) c
     + count_occ ascii_dec (list_ascii_of_string t) c)%nat.
Proof. rewrite list_of_append. apply count_occ_app. Qed.

Lemma count_has (c : ascii) (s : string) :
  has c s <-> (0 < count_occ ascii_dec (list_ascii_of_string s) c)%nat.
Proof. apply count_occ_In. Qed.

(** [strings.TrimSuffix] removes a suffix that is there. *)
Lemma TrimSuffix_append (s suffix : string) : TrimSuffix (s ++ suffix) suffix = s.
Proof.
  unfold TrimSuffix, HasSuffix. rewrite length_append.
  replace (String.length s + String.length suffix - String.length suffix)%nat
    with (String.length s) by lia.
  rewrite drop_append, String.eqb_refl, take_append.
  destruct (Nat.leb_spec (String.length suffix) (String.length s + String.length suffix));
    [reflexivity|lia].
Qed.

(** [strings.Index] of a single byte: [-1] exactly when the byte does not
    occur. *)
Lemma Index_from_byte (c : ascii) (s : string) : forall i,
  (0 <= i)%Z ->
  (has c s -> (i <= Index_from i s (String c ""))%Z)
  /\ (~ has c s -> Index_from i s (String c "") = (-1)%Z).
Proof.
  unfold has. induction s as [|a s IH]; intros i Hi.
  - simpl. split; [intros []|reflexivity].
  - cbn [Index_from]. rewrite prefix_byte. simpl list_ascii_of_string.
    destruct (Ascii.eqb_spec c a) as [->|Hne].
    + split; [intros _; lia|]. intro H. exfalso. apply H. left. reflexivity.
    + destruct (IH (i + 1)%Z) as [IH1 IH2]; [lia|]. split.
      * intros [E|H]; [congruence|]. specialize (IH1 H). lia.
      * intro H. apply IH2. intro H'. apply H. right. exact H'.
Qed.

Lemma Contains_byte (c : ascii) (s : string) :
  Contains s (String c "") = true <-> has c s.
Proof.
  unfold Contains, Index. destruct (Index_from_byte c s (Z.le_refl 0)) as [H1 H2].
  split.
  - intro H. apply Z.leb_le in H.
    destruct (in_dec ascii_dec c (list_ascii_of_string s)) as [Hin|Hout]; [exact Hin|].
    rewrite (H2 Hout) in H. lia.
  - intro H. apply Z.leb_le, H1, H.
Qed.

(** [strings.LastIndex] of a single byte. *)
Lemma LastIndex_from_absent (c : ascii) (s : string) : forall i,
  ~ has c s -> LastIndex_from i s (String c "") = (-1)%Z.
Proof.
  unfold has. induction s as [|a s IH]; intros i H; [reflexivity|].
  cbn [LastIndex_from]. rewrite IH by (intro H'; apply H; right; exact H').
  rewrite prefix_byte. simpl.
  destruct (Ascii.eqb_spec c a) as [->|Hne]; [|reflexivity].
  exfalso. apply H. left. reflexivity.
Qed.

Lemma LastIndex_from_last (c : ascii) (s t : string) : forall i,
  (0 <= i)%Z ->
  ~ has c t ->
  LastIndex_from i (s ++ String c t) (String c "") = (i + len s)%Z.
Proof.
  unfold len. induction s as [|a s IH]; intros i Hi Ht.
  - cbn [append LastIndex_from]. rewrite LastIndex_from_absent by assumption.
    rewrite prefix_byte, Ascii.eqb_refl. simpl. lia.
  - cbn [append LastIndex_from]. rewrite IH by (assumption || lia).
    destruct (Z.leb_spec 0 (i + 1 + Z.of_nat (String.length s))); [|lia].
    simpl String.length. lia.
Qed.

(** [strings.Split] on a single byte yields one more piece than the
    byte has occurrences. *)
Lemma split_go_length (c : ascii) (s : string) : forall cur,
  List.length (split_go (String c "") 0 cur s)
  = S (count_occ ascii_dec (list_ascii_of_string s) c).
Proof.
  induction s as [|a s IH]; intro cur; [reflexivity|].
  cbn [split_go]. rewrite prefix_byte. simpl list_ascii_of_string.
  cbn [count_occ String.length Nat.sub].
  destruct (Ascii.eqb_spec c a) as [->|Hne].
  - destruct (ascii_dec a a) as [_|Hne]; [|contradiction].
    cbn [List.length]. rewrite IH. reflexivity.
  - destruct (ascii_dec a c) as [E|_]; [congruence|]. apply IH.
Qed.

Lemma Split_length (c : ascii) (s : string) :
  List.length (Split s (String c ""))
  = S (count_occ ascii_dec (list_ascii_of_string s) c).
Proof. apply split_go_length. Qed.

Lemma split_go_absent (c : ascii) (s : string) : forall cur,
  ~ has c s ->
  split_go (String c "") 0 cur s
  = [string_of_list_ascii (rev cur ++ list_ascii_of_string s)].
Proof.
  unfold has. induction s as [|a s IH]; intros cur H.
  - simpl. rewrite app_nil_r. reflexivity.
  - cbn [split_go]. rewrite prefix_byte.
    destruct (Ascii.eqb_spec c a) as [->|Hne].
    + exfalso. apply H. left. reflexivity.
    + rewrite IH by (intro H'; apply H; right; exact H').
      simpl. rewrite <- app_assoc. reflexivity.
Qed.

Lemma split_go_first (c : ascii) (s t : string) : forall cur,
  ~ has c s ->
  split_go (String c "") 0 cur (s ++ String c t)
  = string_of_list_ascii (rev cur ++ list_ascii_of_string s)
    :: split_go (String c "") 0 [] t.
Proof.
  unfold has. induction s as [|a s IH]; intros cur H.
  - cbn [append split_go]. rewrite prefix_byte, Ascii.eqb_refl.
    simpl. rewrite app_nil_r. reflexivity.
  - cbn [append split_go]. rewrite prefix_byte.
    destruct (Ascii.eqb_spec c a) as [->|Hne].
    + exfalso. apply H. left. reflexivity.
    + rewrite IH by (intro H'; apply H; right; exact H').
      simpl. rewrite <- app_assoc. reflexivity.
Qed.

(** [strings.Split] of [s_t] on the underscore, when neither part has
    one. *)
Lemma Split_two (c : ascii) (s t : string) :
  ~ has c s -> ~ has c t -> Split (s ++ String c t) (String c "") = [s; t].
Proof.
  intros Hs Ht. unfold Split. rewrite split_go_first by assumption.
  rewrite split_go_absent by assumption. simpl.
  rewrite !string_of_list_ascii_of_string. reflexivity.
Qed.

Lemma has_dec (c : ascii) (s : string) : {has c s} + {~ has c s}.
Proof. apply in_dec, ascii_dec. Qed.

Lemma has_cons (c a : ascii) (s : string) : has c (String a s) <-> a = c \/ has c s.
Proof. reflexivity. Qed.

(** A string with the byte [c] is cut at its last occurrence. *)
Lemma has_last_split (c : ascii) (s : string) :
  has c s -> exists a b, s = a ++ String c b /\ ~ has c b.
Proof.
  induction s as [|x s IH]; intro H; [destruct H|].
  destruct (has_dec c s) as [Hs|Hs].
  - destruct (IH Hs) as (a & b & -> & Hb). exists (String x a), b. split; auto.
  - apply has_cons in H. destruct H as [->|H]; [|contradiction].
    exists "", s. split; auto.
Qed.

(** A string with exactly one occurrence of [c] is cut there. *)
Lemma count_one_split (c : ascii) (s : string) :
  count_occ ascii_dec (list_ascii_of_string s) c = 1%nat ->
  exists a b, s = a ++ String c b /\ ~ has c a /\ ~ has c b.
Proof.
  induction s as [|x s IH]; simpl; [discriminate|].
  destruct (ascii_dec x c) as [->|Hne]; intro H.
  - exists "", s. split; [reflexivity|]. split; [intros []|].
    intro Hs. apply count_has in Hs. lia.
  - destruct (IH H) as (a & b & -> & Ha & Hb). exists (String x a), b.
    split; [reflexivity|]. split; [|assumption].
    intro Hx. apply has_cons in Hx. destruct Hx; contradiction.
Qed.

(** [strings.LastIndex] of a byte stays below the length. *)
Lemma LastIndex_byte_range (c : ascii) (s : string) :
  LastIndex s (String c "") = (-1)%Z
  \/ (0 <= LastIndex s (String c "") < len s)%Z.
Proof.
  destruct (has_dec c s) as [H|H].
  - right. destruct (has_last_split _ _ H) as (a & b & -> & Hb).
    unfold LastIndex. rewrite LastIndex_from_last by (assumption || lia).
    unfold len. rewrite length_append. simpl String.length. lia.
  - left. apply LastIndex_from_absent, H.
Qed.


Lemma eqb_false (s t : string) : s <> t -> String.eqb s t = false.
Proof. apply String.eqb_neq. Qed.

Lemma has_take (c : ascii) (n : nat) (s : string) : has c (take n s) -> has c s.
Proof.
  unfold has. revert s. induction n as [|n IH]; intros [|a s]; simpl; try tauto.
  intros [H|H]; auto.
Qed.

Lemma has_TrimSuffix (c : ascii) (s suffix : string) :
  has c (TrimSuffix s suffix) -> has c s.
Proof.
  unfold TrimSuffix. destruct (HasSuffix s suffix); [apply has_take|auto].
Qed.

Lemma append_inj_l (s t u : string) : s ++ t = s ++ u -> t = u.
Proof. induction s as [|c s IH]; simpl; [auto|]. intros [= H]. auto. Qed.

Lemma append_nonempty (s t : string) : t <> "" -> s ++ t <> "".
Proof. destruct s; simpl; [auto|discriminate]. Qed.

End StringFacts.

Module PathFacts.
Import GoStrings GoFilepath StringFacts.

Lemma ext_scan_dot (l r acc : list ascii) :
  ~ In "."%char l -> ~ In "/"%char l ->
  ext_scan (l ++ "."%char :: r) acc = ("."%char :: rev l ++ acc)%list.
Proof.
  revert acc. induction l as [|c l IH]; intros acc Hd Hs; [reflexivity|].
  simpl. unfold IsPathSeparator, Separator.
  destruct (Ascii.eqb_spec c "/"%char) as [->|_]; [exfalso; apply Hs; left; reflexivity|].
  destruct (Ascii.eqb_spec c "."%char) as [->|_]; [exfalso; apply Hd; left; reflexivity|].
  rewrite IH
    by (intro H; first [apply Hd; right; exact H | apply Hs; right; exact H]).
  rewrite <- app_assoc. reflexivity.
Qed.

(** [filepath.Ext] of a name that ends in a dot and an extension free of
    dots and separators. *)
Lemma Ext_append (s ext : string) :
  ~ has "."%char ext -> ~ has "/"%char ext ->
  Ext (s ++ String "."%char ext) = String "."%char ext.
Proof.
  unfold has, Ext. intros Hd Hs. rewrite list_of_append. simpl.
  rewrite rev_app_distr. simpl rev. rewrite <- app_assoc. simpl.
  rewrite ext_scan_dot by (rewrite <- in_rev; assumption).
  rewrite rev_involutive, app_nil_r. simpl.
  rewrite string_of_list_ascii_of_string. reflexivity.
Qed.



Lemma components_child (dir b : string) :
  ~ has "/"%char dir -> ~ has "/"%char b -> components (dir ++ "/" ++ b) = [dir; b].
Proof. intros. apply (Split_two "/"%char); assumption. Qed.

(** [filepath.Base] of a name under a directory is the name. *)
Lemma Base_child (dir b : string) :
  ~ has "/"%char dir -> ~ has "/"%char b -> b <> "" -> Base (dir ++ "/" ++ b) = b.
Proof.
  intros Hd Hb He. unfold Base. rewrite components_child by assumption.
  rewrite eqb_false by (destruct dir; discriminate).
  simpl. rewrite (eqb_false He). destruct (negb (String.eqb dir "")); reflexivity.
Qed.

End PathFacts.

Module URLFacts.
Import GoStrings GoURL StringFacts.

Lemma QueryUnescape_plain (s : string) :
  ~ has "+"%char s -> ~ has "%"%char s -> QueryUnescape s = Some s.
Proof.
  unfold has. induction s as [|c s IH]; intros Hp Hq; [reflexivity|].
  cbn [QueryUnescape].
  destruct (Ascii.eqb_spec c "+"%char) as [->|_]; [exfalso; apply Hp; left; reflexivity|].
  destruct (Ascii.eqb_spec c "%"%char) as [->|_]; [exfalso; apply Hq; left; reflexivity|].
  rewrite IH by (intro H; first [apply Hp; right; exact H | apply Hq; right; exact H]).
  reflexivity.
Qed.

Lemma Contains_byte_false (c : ascii) (s : string) :
  ~ has c s -> Contains s (String c "") = false.
Proof.
  intro H. destruct (Contains s (String c "")) eqn:E; [|reflexivity].
  apply Contains_byte in E. contradiction.
Qed.

(** The query [version=v] of a plain value parses to that one pair. *)
Lemma ParseQuery_version (v : string) :
  plain v -> ParseQuery ("version=" ++ v) = [("version", v)].
Proof.
  intros (Ha & Hs & Hp & Hq). unfold ParseQuery, Split.
  rewrite split_go_absent
    by (intro H; apply (has_append "&"%char "version=" v) in H;
        destruct H as [H|H]; [|contradiction];
        repeat (destruct H as [H|H]; [discriminate|]); exact H).
  cbn [flat_map rev app]. rewrite app_nil_r.
  rewrite string_of_list_ascii_of_string.
  unfold parsePair.
  rewrite Contains_byte_false
    by (intro H; apply (has_append ";"%char "version=" v) in H;
        destruct H as [H|H]; [|contradiction];
        repeat (destruct H as [H|H]; [discriminate|]); exact H).
  assert (Hcut : Cut ("version=" ++ v) "=" = ("version", v, true)).
  { unfold Cut, Index. cbn [append Index_from]. rewrite !prefix_byte. cbn.
    reflexivity. }
  rewrite Hcut. cbn. rewrite QueryUnescape_plain by assumption. reflexivity.
Qed.

Lemma request_of_version (route v : string) :
  ~ has "?"%char route -> plain v ->
  request_of (route ++ "?version=" ++ v) = [("version", v)].
Proof.
  intros Hr Hv. unfold request_of, Cut.
  assert (Hi : Index (route ++ "?version=" ++ v) "?" = len route).
  { unfold Index, len.
    assert (G : forall i, Index_from i (route ++ String "?"%char ("version=" ++ v)) "?"
                          = (i + Z.of_nat (String.length route))%Z).
    { induction route as [|c route IH]; intro i.
      - cbn [append Index_from]. rewrite prefix_byte, Ascii.eqb_refl.
        simpl. rewrite Z.add_0_r. reflexivity.
      - cbn [append Index_from]. rewrite prefix_byte.
        destruct (Ascii.eqb_spec "?"%char c) as [<-|_];
          [exfalso; apply Hr; left; reflexivity|].
        rewrite IH by (intro H; apply Hr; right; exact H).
        simpl String.length. lia. }
    transitivity (0 + Z.of_nat (String.length route))%Z; [exact (G 0%Z)|lia]. }
  rewrite Hi. unfold len.
  destruct (Z.ltb_spec (Z.of_nat (String.length route)) 0); [lia|].
  rewrite Nat2Z.id.
  replace (String.length route + String.length "?")%nat
    with (S (String.length route)) by (simpl; lia).
  change (route ++ "?version=" ++ v)
    with (route ++ String "?"%char ("version=" ++ v)).
  rewrite drop_past. apply ParseQuery_version, Hv.
Qed.

(** A byte that is not unreserved is not among the bytes of a literal
    value. *)
Lemma literal_has (c : ascii) (v : string) :
  literal v = true -> unreserved c = false -> ~ has c v.
Proof.
  unfold literal, has. intros Hl Hc Hin.
  rewrite forallb_forall in Hl. rewrite (Hl c Hin) in Hc. discriminate.
Qed.

Lemma literal_plain (v : string) : literal v = true -> plain v.
Proof. intro Hl. repeat split; apply (literal_has _ _ Hl); reflexivity. Qed.




Lemma Index_from_first (c : ascii) (s t : string) : forall i,
  ~ has c s ->
  Index_from i (s ++ String c t) (String c "") = (i + len s)%Z.
Proof.
  unfold len. induction s as [|a s IH]; intros i Hs.
  - cbn [append Index_from]. rewrite prefix_byte, Ascii.eqb_refl. simpl. lia.
  - cbn [append Index_from]. rewrite prefix_byte.
    destruct (Ascii.eqb_spec c a) as [<-|_]; [exfalso; apply Hs; left; reflexivity|].
    rewrite IH by (intro H; apply Hs; right; exact H).
    simpl String.length. lia.
Qed.

(** [strings.Cut] at the first occurrence of a byte. *)
Lemma Cut_byte (c : ascii) (s t : string) :
  ~ has c s -> Cut (s ++ String c t) (String c "") = (s, t, true).
Proof.
  intro Hs. unfold Cut, Index. rewrite Index_from_first by assumption.
  unfold len. destruct (Z.ltb_spec (0 + Z.of_nat (String.length s)) 0); [lia|].
  replace (Z.to_nat (0 + Z.of_nat (String.length s))) with (String.length s) by lia.
  rewrite take_append.
  replace (String.length s + String.length (String c ""))%nat
    with (S (String.length s)) by (simpl; lia).
  rewrite drop_past. reflexivity.
Qed.

End URLFacts.

Module DigestFacts.
Import SHA256.

Lemma round_length (s : list Z) (kw : Z * Z) :
  List.length s = 8%nat -> List.length (round s kw) = 8%nat.
Proof.
  intro H. do 9 (destruct s as [|? s]; try discriminate). reflexivity.
Qed.

Lemma rounds_length (kws : list (Z * Z)) : forall s,
  List.length s = 8%nat -> List.length (fold_left round kws s) = 8%nat.
Proof.
  induction kws as [|kw kws IH]; intros s H; simpl; [assumption|].
  apply IH, round_length, H.
Qed.

Lemma compress_length (h block : list Z) :
  List.length h = 8%nat -> List.length (compress h block) = 8%nat.
Proof.
  intro H. unfold compress.
  rewrite length_map, length_combine, rounds_length, H by assumption. reflexivity.
Qed.

Lemma be_bytes_length (n : nat) (x : Z) : List.length (be_bytes n x) = n.
Proof. unfold be_bytes. rewrite length_map, length_rev, length_seq. reflexivity. Qed.

(** A digest has 32 bytes. *)
Lemma Sum256_length (msg : list Z) : List.length (Sum256 msg) = 32%nat.
Proof.
  unfold Sum256.
  assert (H : List.length (fold_left compress (blocks (pad msg)) init) = 8%nat).
  { generalize (blocks (pad msg)) as bs.
    assert (G : forall bs h, List.length h = 8%nat ->
                List.length (fold_left compress bs h) = 8%nat).
    { induction bs as [|b bs IH]; intros h Hh; simpl; [assumption|].
      apply IH, compress_length, Hh. }
    intro bs. apply G. reflexivity. }
  revert H. generalize (fold_left compress (blocks (pad msg)) init) as ws.
  intros ws H. do 9 (destruct ws as [|? ws]; try discriminate). reflexivity.
Qed.

Lemma EncodeToString_length (bytes : list Z) :
  String.length (GoHex.EncodeToString bytes) = (2 * List.length bytes)%nat.
Proof.
  induction bytes as [|b bs IH]; simpl; [reflexivity|]. rewrite IH. lia.
Qed.

(** The hexadecimal checksum is never the empty string, so [omitempty]
    never drops a checksum that was set. *)
Lemma checksum_not_empty (msg : list Z) :
  GoHex.EncodeToString (Sum256 msg) <> "".
Proof.
  intro H. apply (f_equal String.length) in H.
  rewrite EncodeToString_length, Sum256_length in H. discriminate.
Qed.

(** The bytes of a digest are bytes, and their hexadecimal encoding is
    made of lower-case hexadecimal digits. *)
Lemma be_bytes_range (n : nat) (x b : Z) :
  In b (be_bytes n x) -> (0 <= b < 256)%Z.
Proof.
  unfold be_bytes. intro H. apply in_map_iff in H. destruct H as (i & <- & _).
  change 255%Z with (Z.ones 8). rewrite Z.land_ones by lia.
  apply Z.mod_pos_bound. reflexivity.
Qed.

Lemma Sum256_range (msg : list Z) (b : Z) :
  In b (Sum256 msg) -> (0 <= b < 256)%Z.
Proof.
  unfold Sum256. intro H. apply in_flat_map in H. destruct H as (w & _ & H).
  apply (be_bytes_range _ _ _ H).
Qed.

Lemma hexdigit_hex (n : Z) :
  (0 <= n < 16)%Z -> GoStrings.has (GoHex.hexdigit n) "0123456789abcdef".
Proof.
  intro H. assert (E : exists k, (k < 16)%nat /\ n = Z.of_nat k)
    by (exists (Z.to_nat n); lia).
  destruct E as (k & Hk & ->). unfold GoHex.hexdigit, GoStrings.has.
  rewrite Nat2Z.id.
  do 16 (destruct k as [|k]; [simpl; tauto|]). lia.
Qed.

Lemma EncodeToString_hex (bytes : list Z) :
  (forall b, In b bytes -> (0 <= b < 256)%Z) ->
  forall ch, GoStrings.has ch (GoHex.EncodeToString bytes)
             -> GoStrings.has ch "0123456789abcdef".
Proof.
  induction bytes as [|b bs IH]; intros Hb ch; [intros []|].
  cbn [GoHex.EncodeToString]. intro H.
  assert (Hr : (0 <= b < 256)%Z) by (apply Hb; left; reflexivity).
  apply StringFacts.has_cons in H. destruct H as [<-|H].
  - apply hexdigit_hex. rewrite Z.shiftr_div_pow2 by lia.
    change (2 ^ 4)%Z with 16%Z. split; [apply Z.div_pos; lia|].
    apply Z.div_lt_upper_bound; lia.
  - apply StringFacts.has_cons in H. destruct H as [<-|H].
    + apply hexdigit_hex. change 15%Z with (Z.ones 4). rewrite Z.land_ones by lia.
      apply Z.mod_pos_bound. reflexivity.
    + apply IH; [|assumption]. intros b' Hb'. apply Hb. right. exact Hb'.
Qed.

End DigestFacts.

Module SortFacts.
Import GoSort.

Section Sorting.
Variable A : Type.
Variable less : A -> A -> bool.

Lemma insert_perm (x : A) (l : list A) : Permutation (insert less x l) (x :: l).
Proof.
  induction l as [|y l IH]; simpl; [reflexivity|].
  destruct (less x y); [reflexivity|].
  rewrite IH. apply perm_swap.
Qed.

Lemma fold_insert_perm (l acc : list A) :
  Permutation (fold_left (fun sorted x => insert less x sorted) l acc) (l ++ acc)%list.
Proof.
  revert acc. induction l as [|x l IH]; intro acc; simpl; [reflexivity|].
  rewrite IH, insert_perm. symmetry. apply Permutation_middle.
Qed.

(** Sorting keeps the elements. *)
Lemma sort_by_perm (l : list A) : Permutation (sort_by less l) l.
Proof.
  unfold sort_by. rewrite fold_insert_perm, app_nil_r. reflexivity.
Qed.

Lemma sort_by_In (l : list A) (x : A) : In x (sort_by less l) <-> In x l.
Proof.
  split; apply Permutation_in; [|symmetry]; apply sort_by_perm.
Qed.

Lemma sort_by_nil (l : list A) : sort_by less l = [] <-> l = [].
Proof.
  split; intro H.
  - apply Permutation_nil. rewrite <- H. apply sort_by_perm.
  - subst. reflexivity.
Qed.

Hypothesis less_asym : forall a b, less a b = true -> less b a = false.
Hypothesis less_negtrans :
  forall a b c, less b a = false -> less c b = false -> less c a = false.

Lemma insert_ascending (x : A) (l : list A) :
  ascending less l -> ascending less (insert less x l).
Proof.
  unfold ascending. induction 1 as [|y l Hl IH Hy]; simpl.
  - constructor; constructor.
  - destruct (less x y) eqn:E.
    + constructor; [constructor; assumption|].
      constructor; [apply less_asym; assumption|].
      rewrite Forall_forall in *. intros z Hz.
      apply less_negtrans with y; [apply less_asym|]; auto.
    + constructor; [assumption|].
      rewrite Forall_forall in *. intros z Hz.
      apply (Permutation_in _ (insert_perm x l)) in Hz.
      destruct Hz as [<-|Hz]; auto.
Qed.

(** Sorting yields an ascending slice. *)
Lemma sort_by_ascending (l : list A) : ascending less (sort_by less l).
Proof.
  unfold sort_by.
  assert (G : forall acc, ascending less acc ->
            ascending less (fold_left (fun sorted x => insert less x sorted) l acc)).
  { induction l as [|x l IH]; intros acc Hacc; simpl; [assumption|].
    apply IH, insert_ascending, Hacc. }
  apply G. constructor.
Qed.

End Sorting.

Section Last.
Variable A : Type.

(** [s[len(s)-1]] is the last element, and panics on the empty slice
    only. *)
Lemma index_last_nil : index (@nil A) (Z.of_nat (List.length (@nil A)) - 1) = None.
Proof. reflexivity. Qed.

Lemma index_last_app (l : list A) (x : A) :
  index (l ++ [x])%list (Z.of_nat (List.length (l ++ [x])%list) - 1) = Some x.
Proof.
  unfold index. rewrite length_app. simpl.
  destruct (Z.ltb_spec (Z.of_nat (List.length l + 1) - 1) 0) as [H|H]; [lia|].
  replace (Z.to_nat (Z.of_nat (List.length l + 1) - 1)) with (List.length l) by lia.
  rewrite nth_error_app2, Nat.sub_diag by lia. reflexivity.
Qed.

Lemma index_last_None (l : list A) :
  index l (Z.of_nat (List.length l) - 1) = None <-> l = [].
Proof.
  split; [|intros ->; reflexivity].
  induction l as [|x l _] using rev_ind; [reflexivity|].
  rewrite index_last_app. discriminate.
Qed.

Lemma index_last_Some (l : list A) (x : A) :
  index l (Z.of_nat (List.length l) - 1) = Some x <-> exists l', l = (l' ++ [x])%list.
Proof.
  split.
  - induction l as [|y l _] using rev_ind; [discriminate|].
    rewrite index_last_app. intros [= ->]. eauto.
  - intros [l' ->]. apply index_last_app.
Qed.

Variable less : A -> A -> bool.

(** In an ascending slice no element is above the last one. *)
Lemma ascending_app_last (l : list A) (m x : A) :
  ascending less (l ++ [m])%list -> In x l -> less m x = false.
Proof.
  unfold ascending. induction l as [|y l IH]; simpl; [tauto|].
  intros H [<-|Hx].
  - apply StronglySorted_inv in H. destruct H as [_ H].
    rewrite Forall_forall in H. apply H, in_or_app. right. left. reflexivity.
  - apply IH; [|assumption]. apply StronglySorted_inv in H. tauto.
Qed.

Lemma ascendingb_spec (l : list A) : ascendingb less l = true <-> ascending less l.
Proof.
  unfold ascending. induction l as [|x l IH]; simpl.
  - split; [constructor|reflexivity].
  - rewrite andb_true_iff, IH, forallb_forall. split.
    + intros [H1 H2]. constructor; [assumption|].
      rewrite Forall_forall. intros y Hy. apply negb_true_iff, H1, Hy.
    + intro H. apply StronglySorted_inv in H. destruct H as [H2 H1].
      rewrite Forall_forall in H1. split; [|assumption].
      intros y Hy. apply negb_true_iff, H1, Hy.
Qed.

End Last.

(** [sort.Strings] yields an ascending permutation. *)
Lemma Strings_ascending (l : list string) : ascending String.ltb (Strings l).
Proof.
  apply sort_by_ascending.
  - apply StringOrder.ltb_asym.
  - apply StringOrder.ltb_negtrans.
Qed.

Lemma Strings_In (l : list string) (x : string) : In x (Strings l) <-> In x l.
Proof. apply sort_by_In. Qed.

Lemma ltb_antisym (s t : string) :
  String.ltb s t = false -> String.ltb t s = false -> s = t.
Proof.
  unfold String.ltb. intros H1 H2. apply String.compare_eq_iff.
  rewrite (String.compare_antisym t s) in H2.
  destruct (String.compare s t); simpl in *; congruence.
Qed.

(** A slice of strings has one ascending arrangement only: whatever
    algorithm [sort.Strings] runs, its result is the one of the model. *)
Lemma ascending_unique (l1 : list string) : forall l2,
  ascending String.ltb l1 -> ascending String.ltb l2 -> Permutation l1 l2 -> l1 = l2.
Proof.
  unfold ascending. induction l1 as [|x l1 IH]; intros l2 H1 H2 Hp.
  - apply Permutation_nil in Hp. subst. reflexivity.
  - destruct l2 as [|y l2]; [apply Permutation_sym, Permutation_nil in Hp; discriminate|].
    apply StronglySorted_inv in H1. destruct H1 as [H1 Hx].
    apply StronglySorted_inv in H2. destruct H2 as [H2 Hy].
    rewrite Forall_forall in Hx, Hy.
    assert (E : x = y).
    { assert (Hxy : In x (y :: l2)) by (apply (Permutation_in _ Hp); left; reflexivity).
      assert (Hyx : In y (x :: l1))
        by (apply (Permutation_in _ (Permutation_sym Hp)); left; reflexivity).
      destruct Hxy as [->|Hxy]; [reflexivity|].
      destruct Hyx as [->|Hyx]; [reflexivity|].
      apply ltb_antisym; [apply Hy, Hxy|apply Hx, Hyx]. }
    subst y. f_equal. apply IH; try assumption.
    apply Permutation_cons_inv with x. exact Hp.
Qed.

Lemma Strings_unique (l sorted : list string) :
  ascending String.ltb sorted -> Permutation sorted l -> sorted = Strings l.
Proof.
  intros Hasc Hp. apply ascending_unique; [assumption|apply Strings_ascending|].
  rewrite Hp. symmetry. apply sort_by_perm.
Qed.

End SortFacts.

Module WalkFacts.
Import GoFilepath FS.

(** Both servers hand the walk a callback of the same shape: it returns
    the error it is given, passes over directories, and appends to the
    slice what the name of a regular file contributes ([item]). *)
Section Collector.
Variable X : Type.
Variable item : string -> list X.
Variable fn : string -> option FileInfo -> option error -> list X
              -> list X * option error.

Hypothesis fn_err : forall path info e st, fn path info (Some e) st = (st, Some e).
Hypothesis fn_dir : forall path name st,
  fn path (Some {| Name := name; IsDir := true |}) None st = (st, None).
Hypothesis fn_file : forall path name st,
  fn path (Some {| Name := name; IsDir := false |}) None st
  = ((st ++ item name)%list, None).

Lemma walk_collect (n : Node) : forall path name st,
  readable_tree n = true ->
  walk fn path name n st = ((st ++ flat_map item (files name n))%list, None).
Proof.
  induction n as [content|readable entries IH] using Node_ind; intros path name st Hr.
  - simpl. rewrite fn_file, app_nil_r. reflexivity.
  - simpl in Hr. apply andb_true_iff in Hr. destruct Hr as [-> Hr].
    simpl. rewrite fn_dir. revert st.
    induction entries as [|[nm child] es IHes]; intro st; simpl.
    + rewrite app_nil_r. reflexivity.
    + simpl in Hr. apply andb_true_iff in Hr. destruct Hr as [Hc Hes].
      inversion IH as [|? ? IHc IHrest]; subst. simpl in IHc.
      rewrite IHc by assumption.
      rewrite IHes by assumption.
      rewrite flat_map_app, app_assoc. reflexivity.
Qed.

Lemma walk_unreadable (n : Node) : forall path name st,
  readable_tree n = false ->
  snd (walk fn path name n st) = Some EACCES.
Proof.
  induction n as [content|readable entries IH] using Node_ind; intros path name st Hr.
  - discriminate.
  - simpl in Hr. destruct readable; simpl in Hr.
    + simpl. rewrite fn_dir. revert st.
      induction entries as [|[nm child] es IHes]; intro st; simpl in *; [discriminate|].
      inversion IH as [|? ? IHc IHrest]; subst. simpl in IHc.
      destruct (readable_tree child) eqn:Ec.
      * rewrite walk_collect by assumption. apply IHes; assumption.
      * specialize (IHc (Join path nm) nm st eq_refl).
        destruct (walk fn (Join path nm) nm child st) as [st' e]. simpl in IHc.
        subst e. reflexivity.
    + simpl. rewrite fn_err. reflexivity.
Qed.

Lemma walkDir_collect (n : Node) : forall path name st,
  readable_tree n = true ->
  walkDir fn path name n st = ((st ++ flat_map item (files name n))%list, None).
Proof.
  induction n as [content|readable entries IH] using Node_ind; intros path name st Hr.
  - simpl. rewrite fn_file, app_nil_r. reflexivity.
  - simpl in Hr. apply andb_true_iff in Hr. destruct Hr as [-> Hr].
    simpl. rewrite fn_dir. revert st.
    induction entries as [|[nm child] es IHes]; intro st; simpl.
    + rewrite app_nil_r. reflexivity.
    + simpl in Hr. apply andb_true_iff in Hr. destruct Hr as [Hc Hes].
      inversion IH as [|? ? IHc IHrest]; subst. simpl in IHc.
      rewrite IHc by assumption.
      rewrite IHes by assumption.
      rewrite flat_map_app, app_assoc. reflexivity.
Qed.

Lemma walkDir_unreadable (n : Node) : forall path name st,
  readable_tree n = false ->
  snd (walkDir fn path name n st) = Some EACCES.
Proof.
  induction n as [content|readable entries IH] using Node_ind; intros path name st Hr.
  - discriminate.
  - simpl in Hr. destruct readable; simpl in Hr.
    + simpl. rewrite fn_dir. revert st.
      induction entries as [|[nm child] es IHes]; intro st; simpl in *; [discriminate|].
      inversion IH as [|? ? IHc IHrest]; subst. simpl in IHc.
      destruct (readable_tree child) eqn:Ec.
      * rewrite walkDir_collect by assumption. apply IHes; assumption.
      * specialize (IHc (Join path nm) nm st eq_refl).
        destruct (walkDir fn (Join path nm) nm child st) as [st' e]. simpl in IHc.
        subst e. reflexivity.
    + simpl. rewrite fn_dir, fn_err. reflexivity.
Qed.

(** Whatever stops the walk, what it has appended by then comes from
    regular files of the tree. *)
Lemma walk_incl (n : Node) : forall path name st,
  exists l, fst (walk fn path name n st) = (st ++ l)%list
            /\ incl l (flat_map item (files name n)).
Proof.
  induction n as [content|readable entries IH] using Node_ind; intros path name st.
  - simpl. rewrite fn_file. exists (item name). split; [reflexivity|].
    rewrite app_nil_r. apply incl_refl.
  - simpl. destruct readable.
    + rewrite fn_dir. revert st.
      induction entries as [|[nm child] es IHes]; intro st; simpl.
      * exists []. rewrite app_nil_r. split; [reflexivity|apply incl_nil_l].
      * inversion IH as [|? ? IHc IHrest]; subst. simpl in IHc.
        destruct (IHc (Join path nm) nm st) as (l1 & E1 & I1).
        destruct (walk fn (Join path nm) nm child st) as [st' e]. simpl in E1. subst st'.
        destruct e as [e|].
        -- exists l1. split; [reflexivity|]. rewrite flat_map_app.
           apply incl_appl, I1.
        -- destruct (IHes IHrest (st ++ l1)%list) as (l2 & E2 & I2).
           exists (l1 ++ l2)%list. rewrite E2, app_assoc. split; [reflexivity|].
           rewrite flat_map_app.
           apply incl_app; [apply incl_appl|apply incl_appr]; assumption.
    + rewrite fn_err. exists []. rewrite app_nil_r.
      split; [reflexivity|apply incl_nil_l].
Qed.

End Collector.

Lemma assoc_In (name : string) (entries : list (string * Node)) (child : Node) :
  assoc name entries = Some child -> In (name, child) entries.
Proof.
  induction entries as [|[k x] es IH]; simpl; [discriminate|].
  destruct (String.eqb_spec k name) as [->|_].
  - intros [= ->]. left. reflexivity.
  - intro H. right. apply IH, H.
Qed.

(** A regular file found by following names down the tree is among the
    files the walks meet. *)
Lemma lookup_files (n : Node) : forall name dirs f content,
  lookup n (dirs ++ [f])%list = Some (File content) -> In f (files name n).
Proof.
  induction n as [c|readable entries IH] using Node_ind; intros name dirs f content H.
  - destruct dirs; discriminate.
  - simpl. apply in_flat_map. rewrite Forall_forall in IH.
    destruct dirs as [|d dirs]; simpl in H.
    + destruct (assoc f entries) as [child|] eqn:E; [|discriminate].
      injection H as ->. apply assoc_In in E.
      exists (f, File content). split; [assumption|left; reflexivity].
    + destruct (assoc d entries) as [child|] eqn:E; [|discriminate].
      apply assoc_In in E.
      exists (d, child). split; [assumption|].
      apply (IH (d, child) E d dirs f content H).
Qed.

End WalkFacts.

Module ResolveFacts.
Import GoStrings GoFilepath FS StringFacts.






Lemma hasNUL_true (s : string) : has NUL s -> hasNUL s = true.
Proof.
  unfold hasNUL, has. intro H. apply existsb_exists. exists NUL.
  split; [exact H|apply Ascii.eqb_refl].
Qed.


(** A name with a NUL byte is refused whatever the tree holds. *)
Lemma resolve_NUL (fs : FileSystem) (path : string) :
  has NUL path -> resolve fs path = inl EINVAL.
Proof. intro H. unfold resolve. rewrite (@hasNUL_true path H). reflexivity. Qed.

End ResolveFacts.

(* ===================================================================== *)
(** * Properties of the gin server                                         *)
(* ===================================================================== *)

Module OtaserverFacts.
Import GoStrings GoFilepath FS Otaserver Fixtures.

Lemma walkFn_err path info e st : walkFn path info (Some e) st = (st, Some e).
Proof. reflexivity. Qed.

Lemma walkFn_dir path name st :
  walkFn path (Some {| Name := name; IsDir := true |}) None st = (st, None).
Proof. reflexivity. Qed.

Lemma walkFn_file path name st :
  walkFn path (Some {| Name := name; IsDir := false |}) None st
  = ((st ++ versionsOf name)%list, None).
Proof.
  unfold walkFn, versionsOf. simpl.
  destruct (String.eqb (extractVersionFromFile name) ""); simpl;
    [rewrite app_nil_r|]; reflexivity.
Qed.

(** The scan of a directory whose tree can be read: every regular file
    of the tree contributes, at any depth, and the walk reports no
    error. *)
Lemma getAvailableVersions_readable (fs : FileSystem) (tree : Node) :
  resolve fs otaFilesPath = inr tree ->
  readable_tree tree = true ->
  result (getAvailableVersions fs)
  = (flat_map versionsOf (files (Base otaFilesPath) tree), None).
Proof.
  intros Hres Hr. unfold getAvailableVersions, call, result, Walk. simpl fst.
  rewrite Hres.
  rewrite (WalkFacts.walk_collect versionsOf walkFn walkFn_dir walkFn_file)
    by assumption.
  reflexivity.
Qed.

Lemma getAvailableVersions_unreadable (fs : FileSystem) (tree : Node) :
  resolve fs otaFilesPath = inr tree ->
  readable_tree tree = false ->
  snd (result (getAvailableVersions fs)) = Some EACCES.
Proof.
  intros Hres Hr. unfold getAvailableVersions, call, result, Walk. simpl fst.
  rewrite Hres.
  apply (WalkFacts.walk_unreadable versionsOf walkFn walkFn_err walkFn_dir walkFn_file).
  assumption.
Qed.

Lemma getAvailableVersions_missing (fs : FileSystem) (e : error) :
  resolve fs otaFilesPath = inl e ->
  result (getAvailableVersions fs) = ([], Some e).
Proof.
  intros Hres. unfold getAvailableVersions, call, result, Walk. simpl fst.
  rewrite Hres. reflexivity.
Qed.

(** A name [family_token.ext]: the base name without extension is
    [family_token]. *)
Lemma base_of_name (family token ext : string) :
  ~ has "."%char ext -> ~ has "/"%char ext ->
  TrimSuffix (family ++ "_" ++ token ++ "." ++ ext)
             (Ext (family ++ "_" ++ token ++ "." ++ ext))
  = family ++ "_" ++ token.
Proof.
  intros Hd Hs.
  replace (family ++ "_" ++ token ++ "." ++ ext)
    with ((family ++ "_" ++ token) ++ String "."%char ext)
    by (rewrite !StringFacts.append_assoc; reflexivity).
  rewrite PathFacts.Ext_append by assumption. apply StringFacts.TrimSuffix_append.
Qed.

(** [extractVersionFromFile] finds the token when the family has no
    underscore, and nothing as soon as it has one. *)
Lemma extractVersionFromFile_plain_family (family token ext : string) :
  ~ has "_"%char family -> ~ has "_"%char token ->
  ~ has "."%char ext -> ~ has "/"%char ext ->
  extractVersionFromFile (family ++ "_" ++ token ++ "." ++ ext) = token.
Proof.
  intros Hf Ht Hd Hs. unfold extractVersionFromFile.
  rewrite base_of_name by assumption.
  change (family ++ "_" ++ token) with (family ++ String "_"%char token).
  rewrite StringFacts.Split_two by assumption. reflexivity.
Qed.

Lemma extractVersionFromFile_underscore_in_family (family token ext : string) :
  has "_"%char family ->
  ~ has "."%char ext -> ~ has "/"%char ext ->
  extractVersionFromFile (family ++ "_" ++ token ++ "." ++ ext) = "".
Proof.
  intros Hf Hd Hs. unfold extractVersionFromFile.
  rewrite base_of_name by assumption.
  rewrite StringFacts.Split_length, StringFacts.count_append.
  apply StringFacts.count_has in Hf. simpl.
  destruct (count_occ ascii_dec (list_ascii_of_string family) "_"%char) as [|n];
    [lia|].
  replace (S n + S (count_occ ascii_dec (list_ascii_of_string token) "_"%char))%nat
    with (S (S (n + count_occ ascii_dec (list_ascii_of_string token) "_"%char)))
    by lia.
  reflexivity.
Qed.

(** The last element of the sorted versions is one of them and none is
    above it. *)
Lemma latest_is_maximum (versions : list string) (latest : string) :
  index (GoSort.Strings versions)
        (Z.of_nat (List.length (GoSort.Strings versions)) - 1) = Some latest ->
  In latest versions /\ forall x, In x versions -> String.ltb latest x = false.
Proof.
  intro H. apply SortFacts.index_last_Some in H. destruct H as [l' Hl].
  pose proof (SortFacts.Strings_ascending versions) as Hasc. rewrite Hl in Hasc.
  split.
  - apply SortFacts.Strings_In. rewrite Hl. apply in_or_app. right. left. reflexivity.
  - intros x Hx. apply SortFacts.Strings_In in Hx. rewrite Hl in Hx.
    apply in_app_or in Hx. destruct Hx as [Hx|[<-|[]]].
    + eapply SortFacts.ascending_app_last; eauto.
    + apply StringOrder.ltb_irrefl.
Qed.

Lemma latest_exists (versions : list string) :
  versions <> [] ->
  exists latest,
    index (GoSort.Strings versions)
          (Z.of_nat (List.length (GoSort.Strings versions)) - 1) = Some latest.
Proof.
  intro Hne.
  destruct (index (GoSort.Strings versions)
              (Z.of_nat (List.length (GoSort.Strings versions)) - 1)) eqn:E; eauto.
  apply SortFacts.index_last_None, SortFacts.sort_by_nil in E. contradiction.
Qed.

Ltac scan_result H :=
  unfold result in H;
  match type of H with
  | fst (getAvailableVersions ?fs) = _ =>
      let r := fresh "r" in
      let l := fresh "l" in
      assert (Hc : snd (getAvailableVersions fs) = [CallWalk otaFilesPath])
        by reflexivity;
      destruct (getAvailableVersions fs) as [r l]; simpl in H, Hc; subst r l
  end.

(** What [checkForUpdate] does once the scan has found versions: it
    opens the plugin file of the latest one, fails when that cannot be
    read, and otherwise compares. *)
Lemma checkForUpdate_compares (fs : FileSystem) (c : Request)
  (versions : list string) (latest : string) :
  Query c "current_version" <> "" ->
  result (getAvailableVersions fs) = (versions, None) ->
  index (GoSort.Strings versions)
        (Z.of_nat (List.length (GoSort.Strings versions)) - 1) = Some latest ->
  checkForUpdate fs c
  = (match ReadAll fs (pluginPath latest) with
     | inl _ => JSON 500 (ErrorBody "Error calculating checksum")
     | inr bytes =>
         if String.ltb (Query c "current_version") latest
         then JSON 200 (VersionBody {|
                LatestVersion := latest;
                DownloadURL := "/download?version=" ++ latest;
                CheckSum := GoHex.EncodeToString
                              (SHA256.Sum256 (SHA256.bytes_of_string bytes)) |})
         else JSON 200 (VersionBody {|
                LatestVersion := latest; DownloadURL := ""; CheckSum := "" |})
     end,
     [CallWalk otaFilesPath; CallOpen (pluginPath latest)]).
Proof.
  intros Hcur Hscan Hlast. unfold checkForUpdate.
  apply String.eqb_neq in Hcur. rewrite Hcur.
  scan_result Hscan. unfold bind. rewrite Hlast.
  unfold CalculateChecksum, call, pluginPath, Sprintf_s.
  rewrite StringFacts.append_empty_r. 
  destruct (ReadAll fs _); [reflexivity|].
  destruct (String.ltb _ latest); reflexivity.
Qed.

Lemma checkForUpdateBlink_compares (route : string) (fs : FileSystem) (c : Request)
  (versions : list string) (latest : string) :
  Query c "current_version" <> "" ->
  result (getAvailableVersions fs) = (versions, None) ->
  index (GoSort.Strings versions)
        (Z.of_nat (List.length (GoSort.Strings versions)) - 1) = Some latest ->
  checkForUpdateBlink route fs c
  = (if String.ltb (Query c "current_version") latest
     then JSON 200 (VersionBody {|
            LatestVersion := latest;
            DownloadURL := route ++ latest;
            CheckSum := "" |})
     else JSON 200 (VersionBody {|
            LatestVersion := latest; DownloadURL := ""; CheckSum := "" |}),
     [CallWalk otaFilesPath]).
Proof.
  intros Hcur Hscan Hlast. unfold checkForUpdateBlink.
  apply String.eqb_neq in Hcur. rewrite Hcur.
  scan_result Hscan. unfold bind. rewrite Hlast.
  unfold Sprintf_s. rewrite StringFacts.append_empty_r.
  destruct (String.ltb _ latest); reflexivity.
Qed.

(** With no version found the index [len(versions)-1] is [-1]: the three
    check handlers panic. *)
Lemma checkForUpdate_no_versions (fs : FileSystem) (c : Request) :
  Query c "current_version" <> "" ->
  result (getAvailableVersions fs) = ([], None) ->
  result (checkForUpdate fs c) = Panic "index out of range [-1]"
  /\ forall route,
       result (checkForUpdateBlink route fs c) = Panic "index out of range [-1]".
Proof.
  intros Hcur Hscan. apply String.eqb_neq in Hcur.
  unfold checkForUpdate, checkForUpdateBlink. rewrite Hcur.
  scan_result Hscan. split; reflexivity.
Qed.

Lemma check_scan_error (fs : FileSystem) (c : Request) (versions : list string)
  (e : error) :
  Query c "current_version" <> "" ->
  result (getAvailableVersions fs) = (versions, Some e) ->
  result (checkForUpdate fs c)
  = JSON 500 (ErrorBody "Could not fetch available versions")
  /\ forall route,
       result (checkForUpdateBlink route fs c)
       = JSON 500 (ErrorBody "Could not fetch available versions").
Proof.
  intros Hcur Hscan. apply String.eqb_neq in Hcur.
  unfold checkForUpdate, checkForUpdateBlink. rewrite Hcur.
  scan_result Hscan. split; reflexivity.
Qed.

(** Every check request falls in one of four cases. *)
Lemma checkForUpdate_cases (fs : FileSystem) (c : Request) :
  Query c "current_version" = ""
  \/ (exists versions e, result (getAvailableVersions fs) = (versions, Some e))
  \/ result (getAvailableVersions fs) = ([], None)
  \/ (exists versions latest,
        result (getAvailableVersions fs) = (versions, None)
        /\ index (GoSort.Strings versions)
                 (Z.of_nat (List.length (GoSort.Strings versions)) - 1) = Some latest).
Proof.
  destruct (result (getAvailableVersions fs)) as [versions [e|]] eqn:E.
  - right. left. eauto.
  - destruct versions as [|v versions].
    + right. right. left. reflexivity.
    + right. right. right. exists (v :: versions).
      destruct (latest_exists (versions := v :: versions)) as [latest H]; [discriminate|].
      eauto.
Qed.

(** What the download handlers do with a version: one [Stat] of the
    path made from the template, [404] when nothing is there, and the
    file sent in every other case. *)
Lemma download_outcome (family : string) (fs : FileSystem) (c : Request) :
  Query c "version" <> "" ->
  let fileName := family ++ Query c "version" ++ ".wasm" in
  let filePath := Join otaFilesPath fileName in
  download family fs c
  = (match Stat fs filePath with
     | inl ENOENT => JSON 404 (ErrorBody "version not found")
     | _ => SendFile ("attachment; filename=" ++ dquote ++ fileName ++ dquote) filePath
     end,
     [CallStat filePath]).
Proof.
  intro Hv. apply String.eqb_neq in Hv. unfold download. rewrite Hv.
  unfold bind, call, ret, Sprintf_s. simpl.
  destruct (Stat fs _) as [[]|]; reflexivity.
Qed.

Lemma ReadAll_Stat (fs : FileSystem) (path bytes : string) :
  ReadAll fs path = inr bytes ->
  Stat fs path = inr {| Name := Base path; IsDir := false |}.
Proof.
  unfold ReadAll, Stat. destruct (resolve fs path) as [e|[[b|]|]]; try discriminate.
  reflexivity.
Qed.

Lemma ltb_empty_r (s : string) : String.ltb s "" = false.
Proof. destruct s; reflexivity. Qed.

(** On the default pair of endpoints the check only offers a version
    whose plugin file it has just read, so the download of the offered
    locator finds that file, provided the version passes through the
    query unchanged. *)
Lemma default_round_trip (fs : FileSystem) (c : Request) (v : VersionInfo) :
  result (checkForUpdate fs c) = JSON 200 (VersionBody v) ->
  DownloadURL v <> "" ->
  GoURL.plain (LatestVersion v) ->
  DownloadURL v = "/download?version=" ++ LatestVersion v
  /\ (exists bytes, ReadAll fs (pluginPath (LatestVersion v)) = inr bytes)
  /\ result (downloadNewVersion fs (GoURL.request_of (DownloadURL v)))
     = SendFile ("attachment; filename=" ++ dquote
                   ++ ("plugin_" ++ LatestVersion v ++ ".wasm") ++ dquote)
                (pluginPath (LatestVersion v)).
Proof.
  intros Hres Hurl Hplain.
  destruct (checkForUpdate_cases fs c) as [H|[(vs & e & H)|[H|(vs & latest & H & Hl)]]].
  - unfold checkForUpdate in Hres. rewrite H in Hres. discriminate.
  - destruct (String.eqb_spec (Query c "current_version") "") as [E|E].
    + unfold checkForUpdate in Hres. rewrite E in Hres. discriminate.
    + destruct (check_scan_error _ _ E H) as [H1 _]. rewrite H1 in Hres. discriminate.
  - destruct (String.eqb_spec (Query c "current_version") "") as [E|E].
    + unfold checkForUpdate in Hres. rewrite E in Hres. discriminate.
    + destruct (checkForUpdate_no_versions _ _ E H) as [H1 _].
      rewrite H1 in Hres. discriminate.
  - destruct (String.eqb_spec (Query c "current_version") "") as [E|E].
    + unfold checkForUpdate in Hres. rewrite E in Hres. discriminate.
    + rewrite (checkForUpdate_compares _ _ E H Hl) in Hres. unfold result in Hres.
      simpl in Hres.
      destruct (ReadAll fs (pluginPath latest)) as [e|bytes] eqn:Er; [discriminate|].
      destruct (String.ltb (Query c "current_version") latest) eqn:Elt;
        injection Hres as <-; simpl in *; [|contradiction].
      assert (Hne : latest <> "").
      { intros ->. rewrite ltb_empty_r in Elt. discriminate. }
      split; [reflexivity|]. split; [eauto|].
      change (String "/" (String "d" (String "o" (String "w" (String "n"
               (String "l" (String "o" (String "a" (String "d" (String "?"
               (String "v" (String "e" (String "r" (String "s" (String "i"
               (String "o" (String "n" (String "=" latest))))))))))))))))))
        with ("/download" ++ "?version=" ++ latest).
      rewrite URLFacts.request_of_version;
        [|intro Hq; repeat (destruct Hq as [Hq|Hq]; [discriminate|]); exact Hq
         |assumption].
      unfold downloadNewVersion.
      rewrite download_outcome by (simpl; assumption). simpl Query.
      fold (Sprintf_s "plugin_" latest ".wasm"). fold (pluginPath latest).
      rewrite (ReadAll_Stat _ _ Er). reflexivity.
Qed.

(** A version with a plus sign does not pass through the query: the
    check offers it, the server reads the plus of the locator as a space
    and the download looks for another file. *)
Lemma plus_sign_breaks_round_trip :
  result (checkForUpdate fs_build [("current_version", "1.0.0")])
  = JSON 200 (VersionBody {|
      LatestVersion := "1.0.0+b5";
      DownloadURL := "/download?version=1.0.0+b5";
      CheckSum := "44575cf5b28512d75644bf54a517dcef304ff809fd511747621b4d64f19aac66" |})
  /\ GoURL.request_of "/download?version=1.0.0+b5" = [("version", "1.0.0 b5")]
  /\ downloadNewVersion fs_build (GoURL.request_of "/download?version=1.0.0+b5")
     = (JSON 404 (ErrorBody "version not found"),
        [CallStat "ota_files/plugin_1.0.0 b5.wasm"]).
Proof. repeat split; vm_compute; reflexivity. Qed.

(** C1, on [otaserver/main.go].  The artifact directory exists and holds
    no file, the request carries a valid [current_version]: the scan
    succeeds with no version and [checkForUpdate] panics on
    [versions[len(versions)-1]] instead of answering [0.0.0] without
    update. *)
Theorem checkForUpdate_panics_on_empty_catalog :
  result (getAvailableVersions fs_empty) = ([], None)
  /\ result (checkForUpdate fs_empty [("current_version", "1.0.0")])
     = Panic "index out of range [-1]".
Proof. split; reflexivity. Qed.

(** C4, on [otaserver/main.go].  A requested version with path
    separators is not rejected.  For [../../etc/passwd] the handler
    builds the path, calls [os.Stat] on it and answers [404], not [400].
    For [/../../secret] the path that [filepath.Join] cleans lies
    outside the artifact directory, and the file found there is sent. *)
Theorem downloadNewVersion_leaves_artifact_directory :
  downloadNewVersion fs_secret (GoURL.request_of "/download?version=../../etc/passwd")
  = (JSON 404 (ErrorBody "version not found"),
     [CallStat "ota_files/etc/passwd.wasm"])
  /\ Contains "/../../secret" "/" = true
  /\ downloadNewVersion fs_secret (GoURL.request_of "/download?version=/../../secret")
     = (SendFile ("attachment; filename=" ++ dquote
                    ++ "plugin_/../../secret.wasm" ++ dquote)
                 "secret.wasm",
        [CallStat "secret.wasm"])
  /\ ReadAll fs_secret "secret.wasm" = inr "credentials"
  /\ resolve fs_secret "ota_files/secret.wasm" = inl ENOENT.
Proof. repeat split; reflexivity. Qed.

(** C5, on [otaserver/main.go].  The path made for the requested
    version is a directory: [downloadNewVersion] only tests
    [os.IsNotExist] and hands the directory to [c.File] instead of
    answering [400]. *)
Theorem downloadNewVersion_sends_directory :
  Stat fs_dir_artifact "ota_files/plugin_1.0.0.wasm"
  = inr {| Name := "plugin_1.0.0.wasm"; IsDir := true |}
  /\ downloadNewVersion fs_dir_artifact [("version", "1.0.0")]
     = (SendFile ("attachment; filename=" ++ dquote ++ "plugin_1.0.0.wasm" ++ dquote)
                 "ota_files/plugin_1.0.0.wasm",
        [CallStat "ota_files/plugin_1.0.0.wasm"]).
Proof. split; reflexivity. Qed.

(** C7, amended.  Once the scan has found versions, every check opens
    the plugin file of the latest one and hashes its bytes as they are
    in the file system at that moment; when that fails the request ends
    in [500], whether or not an update would have been offered; when it
    succeeds the answer is [200] and carries a [checksum] field, equal
    to the lower-case hexadecimal SHA-256 digest of those bytes, exactly
    when an update is offered. *)
Theorem checksum_of_latest_plugin (fs : FileSystem) (c : Request)
  (versions : list string) (latest : string) :
  Query c "current_version" <> "" ->
  result (getAvailableVersions fs) = (versions, None) ->
  index (GoSort.Strings versions)
        (Z.of_nat (List.length (GoSort.Strings versions)) - 1) = Some latest ->
  In (CallOpen (pluginPath latest)) (calls (checkForUpdate fs c))
  /\ match ReadAll fs (pluginPath latest) with
     | inl _ =>
         result (checkForUpdate fs c)
         = JSON 500 (ErrorBody "Error calculating checksum")
     | inr bytes =>
         exists body,
           result (checkForUpdate fs c) = JSON 200 (VersionBody body)
           /\ forall x,
                In ("checksum", x) (json_fields body)
                <-> String.ltb (Query c "current_version") latest = true
                    /\ x = GoHex.EncodeToString
                             (SHA256.Sum256 (SHA256.bytes_of_string bytes))
     end.
Proof.
  intros Hcur Hscan Hlast.
  rewrite (checkForUpdate_compares _ _ Hcur Hscan Hlast).
  unfold calls, result. simpl fst. simpl snd.
  split; [right; left; reflexivity|].
  destruct (ReadAll fs (pluginPath latest)) as [e|bytes]; [reflexivity|].
  destruct (String.ltb (Query c "current_version") latest) eqn:Elt.
  - eexists. split; [reflexivity|]. intro x.
    unfold json_fields, omitempty. simpl LatestVersion. simpl DownloadURL.
    simpl CheckSum.
    pose proof (DigestFacts.checksum_not_empty (SHA256.bytes_of_string bytes)) as Hne.
    apply String.eqb_neq in Hne. rewrite Hne.
    simpl. split.
    + intros [H|[H|[H|[]]]]; try discriminate. injection H as <-. auto.
    + intros [_ ->]. auto.
  - eexists. split; [reflexivity|]. intro x. simpl. split.
    + intros [H|[]]. discriminate.
    + intros [H _]. discriminate.
Qed.

(** The catalog 1.0.0, 1.1.0, 2.0.0 and a client at 1.0.0. *)
Lemma checksum_of_latest_plugin_witness :
  In (CallOpen (pluginPath "2.0.0"))
     (calls (checkForUpdate fs_three [("current_version", "1.0.0")]))
  /\ exists body,
       result (checkForUpdate fs_three [("current_version", "1.0.0")])
       = JSON 200 (VersionBody body)
       /\ forall x,
            In ("checksum", x) (json_fields body)
            <-> String.ltb "1.0.0" "2.0.0" = true
                /\ x = GoHex.EncodeToString
                         (SHA256.Sum256 (SHA256.bytes_of_string "three")).
Proof.
  apply (checksum_of_latest_plugin fs_three [("current_version", "1.0.0")]
           (versions := ["1.0.0"; "1.1.0"; "2.0.0"]) (latest := "2.0.0")).
  all: [> discriminate | reflexivity | reflexivity].
Defined.

(** C7 as stated fails: the client is up to date, the plugin file is read
    and hashed, and the [200] answer has no [checksum] field. *)
Lemma no_checksum_without_update :
  CalculateChecksum fs_plugin (pluginPath "1.0.0")
  = (("ba7816bf8f01cfea414140de5dae2223b00361a396177a9cb410ff61f20015ad", None),
     [CallOpen (pluginPath "1.0.0")])
  /\ checkForUpdate fs_plugin [("current_version", "1.0.0")]
     = (JSON 200 (VersionBody {| LatestVersion := "1.0.0";
                                 DownloadURL := "";
                                 CheckSum := "" |}),
        [CallWalk otaFilesPath; CallOpen (pluginPath "1.0.0")])
  /\ json_fields {| LatestVersion := "1.0.0"; DownloadURL := ""; CheckSum := "" |}
     = [("latest_version", "1.0.0")]
  /\ ~ In "checksum"
         (map fst (json_fields {| LatestVersion := "1.0.0";
                                  DownloadURL := "";
                                  CheckSum := "" |})).
Proof.
  split; [vm_compute; reflexivity|]. split; [vm_compute; reflexivity|].
  split; [reflexivity|]. simpl. intros [H|[]]. discriminate.
Qed.




(** ** Further properties of the handlers and their helpers *)

(** A version returned by [extractVersionFromFile] follows the only
    underscore of the base name. *)
Lemma extractVersionFromFile_inv (fileName version : string) :
  version <> "" ->
  extractVersionFromFile fileName = version ->
  exists family,
    TrimSuffix fileName (Ext fileName) = family ++ "_" ++ version
    /\ ~ has "_"%char family /\ ~ has "_"%char version.
Proof.
  intros Hne. unfold extractVersionFromFile.
  set (base := TrimSuffix fileName (Ext fileName)).
  destruct (Nat.eqb_spec (List.length (Split base "_")) 2) as [E|E];
    [|intro H; symmetry in H; contradiction].
  rewrite StringFacts.Split_length in E.
  destruct (StringFacts.count_one_split "_"%char base) as (a & b & Hb & Ha & Hb');
    [lia|].
  rewrite Hb, StringFacts.Split_two by assumption. simpl. intros <-.
  exists a. auto.
Qed.



Lemma versionsOf_In (name version : string) :
  In version (versionsOf name) <-> version <> "" /\ extractVersionFromFile name = version.
Proof.
  unfold versionsOf.
  destruct (String.eqb_spec (extractVersionFromFile name) "") as [E|E]; simpl.
  - split; [intros []|]. intros [H1 H2]. congruence.
  - split.
    + intros [<-|[]]. auto.
    + intros [_ H]. left. exact H.
Qed.

(** X2.  Whether or not the walk ends in an error, every version
    [getAvailableVersions] returns was cut out of the name of a regular
    file met under the artifact directory: it is not empty and has no
    underscore.  The name of a directory never yields one. *)
Theorem getAvailableVersions_lists_file_versions (fs : FileSystem) (version : string) :
  In version (fst (result (getAvailableVersions fs))) ->
  version <> "" /\ ~ has "_"%char version
  /\ exists tree name,
       resolve fs otaFilesPath = inr tree
       /\ In name (files "ota_files" tree)
       /\ extractVersionFromFile name = version.
Proof.
  unfold getAvailableVersions, call, result, Walk. simpl fst.
  destruct (resolve fs otaFilesPath) as [e|tree]; [intros []|].
  destruct (WalkFacts.walk_incl versionsOf walkFn walkFn_err walkFn_dir walkFn_file
              tree otaFilesPath (Base otaFilesPath) []) as (l & -> & Hl).
  simpl app. intro H. apply Hl, in_flat_map in H. destruct H as (name & Hname & H).
  apply versionsOf_In in H. destruct H as [Hne Hv].
  destruct (extractVersionFromFile_inv _ Hne Hv) as (family & _ & _ & Hu).
  split; [assumption|]. split; [assumption|]. exists tree, name. auto.
Qed.

Lemma getAvailableVersions_lists_file_versions_witness :
  "2.0.0" <> "" /\ ~ has "_"%char "2.0.0"
  /\ exists tree name,
       resolve fs_three otaFilesPath = inr tree
       /\ In name (files "ota_files" tree)
       /\ extractVersionFromFile name = "2.0.0".
Proof.
  apply (@getAvailableVersions_lists_file_versions fs_three "2.0.0").
  right. right. left. reflexivity.
Defined.

(** X3.  [getAvailableVersions] makes one walk of [./ota_files/].  When
    the path does not resolve it returns no version and the error; when
    some directory of the tree cannot be read it returns an error; and
    when the whole tree can be read it returns, without error, what the
    names of the regular files yield, in the order of the walk. *)
Theorem getAvailableVersions_by_directory (fs : FileSystem) :
  calls (getAvailableVersions fs) = [CallWalk "./ota_files/"]
  /\ match resolve fs otaFilesPath with
     | inl e => result (getAvailableVersions fs) = ([], Some e)
     | inr tree =>
         if readable_tree tree
         then result (getAvailableVersions fs)
              = (flat_map versionsOf (files "ota_files" tree), None)
         else snd (result (getAvailableVersions fs)) = Some EACCES
     end.
Proof.
  split; [reflexivity|].
  destruct (resolve fs otaFilesPath) as [e|tree] eqn:Hres.
  - apply getAvailableVersions_missing, Hres.
  - destruct (readable_tree tree) eqn:Hr.
    + apply (getAvailableVersions_readable _ Hres Hr).
    + apply (getAvailableVersions_unreadable _ Hres Hr).
Qed.

(** The scan fails exactly when the walk meets a directory it cannot
    read or the artifact directory does not resolve, and finds nothing
    exactly when no regular file has a name that yields a version. *)
Lemma scan_error_iff (fs : FileSystem) :
  (exists versions e, result (getAvailableVersions fs) = (versions, Some e))
  <-> walkable fs otaFilesPath = false.
Proof.
  unfold walkable.
  destruct (resolve fs otaFilesPath) as [e|tree] eqn:Hres.
  - rewrite (getAvailableVersions_missing _ Hres). split; eauto.
  - destruct (readable_tree tree) eqn:Hr.
    + rewrite (getAvailableVersions_readable _ Hres Hr).
      split; [intros (vs & e & H)|]; discriminate.
    + pose proof (getAvailableVersions_unreadable _ Hres Hr) as H.
      destruct (result (getAvailableVersions fs)) as [vs e]. simpl in H. subst e.
      split; eauto.
Qed.

Lemma flat_map_versionsOf_nil (names : list string) :
  flat_map versionsOf names = []
  <-> forall name, In name names -> extractVersionFromFile name = "".
Proof.
  induction names as [|n names IH]; simpl; [tauto|]. split.
  - intros H name [<-|Hn].
    + apply app_eq_nil in H. destruct H as [H _]. unfold versionsOf in H.
      destruct (String.eqb_spec (extractVersionFromFile n) ""); [assumption|discriminate].
    + apply app_eq_nil in H. apply IH; tauto.
  - intro H. unfold versionsOf at 1. rewrite (H n) by auto. simpl. apply IH. auto.
Qed.

Lemma scan_empty_iff (fs : FileSystem) :
  result (getAvailableVersions fs) = ([], None)
  <-> exists tree,
        resolve fs otaFilesPath = inr tree /\ readable_tree tree = true
        /\ forall name, In name (files "ota_files" tree) ->
                        extractVersionFromFile name = "".
Proof.
  destruct (resolve fs otaFilesPath) as [e|tree] eqn:Hres.
  - rewrite (getAvailableVersions_missing _ Hres).
    split; [|intros (t & H & _)]; discriminate.
  - destruct (readable_tree tree) eqn:Hr.
    + rewrite (getAvailableVersions_readable _ Hres Hr). split.
      * intros [= H]. exists tree. split; [reflexivity|]. split; [exact Hr|].
        apply flat_map_versionsOf_nil, H.
      * intros (t & [= <-] & _ & H). apply flat_map_versionsOf_nil in H.
        change (Base otaFilesPath) with "ota_files". rewrite H. reflexivity.
    + pose proof (getAvailableVersions_unreadable _ Hres Hr) as H.
      split.
      * intro E. rewrite E in H. discriminate.
      * intros (t & [= <-] & Ht & _). congruence.
Qed.

(** The answers of a check handler that validates, scans, takes the last
    of the sorted versions and then answers [200] or, for a reason of
    its own, [500] with another message. *)
Section CheckAnswers.
Variable h : Handler.
Variables (fs : FileSystem) (c : Request).
Hypothesis h_missing :
  Query c "current_version" = "" ->
  h fs c = (JSON 400 (ErrorBody "current_version is required"), []).
Hypothesis h_scan_error : forall versions e,
  Query c "current_version" <> "" ->
  result (getAvailableVersions fs) = (versions, Some e) ->
  result (h fs c) = JSON 500 (ErrorBody "Could not fetch available versions").
Hypothesis h_no_versions :
  Query c "current_version" <> "" ->
  result (getAvailableVersions fs) = ([], None) ->
  result (h fs c) = Panic "index out of range [-1]".
Hypothesis h_latest : forall versions latest,
  Query c "current_version" <> "" ->
  result (getAvailableVersions fs) = (versions, None) ->
  index (GoSort.Strings versions)
        (Z.of_nat (List.length (GoSort.Strings versions)) - 1) = Some latest ->
  result (h fs c) = JSON 500 (ErrorBody "Error calculating checksum")
  \/ exists v, result (h fs c) = JSON 200 (VersionBody v)
               /\ LatestVersion v = latest.

Lemma check_answers :
  (result (h fs c) = JSON 400 (ErrorBody "current_version is required")
   <-> Query c "current_version" = "")
  /\ (result (h fs c) = JSON 500 (ErrorBody "Could not fetch available versions")
      <-> Query c "current_version" <> "" /\ walkable fs otaFilesPath = false)
  /\ (result (h fs c) = Panic "index out of range [-1]"
      <-> Query c "current_version" <> ""
          /\ exists tree,
               resolve fs otaFilesPath = inr tree /\ readable_tree tree = true
               /\ forall name, In name (files "ota_files" tree) ->
                               extractVersionFromFile name = "")
  /\ (Query c "current_version" = "" -> calls (h fs c) = []).
Proof.
  rewrite <- scan_error_iff, <- scan_empty_iff.
  destruct (String.eqb_spec (Query c "current_version") "") as [E|E].
  - rewrite (h_missing E). cbn [result calls fst snd].
    repeat split; try tauto; try discriminate; intros [H _]; contradiction.
  - destruct (checkForUpdate_cases fs c)
      as [H|[(vs & e & H)|[H|(vs & latest & H & Hl)]]]; [contradiction| | |].
    + rewrite (h_scan_error E H), H.
      repeat split; try tauto; try discriminate; eauto.
      intros [_ [=]].
    + rewrite (h_no_versions E H), H.
      repeat split; try tauto; try discriminate.
      intros [_ (vs & e & [=])].
    + assert (Hne : vs <> []).
      { intros ->. discriminate. }
      rewrite H.
      destruct (h_latest E H Hl) as [-> | (v & -> & _)];
        (repeat split; try tauto; try discriminate;
         [intros [_ (vs' & e & [=])] | intros [_ [= ->]]; contradiction]).
Qed.
End CheckAnswers.

(** X4.  The three check handlers decide alike.  The answer is [400]
    exactly when [current_version] is missing or empty, and then the
    file system is not touched; it is [500] with "Could not fetch
    available versions" exactly when a version was given and the walk of
    the artifact directory fails; and the handler panics on the index
    [-1] exactly when a version was given, the walk succeeds and no
    regular file has a name that yields a version. *)
Theorem check_answer_by_directory (h : Handler) (fs : FileSystem) (c : Request) :
  In h [checkForUpdate; checkForUpdateBlinkOne; checkForUpdateBlinkFive] ->
  (result (h fs c) = JSON 400 (ErrorBody "current_version is required")
   <-> Query c "current_version" = "")
  /\ (result (h fs c) = JSON 500 (ErrorBody "Could not fetch available versions")
      <-> Query c "current_version" <> "" /\ walkable fs otaFilesPath = false)
  /\ (result (h fs c) = Panic "index out of range [-1]"
      <-> Query c "current_version" <> ""
          /\ exists tree,
               resolve fs otaFilesPath = inr tree /\ readable_tree tree = true
               /\ forall name, In name (files "ota_files" tree) ->
                               extractVersionFromFile name = "")
  /\ (Query c "current_version" = "" -> calls (h fs c) = []).
Proof.
  intro Hh.
  assert (Hblink : forall route,
            (result (checkForUpdateBlink route fs c)
             = JSON 400 (ErrorBody "current_version is required")
             <-> Query c "current_version" = "")
            /\ (result (checkForUpdateBlink route fs c)
                = JSON 500 (ErrorBody "Could not fetch available versions")
                <-> Query c "current_version" <> "" /\ walkable fs otaFilesPath = false)
            /\ (result (checkForUpdateBlink route fs c) = Panic "index out of range [-1]"
                <-> Query c "current_version" <> ""
                    /\ exists tree,
                         resolve fs otaFilesPath = inr tree /\ readable_tree tree = true
                         /\ forall name, In name (files "ota_files" tree) ->
                                         extractVersionFromFile name = "")
            /\ (Query c "current_version" = ""
                -> calls (checkForUpdateBlink route fs c) = [])).
  { intro route. apply check_answers.
    - intro E. unfold checkForUpdateBlink. rewrite E. reflexivity.
    - intros vs e E H. apply (check_scan_error _ _ E H).
    - intros E H. apply (checkForUpdate_no_versions _ _ E H).
    - intros vs latest E H Hl. right.
      rewrite (checkForUpdateBlink_compares _ _ _ E H Hl). cbn [result fst].
      destruct (String.ltb _ latest); eexists; split; reflexivity. }
  destruct Hh as [<-|[<-|[<-|[]]]]; [|apply Hblink|apply Hblink].
  apply check_answers.
  - intro E. unfold checkForUpdate. rewrite E. reflexivity.
  - intros vs e E H. apply (check_scan_error _ _ E H).
  - intros E H. apply (checkForUpdate_no_versions _ _ E H).
  - intros vs latest E H Hl.
    rewrite (checkForUpdate_compares _ _ E H Hl). cbn [result fst].
    destruct (ReadAll fs (pluginPath latest)); [left; reflexivity|right].
    destruct (String.ltb _ latest); eexists; split; reflexivity.
Qed.

Lemma check_answer_by_directory_witness :
  (result (checkForUpdateBlinkOne fs_empty [("current_version", "1.0.0")])
   = JSON 400 (ErrorBody "current_version is required")
   <-> Query [("current_version", "1.0.0")] "current_version" = "")
  /\ (result (checkForUpdateBlinkOne fs_empty [("current_version", "1.0.0")])
      = JSON 500 (ErrorBody "Could not fetch available versions")
      <-> Query [("current_version", "1.0.0")] "current_version" <> ""
          /\ walkable fs_empty otaFilesPath = false)
  /\ (result (checkForUpdateBlinkOne fs_empty [("current_version", "1.0.0")])
      = Panic "index out of range [-1]"
      <-> Query [("current_version", "1.0.0")] "current_version" <> ""
          /\ exists tree,
               resolve fs_empty otaFilesPath = inr tree /\ readable_tree tree = true
               /\ forall name, In name (files "ota_files" tree) ->
                               extractVersionFromFile name = "")
  /\ (Query [("current_version", "1.0.0")] "current_version" = ""
      -> calls (checkForUpdateBlinkOne fs_empty [("current_version", "1.0.0")]) = []).
Proof.
  apply (@check_answer_by_directory checkForUpdateBlinkOne fs_empty
           [("current_version", "1.0.0")]).
  right. left. reflexivity.
Defined.

(** X5.  [CalculateChecksum] opens the one file it is given.  When the
    file cannot be read to its end it returns the empty string with the
    error; otherwise it returns, without error, the hexadecimal
    encoding of the SHA-256 digest of the bytes: 64 characters, each a
    digit or a letter from [a] to [f]. *)
Theorem CalculateChecksum_hex_digest (fs : FileSystem) (filePath : string) :
  calls (CalculateChecksum fs filePath) = [CallOpen filePath]
  /\ match ReadAll fs filePath with
     | inl e => result (CalculateChecksum fs filePath) = ("", Some e)
     | inr bytes =>
         exists checksumHex,
           result (CalculateChecksum fs filePath) = (checksumHex, None)
           /\ checksumHex
              = GoHex.EncodeToString (SHA256.Sum256 (SHA256.bytes_of_string bytes))
           /\ String.length checksumHex = 64%nat
           /\ forall ch, has ch checksumHex -> has ch "0123456789abcdef"
     end.
Proof.
  split; [reflexivity|]. unfold CalculateChecksum, call, result. simpl fst.
  destruct (ReadAll fs filePath) as [e|bytes]; [reflexivity|].
  eexists. split; [reflexivity|]. split; [reflexivity|]. split.
  - rewrite DigestFacts.EncodeToString_length, DigestFacts.Sum256_length. reflexivity.
  - apply DigestFacts.EncodeToString_hex. intros b Hb.
    apply (DigestFacts.Sum256_range _ _ Hb).
Qed.






(** What an answer that offers an update tells about the request. *)
Lemma checkForUpdate_offer (fs : FileSystem) (c : Request) (v : VersionInfo) :
  result (checkForUpdate fs c) = JSON 200 (VersionBody v) ->
  DownloadURL v <> "" ->
  exists versions bytes,
    result (getAvailableVersions fs) = (versions, None)
    /\ index (GoSort.Strings versions)
             (Z.of_nat (List.length (GoSort.Strings versions)) - 1)
       = Some (LatestVersion v)
    /\ ReadAll fs (pluginPath (LatestVersion v)) = inr bytes
    /\ String.ltb (Query c "current_version") (LatestVersion v) = true
    /\ DownloadURL v = "/download?version=" ++ LatestVersion v
    /\ CheckSum v
       = GoHex.EncodeToString (SHA256.Sum256 (SHA256.bytes_of_string bytes)).
Proof.
  intros Hres Hurl.
  destruct (String.eqb_spec (Query c "current_version") "") as [E|E].
  { unfold checkForUpdate in Hres. rewrite E in Hres. discriminate. }
  destruct (checkForUpdate_cases fs c) as [H|[(vs & e & H)|[H|(vs & latest & H & Hl)]]].
  - contradiction.
  - destruct (check_scan_error _ _ E H) as [H1 _]. rewrite H1 in Hres. discriminate.
  - destruct (checkForUpdate_no_versions _ _ E H) as [H1 _].
    rewrite H1 in Hres. discriminate.
  - rewrite (checkForUpdate_compares _ _ E H Hl) in Hres. cbn [result fst] in Hres.
    destruct (ReadAll fs (pluginPath latest)) as [e|bytes] eqn:Er; [discriminate|].
    destruct (String.ltb (Query c "current_version") latest) eqn:Elt;
      injection Hres as <-; cbn in *; [|contradiction].
    exists vs, bytes. rewrite Er. auto 10.
Qed.

Lemma checkForUpdateBlink_offer (route : string) (fs : FileSystem) (c : Request)
  (v : VersionInfo) :
  result (checkForUpdateBlink route fs c) = JSON 200 (VersionBody v) ->
  DownloadURL v <> "" ->
  DownloadURL v = route ++ LatestVersion v.
Proof.
  intros Hres Hurl.
  destruct (String.eqb_spec (Query c "current_version") "") as [E|E].
  { unfold checkForUpdateBlink in Hres. rewrite E in Hres. discriminate. }
  destruct (checkForUpdate_cases fs c) as [H|[(vs & e & H)|[H|(vs & latest & H & Hl)]]].
  - contradiction.
  - destruct (check_scan_error _ _ E H) as [_ H1]. rewrite H1 in Hres. discriminate.
  - destruct (checkForUpdate_no_versions _ _ E H) as [_ H1].
    rewrite H1 in Hres. discriminate.
  - rewrite (checkForUpdateBlink_compares _ _ _ E H Hl) in Hres.
    cbn [result fst] in Hres.
    destruct (String.ltb (Query c "current_version") latest) eqn:Elt;
      injection Hres as <-; cbn in *; [reflexivity|contradiction].
Qed.

(** X7.  On the default pair of endpoints an offered update can be
    fetched and checked.  When [checkForUpdate] offers a version made of
    unreserved characters only (letters and digits of ASCII, [-], [.],
    [_], [~]), the request for the offered locator makes
    [downloadNewVersion] send the file [plugin_<version>.wasm] of the
    artifact directory, a regular file that the check could read, and
    the checksum of the answer is the digest of the bytes that file held
    when the check read it. *)
Theorem offered_plugin_is_the_file_hashed (fs : FileSystem) (c : Request)
  (v : VersionInfo) :
  result (checkForUpdate fs c) = JSON 200 (VersionBody v) ->
  DownloadURL v <> "" ->
  GoURL.literal (LatestVersion v) = true ->
  exists bytes,
    result (downloadNewVersion fs (GoURL.request_of (DownloadURL v)))
    = SendFile ("attachment; filename=" ++ dquote
                  ++ ("plugin_" ++ LatestVersion v ++ ".wasm") ++ dquote)
               (pluginPath (LatestVersion v))
    /\ ReadAll fs (pluginPath (LatestVersion v)) = inr bytes
    /\ CheckSum v
       = GoHex.EncodeToString (SHA256.Sum256 (SHA256.bytes_of_string bytes)).
Proof.
  intros Hres Hurl Hlit. pose proof (URLFacts.literal_plain _ Hlit) as Hplain.
  destruct (checkForUpdate_offer _ _ Hres Hurl)
    as (vs & bytes & _ & _ & Hr & _ & _ & Hsum).
  destruct (default_round_trip _ _ Hres Hurl Hplain) as (_ & _ & Hd).
  exists bytes. auto.
Qed.

Lemma offered_plugin_is_the_file_hashed_witness :
  exists bytes,
    result (downloadNewVersion fs_three (GoURL.request_of (DownloadURL offer_three)))
    = SendFile ("attachment; filename=" ++ dquote
                  ++ ("plugin_" ++ LatestVersion offer_three ++ ".wasm") ++ dquote)
               (pluginPath (LatestVersion offer_three))
    /\ ReadAll fs_three (pluginPath (LatestVersion offer_three)) = inr bytes
    /\ CheckSum offer_three
       = GoHex.EncodeToString (SHA256.Sum256 (SHA256.bytes_of_string bytes)).
Proof.
  apply (@offered_plugin_is_the_file_hashed fs_three [("current_version", "1.0.0")]
           offer_three).
  - vm_compute. reflexivity.
  - discriminate.
  - reflexivity.
Defined.

(** X8.  [main] registers, for every offered locator, the download
    handler of the family of the check endpoint that offered it.  When
    the handler registered for a check route offers a version made of
    unreserved characters only, the locator is the download route of the
    same family followed by [?version=] and the version: its path, the
    part before the question mark, is the route under which [main]
    registers the download handler of that family, and its query parses
    to the single parameter [version] with the offered version. *)
Theorem offered_locator_reaches_download (checkPath downloadPath family : string)
  (h : Handler) (fs : FileSystem) (c : Request) (v : VersionInfo) :
  In (checkPath, downloadPath, family)
     [("/check-update", "/download", "plugin_");
      ("/check-update-blink-one", "/download-blink-one", "one-second-delay_");
      ("/check-update-blink-five", "/download-blink-five", "five-second-delay_")] ->
  handlerOf main checkPath = Some h ->
  result (h fs c) = JSON 200 (VersionBody v) ->
  DownloadURL v <> "" ->
  GoURL.literal (LatestVersion v) = true ->
  DownloadURL v = downloadPath ++ "?version=" ++ LatestVersion v
  /\ GoURL.Cut (DownloadURL v) "?" = (downloadPath, "version=" ++ LatestVersion v, true)
  /\ handlerOf main downloadPath = Some (download family)
  /\ GoURL.request_of (DownloadURL v) = [("version", LatestVersion v)].
Proof.
  intros Hin Hh Hres Hurl Hlit. pose proof (URLFacts.literal_plain _ Hlit) as Hplain.
  assert (Hcut : forall path,
            ~ has "?"%char path ->
            GoURL.Cut (path ++ "?version=" ++ LatestVersion v) "?"
            = (path, "version=" ++ LatestVersion v, true)
            /\ GoURL.request_of (path ++ "?version=" ++ LatestVersion v)
               = [("version", LatestVersion v)]).
  { intros path Hq. split; [|apply URLFacts.request_of_version; assumption].
    change (path ++ "?version=" ++ LatestVersion v)
      with (path ++ String "?"%char ("version=" ++ LatestVersion v)).
    apply URLFacts.Cut_byte. assumption. }
  assert (Hno : forall path, In path ["/download"; "/download-blink-one";
                                       "/download-blink-five"] ->
                             ~ has "?"%char path).
  { intros path Hp Hq. repeat (destruct Hp as [<-|Hp];
      [repeat (destruct Hq as [Hq|Hq]; [discriminate|]); exact Hq|]). exact Hp. }
  destruct Hin as [E|[E|[E|[]]]]; injection E as <- <- <-;
    injection Hh as <-.
  - destruct (checkForUpdate_offer _ _ Hres Hurl) as (_ & _ & _ & _ & _ & _ & Hu & _).
    rewrite Hu. destruct (Hcut "/download") as [H1 H2]; [apply Hno; simpl; auto|].
    split; [reflexivity|]. split; [exact H1|]. split; [reflexivity|exact H2].
  - pose proof (checkForUpdateBlink_offer _ _ _ Hres Hurl) as Hu.
    rewrite Hu. destruct (Hcut "/download-blink-one") as [H1 H2]; [apply Hno; simpl; auto|].
    split; [reflexivity|]. split; [exact H1|]. split; [reflexivity|exact H2].
  - pose proof (checkForUpdateBlink_offer _ _ _ Hres Hurl) as Hu.
    rewrite Hu. destruct (Hcut "/download-blink-five") as [H1 H2]; [apply Hno; simpl; auto|].
    split; [reflexivity|]. split; [exact H1|]. split; [reflexivity|exact H2].
Qed.

Lemma offered_locator_reaches_download_witness :
  DownloadURL offer_blink = "/download-blink-one" ++ "?version=" ++ LatestVersion offer_blink
  /\ GoURL.Cut (DownloadURL offer_blink) "?"
     = ("/download-blink-one", "version=" ++ LatestVersion offer_blink, true)
  /\ handlerOf main "/download-blink-one" = Some (download "one-second-delay_")
  /\ GoURL.request_of (DownloadURL offer_blink) = [("version", LatestVersion offer_blink)].
Proof.
  apply (@offered_locator_reaches_download
           "/check-update-blink-one" "/download-blink-one" "one-second-delay_"
           checkForUpdateBlinkOne fs_blink [("current_version", "1.0.0")] offer_blink).
  - right. left. reflexivity.
  - reflexivity.
  - reflexivity.
  - discriminate.
  - reflexivity.
Defined.

End OtaserverFacts.

(* ===================================================================== *)
(** * Properties of the single-family program                              *)
(* ===================================================================== *)

Module OtaserverAppFacts.
Import GoStrings GoFilepath FS Fixtures StringFacts OtaserverFacts.

(** Both programs scan alike. *)
Lemma same_scan (fs : FileSystem) :
  OtaserverApp.getAvailableVersions fs = Otaserver.getAvailableVersions fs.
Proof. reflexivity. Qed.

Lemma app_check (fs : FileSystem) (c : Request) :
  OtaserverApp.checkForUpdate fs c
  = if String.eqb (Query c "current_version") "" then
      (OtaserverApp.JSON 400 (OtaserverApp.ErrorBody "current_version is required"), [])
    else
      (match result (Otaserver.getAvailableVersions fs) with
       | (_, Some _) =>
           OtaserverApp.JSON 500
             (OtaserverApp.ErrorBody "Could not fetch available versions")
       | (versions, None) =>
           match index (GoSort.Strings versions)
                       (Z.of_nat (List.length (GoSort.Strings versions)) - 1) with
           | None => OtaserverApp.Panic "index out of range [-1]"
           | Some latest =>
               OtaserverApp.JSON 200 (OtaserverApp.VersionBody {|
                 OtaserverApp.LatestVersion := latest;
                 OtaserverApp.DownloadURL :=
                   if String.ltb (Query c "current_version") latest
                   then "/download?version=" ++ latest else "" |})
           end
       end,
       [CallWalk "./ota_files/"]).
Proof.
  unfold OtaserverApp.checkForUpdate.
  destruct (String.eqb (Query c "current_version") ""); [reflexivity|].
  rewrite same_scan. unfold Otaserver.getAvailableVersions, call, bind, result, ret.
  cbn [fst].
  destruct (Walk Otaserver.walkFn fs Otaserver.otaFilesPath []) as [vs [e|]];
    [reflexivity|].
  destruct (index (GoSort.Strings vs) _) as [latest|]; [|reflexivity].
  unfold Sprintf_s. rewrite append_empty_r.
  destruct (String.ltb (Query c "current_version") latest); reflexivity.
Qed.

(** X9.  The two programs of [main.go] answer a request to
    [/check-update] alike, up to the checksum.  Either both panic, or
    both answer with the same status and the same members but for the
    [checksum] the first program adds, or the first program answers
    [500] for a checksum it could not compute where the single-family
    program answers [200]. *)
Theorem checksum_is_the_only_difference (fs : FileSystem) (c : Request) :
  match result (OtaserverApp.checkForUpdate fs c),
        result (Otaserver.checkForUpdate fs c) with
  | OtaserverApp.JSON code body, Otaserver.JSON code' body' =>
      (code' = code
       /\ Otaserver.without_checksum (Otaserver.body_fields body')
          = OtaserverApp.body_fields body)
      \/ (code = 200%Z /\ code' = 500%Z
          /\ body' = Otaserver.ErrorBody "Error calculating checksum")
  | OtaserverApp.Panic msg, Otaserver.Panic msg' => msg' = msg
  | _, _ => False
  end.
Proof.
  rewrite app_check.
  destruct (String.eqb_spec (Query c "current_version") "") as [E|E].
  { unfold Otaserver.checkForUpdate. rewrite E. simpl. left. split; reflexivity. }
  cbn [result fst].
  destruct (checkForUpdate_cases fs c) as [H|[(vs & e & H)|[H|(vs & latest & H & Hl)]]].
  - contradiction.
  - destruct (check_scan_error _ _ E H) as [-> _]. rewrite H. left. split; reflexivity.
  - destruct (checkForUpdate_no_versions _ _ E H) as [-> _]. rewrite H. reflexivity.
  - rewrite (checkForUpdate_compares _ _ E H Hl), H, Hl. cbn [result fst].
    destruct (ReadAll fs (Otaserver.pluginPath latest)) as [e|bytes];
      [right; auto|].
    destruct (String.ltb (Query c "current_version") latest);
      (left; split; [reflexivity|]); [|reflexivity].
    unfold Otaserver.without_checksum.
    cbn [Otaserver.body_fields OtaserverApp.body_fields].
    pose proof (DigestFacts.checksum_not_empty (SHA256.bytes_of_string bytes)) as Hne.
    apply String.eqb_neq in Hne.
    unfold Otaserver.json_fields, OtaserverApp.json_fields, Otaserver.omitempty.
    cbn [Otaserver.LatestVersion Otaserver.DownloadURL Otaserver.CheckSum
         OtaserverApp.LatestVersion OtaserverApp.DownloadURL].
    rewrite Hne. reflexivity.
Qed.




End OtaserverAppFacts.

(* ===================================================================== *)
(** * Properties of the semantic-version server                            *)
(* ===================================================================== *)

Module TripleFacts.
Import Triple.
Local Open Scope Z_scope.

Ltac cmp_cases :=
  unfold compare, cmp;
  repeat match goal with
         | |- context [?x <? ?y] => destruct (Z.ltb_spec x y); try lia
         | |- context [?x =? ?y] => destruct (Z.eqb_spec x y); try lia
         end.

(** The comparison is the lexicographic order of the components. *)
Lemma compare_le_iff (a b c a' b' c' : Z) :
  compare (a, b, c) (a', b', c') <= 0
  <-> a < a' \/ a = a' /\ (b < b' \/ b = b' /\ c <= c').
Proof. cmp_cases. Qed.

Lemma compare_lt_iff (a b c a' b' c' : Z) :
  compare (a, b, c) (a', b', c') < 0
  <-> a < a' \/ a = a' /\ (b < b' \/ b = b' /\ c < c').
Proof. cmp_cases. Qed.

Lemma compare_gt_iff (a b c a' b' c' : Z) :
  0 < compare (a, b, c) (a', b', c')
  <-> a' < a \/ a = a' /\ (b' < b \/ b = b' /\ c' < c).
Proof. cmp_cases. Qed.

Lemma compare_flip (v o : Z * Z * Z) : compare v o < 0 <-> 0 < compare o v.
Proof.
  destruct v as [[a b] c], o as [[a' b'] c'].
  rewrite compare_lt_iff, compare_gt_iff. lia.
Qed.

Lemma compare_trans (u v w : Z * Z * Z) :
  compare u v <= 0 -> compare v w <= 0 -> compare u w <= 0.
Proof.
  destruct u as [[a b] c], v as [[a' b'] c'], w as [[a'' b''] c''].
  rewrite !compare_le_iff. lia.
Qed.

#[export] Instance precedence : Semver.Precedence lib.
Proof. split; [exact compare_flip | exact compare_trans]. Qed.

End TripleFacts.

Module SemverServerFacts.
Import GoStrings GoFilepath FS SemverServer Fixtures.

Section Facts.
Context {L : Semver.Lib}.

Lemma walkDirFn_err s path info e st : walkDirFn s path info (Some e) st = (st, Some e).
Proof. reflexivity. Qed.

Lemma walkDirFn_dir s path name st :
  walkDirFn s path (Some {| Name := name; IsDir := true |}) None st = (st, None).
Proof. reflexivity. Qed.

Lemma walkDirFn_file s path name st :
  walkDirFn s path (Some {| Name := name; IsDir := false |}) None st
  = ((st ++ infosOf s name)%list, None).
Proof.
  unfold walkDirFn, infosOf. simpl.
  destruct (versionStrOf name) as [versionStr|]; [|rewrite app_nil_r; reflexivity].
  destruct (Semver.NewVersion versionStr); [|rewrite app_nil_r]; reflexivity.
Qed.

(** The start-up scan of a directory whose tree can be read. *)
Lemma loadVersions_readable (s : Server) (fs : FileSystem) (tree : Node) :
  resolve fs (FilesDir s) = inr tree ->
  readable_tree tree = true ->
  result (loadVersions s fs)
  = ({| FilesDir := FilesDir s;
        BaseURL := BaseURL s;
        Versions := GoSort.sort_by lessVersion
                      (flat_map (infosOf s) (files (Base (FilesDir s)) tree)) |},
     None).
Proof.
  intros Hres Hr. unfold loadVersions, bind, call, result, WalkDir. rewrite Hres.
  rewrite (WalkFacts.walkDir_collect (infosOf s) (walkDirFn s)
             (walkDirFn_dir s) (walkDirFn_file s)) by assumption.
  reflexivity.
Qed.

Lemma loadVersions_unreadable (s : Server) (fs : FileSystem) (tree : Node) :
  resolve fs (FilesDir s) = inr tree ->
  readable_tree tree = false ->
  result (loadVersions s fs) = (s, Some EACCES).
Proof.
  intros Hres Hr. unfold loadVersions, bind, call, result, WalkDir. rewrite Hres.
  pose proof (WalkFacts.walkDir_unreadable (infosOf s) (walkDirFn s)
                (walkDirFn_err s) (walkDirFn_dir s) (walkDirFn_file s)
                tree (FilesDir s) (Base (FilesDir s)) [] Hr) as H.
  destruct (walkDir _ _ _ _ _) as [st e]. simpl in H. subst e. reflexivity.
Qed.

Lemma loadVersions_missing (s : Server) (fs : FileSystem) (e : error) :
  resolve fs (FilesDir s) = inl e ->
  result (loadVersions s fs) = (s, Some e).
Proof.
  intros Hres. unfold loadVersions, bind, call, result, WalkDir. rewrite Hres.
  reflexivity.
Qed.

(** The cut at the last underscore: a name [family_token.ext] yields
    [token], whatever underscores the family has. *)
Lemma versionStrOf_last_underscore (family token ext : string) :
  ~ has "_"%char token ->
  ~ has "."%char ext -> ~ has "/"%char ext ->
  versionStrOf (family ++ "_" ++ token ++ "." ++ ext) = Some token.
Proof.
  intros Ht Hd Hs. unfold versionStrOf.
  rewrite StringFacts.Split_length.
  assert (Hu : has "_"%char (family ++ "_" ++ token ++ "." ++ ext)).
  { apply StringFacts.has_append. right. left. reflexivity. }
  apply StringFacts.count_has in Hu.
  destruct (count_occ ascii_dec _ "_"%char) as [|n]; [lia|]. cbn [Nat.ltb Nat.leb].
  rewrite OtaserverFacts.base_of_name by assumption.
  change (family ++ "_" ++ token) with (family ++ String "_"%char token).
  unfold LastIndex. rewrite StringFacts.LastIndex_from_last by (assumption || lia).
  unfold len.
  destruct (Z.eqb_spec (0 + Z.of_nat (String.length family)) (-1)) as [E|_]; [lia|].
  replace (Z.to_nat (0 + Z.of_nat (String.length family) + 1))
    with (S (String.length family)) by lia.
  rewrite StringFacts.drop_past. reflexivity.
Qed.

(** ** The loop of [handleCheck] *)

Lemma scan_app (cur : Semver.Version) (l : list VersionInfo) (x : VersionInfo) :
  forall acc,
    scan cur (l ++ [x])%list acc
    = if Semver.GreaterThan (Version x) cur then Some x else scan cur l acc.
Proof.
  induction l as [|y l IH]; intro acc; simpl; [reflexivity|]. apply IH.
Qed.

Lemma scan_none (cur : Semver.Version) (l : list VersionInfo) :
  (forall y, In y l -> Semver.GreaterThan (Version y) cur = false) ->
  forall acc, scan cur l acc = acc.
Proof.
  induction l as [|y l IH]; intros H acc; simpl; [reflexivity|].
  rewrite (H y) by (left; reflexivity). apply IH. intros z Hz. apply H. right. exact Hz.
Qed.

Lemma maximum_app (l : list VersionInfo) (x : VersionInfo) :
  maximum (l ++ [x])%list
  = match maximum l with
    | None => Some x
    | Some m => if lessVersion x m then Some m else Some x
    end.
Proof. unfold maximum. rewrite fold_left_app. reflexivity. Qed.

Lemma maximum_In (l : list VersionInfo) (m : VersionInfo) :
  maximum l = Some m -> In m l.
Proof.
  revert m. induction l as [|x l IH] using rev_ind; intros m H; [discriminate|].
  rewrite maximum_app in H. apply in_or_app.
  destruct (maximum l) as [m'|].
  - destruct (lessVersion x m'); injection H as <-; [left; auto|right; left; auto].
  - injection H as <-. right. left. reflexivity.
Qed.

Lemma maximum_ascending (l : list VersionInfo) :
  GoSort.ascending lessVersion l ->
  maximum l = index l (Z.of_nat (List.length l) - 1).
Proof.
  induction l as [|x l _] using rev_ind; intro Hasc; [reflexivity|].
  rewrite maximum_app, SortFacts.index_last_app.
  destruct (maximum l) as [m|] eqn:E; [|reflexivity].
  apply maximum_In in E.
  rewrite (SortFacts.ascending_app_last _ _ _ Hasc E). reflexivity.
Qed.

Context {P : Semver.Precedence L}.

Lemma Compare_le_iff (a b : Semver.Version) :
  (Semver.Compare a b <= 0 <-> ~ Semver.Compare b a < 0)%Z.
Proof. rewrite (Semver.Compare_flip b a). lia. Qed.

Lemma lessVersion_asym (a b : VersionInfo) :
  lessVersion a b = true -> lessVersion b a = false.
Proof.
  unfold lessVersion, Semver.LessThan. rewrite Z.ltb_lt, Z.ltb_ge.
  intro H. apply Semver.Compare_flip in H. lia.
Qed.

Lemma lessVersion_negtrans (a b c : VersionInfo) :
  lessVersion b a = false -> lessVersion c b = false -> lessVersion c a = false.
Proof.
  unfold lessVersion, Semver.LessThan. rewrite !Z.ltb_ge. intros H1 H2.
  assert (H1' : (Semver.Compare (Version a) (Version b) <= 0)%Z)
    by (apply Compare_le_iff; lia).
  assert (H2' : (Semver.Compare (Version b) (Version c) <= 0)%Z)
    by (apply Compare_le_iff; lia).
  pose proof (Semver.Compare_trans _ _ _ H1' H2') as H.
  apply Compare_le_iff in H. lia.
Qed.

(** [loadVersions] leaves the catalog ascending. *)
Lemma loadVersions_ascending (s s' : Server) (fs : FileSystem) :
  result (loadVersions s fs) = (s', None) ->
  GoSort.ascending lessVersion (Versions s').
Proof.
  unfold loadVersions, bind, call, result. simpl.
  destruct (WalkDir _ _ _ _) as [versions [e|]]; simpl; [discriminate|].
  intros [= <-]. simpl.
  apply SortFacts.sort_by_ascending;
    [apply lessVersion_asym | apply lessVersion_negtrans].
Qed.

(** An element above the client's version lifts every later element of
    an ascending catalog above it too. *)
Lemma greater_later (cur : Semver.Version) (y x : VersionInfo) :
  Semver.GreaterThan (Version y) cur = true ->
  lessVersion x y = false ->
  Semver.GreaterThan (Version x) cur = true.
Proof.
  unfold lessVersion, Semver.LessThan, Semver.GreaterThan.
  rewrite Z.ltb_ge, !Z.ltb_lt. intros Hy Hxy.
  assert (Hyx : (Semver.Compare (Version y) (Version x) <= 0)%Z)
    by (apply Compare_le_iff; lia).
  destruct (Z.lt_ge_cases 0 (Semver.Compare (Version x) cur)) as [|Hle]; [assumption|].
  assert (Hxc : (Semver.Compare (Version x) cur <= 0)%Z) by lia.
  pose proof (Semver.Compare_trans _ _ _ Hyx Hxc). lia.
Qed.

Lemma scan_ascending (cur : Semver.Version) (l : list VersionInfo) (x : VersionInfo) :
  GoSort.ascending lessVersion (l ++ [x])%list ->
  scan cur (l ++ [x])%list None
  = if Semver.GreaterThan (Version x) cur then Some x else None.
Proof.
  intro Hasc. rewrite scan_app.
  destruct (Semver.GreaterThan (Version x) cur) eqn:E; [reflexivity|].
  apply scan_none. intros y Hy.
  destruct (Semver.GreaterThan (Version y) cur) eqn:Ey; [|reflexivity].
  rewrite (greater_later _ _ _ Ey (SortFacts.ascending_app_last _ _ _ Hasc Hy)) in E.
  discriminate.
Qed.

Lemma greater_last (l : list VersionInfo) (m x : VersionInfo) :
  GoSort.ascending lessVersion (l ++ [m])%list ->
  In x (l ++ [m])%list ->
  Semver.GreaterThan (Version x) (Version m) = false.
Proof.
  intros Hasc Hx. unfold Semver.GreaterThan. apply Z.ltb_ge.
  apply in_app_or in Hx. destruct Hx as [Hx|[<-|[]]].
  - pose proof (SortFacts.ascending_app_last _ _ _ Hasc Hx) as H.
    unfold lessVersion, Semver.LessThan in H. apply Z.ltb_ge in H.
    apply Compare_le_iff. lia.
  - pose proof (Semver.Compare_flip (Version m) (Version m)). lia.
Qed.

(** On an ascending catalog the handler decides by the last element. *)
Lemma handleCheck_by_last (s : Server) (r : Request) (current : Semver.Version) :
  GoSort.ascending lessVersion (Versions s) ->
  Query r "current_version" <> "" ->
  Semver.NewVersion (Query r "current_version") = Some current ->
  handleCheck s r
  = match index (Versions s) (Z.of_nat (List.length (Versions s)) - 1) with
    | None =>
        Encode {| update_available := false;
                  latest_version := "0.0.0";
                  download_url := None |}
    | Some m =>
        if Semver.GreaterThan (Version m) current then
          Encode {| update_available := true;
                    latest_version := Semver.String (Version m);
                    download_url := Some (DownloadURL m) |}
        else
          Encode {| update_available := false;
                    latest_version := Semver.String (Version m);
                    download_url := None |}
    end.
Proof.
  intros Hasc Hcur Hparse. unfold handleCheck.
  apply String.eqb_neq in Hcur. rewrite Hcur, Hparse.
  induction (Versions s) as [|x l _] using rev_ind; [reflexivity|].
  rewrite scan_ascending by assumption. rewrite SortFacts.index_last_app.
  destruct (Semver.GreaterThan (Version x) current); [reflexivity|].
  rewrite length_app. simpl List.length.
  destruct (Z.ltb_spec 0 (Z.of_nat (List.length l + 1))); [reflexivity|lia].
Qed.

(** C10.  On a catalog that is ascending by precedence, which is how
    [loadVersions] leaves it, the loop of [handleCheck] ends on the
    maximum of the catalog as soon as one element is above the client's
    version, and the handler is the simpler one that compares the
    maximum with the client's version and offers the maximum. *)
Theorem handleCheck_is_simple_check (s : Server) (r : Request) :
  GoSort.ascending lessVersion (Versions s) ->
  (forall current,
     (exists x, In x (Versions s) /\ Semver.GreaterThan (Version x) current = true) ->
     scan current (Versions s) None = maximum (Versions s))
  /\ handleCheck s r = handleCheck_simple s r
  /\ (forall s0 fs s', result (loadVersions s0 fs) = (s', None) ->
                       GoSort.ascending lessVersion (Versions s')).
Proof.
  intro Hasc. split; [|split].
  - intros current (x & Hx & Hgt). rewrite maximum_ascending by assumption.
    revert Hasc Hx. induction (Versions s) as [|m l _] using rev_ind; [intros _ []|].
    intros Hasc Hx. rewrite scan_ascending, SortFacts.index_last_app by assumption.
    apply in_app_or in Hx. destruct Hx as [Hx|[<-|[]]].
    + rewrite (greater_later _ _ _ Hgt (SortFacts.ascending_app_last _ _ _ Hasc Hx)).
      reflexivity.
    + rewrite Hgt. reflexivity.
  - unfold handleCheck_simple.
    destruct (String.eqb_spec (Query r "current_version") "") as [E|E].
    + unfold handleCheck. rewrite E. reflexivity.
    + destruct (Semver.NewVersion (Query r "current_version")) as [current|] eqn:Ep.
      * rewrite (handleCheck_by_last _ _ Hasc E Ep), maximum_ascending by assumption.
        reflexivity.
      * unfold handleCheck. apply String.eqb_neq in E. rewrite E, Ep. reflexivity.
  - intros s0 fs s'. apply loadVersions_ascending.
Qed.

(** With no catalog entry the handler answers [0.0.0] without update,
    for any version that parses. *)
Lemma handleCheck_empty_catalog (s : Server) (r : Request) (current : Semver.Version) :
  Versions s = [] ->
  Query r "current_version" <> "" ->
  Semver.NewVersion (Query r "current_version") = Some current ->
  handleCheck s r = Encode {| update_available := false;
                              latest_version := "0.0.0";
                              download_url := None |}.
Proof.
  intros Hnil Hcur Hparse. unfold handleCheck.
  apply String.eqb_neq in Hcur. rewrite Hcur, Hparse, Hnil. reflexivity.
Qed.

End Facts.

(** What [handleDownload] does with a file name: a name with a path
    separator is refused before any call to the file system; any other
    name costs one [Stat] of the joined path, which decides. *)
Lemma handleDownload_outcome {L : Semver.Lib} (s : Server) (fs : FileSystem)
  (r : Request) :
  handleDownload s fs r
  = if String.eqb (Query r "file") "" then
      (Error "Missing 'file' parameter" 400, [])
    else if Contains (Query r "file") "/" || Contains (Query r "file") "\" then
      (Error "Invalid 'file' parameter" 400, [])
    else
      (match Stat fs (Join (FilesDir s) (Query r "file")) with
       | inl ENOENT => Error "File not found" 404
       | inl _ => Panic "nil pointer dereference"
       | inr fi =>
           if IsDir fi then Error "Requested file is a directory" 400
           else ServeFile (Join (FilesDir s) (Query r "file"))
       end,
       [CallStat (Join (FilesDir s) (Query r "file"))]).
Proof.
  unfold handleDownload.
  destruct (String.eqb (Query r "file") ""); [reflexivity|].
  destruct (Contains (Query r "file") "/" || Contains (Query r "file") "\");
    [reflexivity|].
  unfold bind, call, ret.
  destruct (Stat fs _) as [[]|fi]; try reflexivity.
  destruct (IsDir fi); reflexivity.
Qed.

(** A file name with a path separator is refused with [400] before any
    call to the file system. *)
Lemma handleDownload_refuses_separators {L : Semver.Lib} (s : Server)
  (fs : FileSystem) (r : Request) :
  has "/"%char (Query r "file") \/ has "\"%char (Query r "file") ->
  handleDownload s fs r = (Error "Invalid 'file' parameter" 400, []).
Proof.
  intro H. rewrite handleDownload_outcome.
  destruct (String.eqb_spec (Query r "file") "") as [E|_].
  - rewrite E in H. destruct H as [[]|[]].
  - assert (Hc : Contains (Query r "file") "/" || Contains (Query r "file") "\" = true).
    { apply orb_true_iff. destruct H as [H|H]; [left|right];
        apply StringFacts.Contains_byte; exact H. }
    rewrite Hc. reflexivity.
Qed.

(** The server loaded from three artifacts, with the three-component
    versions. *)
Lemma handleCheck_is_simple_check_witness :
  result (NewServer "./files" "http://localhost:8080" fs_files) = (Some srv_files, None)
  /\ handleCheck srv_files [("current_version", "1.0.0")]
     = handleCheck_simple srv_files [("current_version", "1.0.0")]
  /\ scan (L := Triple.lib) (1, 0, 0)%Z (Versions srv_files) None
     = maximum (Versions srv_files).
Proof.
  split; [reflexivity|].
  destruct (handleCheck_is_simple_check (P := TripleFacts.precedence)
              srv_files [("current_version", "1.0.0")])
    as (Hscan & Heq & _).
  - apply SortFacts.ascendingb_spec. reflexivity.
  - split; [exact Heq|]. apply Hscan.
    exists (info (2, 0, 0)%Z "app_2.0.0.zip").
    split; [right; right; left; reflexivity|reflexivity].
Defined.

(** C8, on the semantic-version server.  The walk reaches a file in a
    subdirectory and [loadVersions] builds its locator from the file
    name alone; the check offers that locator; the request sent for it
    makes [handleDownload] look for the name directly under [FilesDir]
    and answer [404]. *)
Theorem offered_locator_not_found :
  result (NewServer "./files" "http://localhost:8080" fs_files_nested)
  = (Some srv_nested, None)
  /\ handleCheck srv_nested [("current_version", "1.0.0")]
     = Encode {| update_available := true;
                 latest_version := "2.0.0";
                 download_url :=
                   Some "http://localhost:8080/download?file=app_2.0.0.zip" |}
  /\ handleDownload srv_nested fs_files_nested
       (GoURL.request_of "http://localhost:8080/download?file=app_2.0.0.zip")
     = (Error "File not found" 404, [CallStat "files/app_2.0.0.zip"])
  /\ lookup (root fs_files_nested) ["srv"; "files"; "beta"; "app_2.0.0.zip"]
     = Some (File (Some "two")).
Proof. repeat split; reflexivity. Qed.

(** ** Further properties of the semantic-version server *)

Import StringFacts.

Lemma parts_has_underscore (filename : string) :
  (List.length (Split filename "_") <? 2)%nat = false <-> has "_"%char filename.
Proof.
  rewrite Split_length, count_has, Nat.ltb_ge. lia.
Qed.


(** X11.  The walk callback of [loadVersions] cuts a version string out
    of a file name exactly when the name has an underscore and its
    base, the name without the extension [filepath.Ext] finds, has one
    too; the version string is what follows the last underscore of the
    base, whatever underscores come before.  The index of the slice
    [base[underscoreIdx+1:]] is never beyond the length of the base, so
    the cut cannot panic. *)
Theorem versionStrOf_after_last_underscore (filename versionStr : string) :
  (versionStrOf filename = Some versionStr
   <-> has "_"%char filename
       /\ exists family,
            TrimSuffix filename (Ext filename) = family ++ "_" ++ versionStr
            /\ ~ has "_"%char versionStr)
  /\ (LastIndex (TrimSuffix filename (Ext filename)) "_" + 1
      <= len (TrimSuffix filename (Ext filename)))%Z.
Proof.
  split; [|destruct (LastIndex_byte_range "_"%char (TrimSuffix filename (Ext filename)));
           unfold len in *; lia].
  unfold versionStrOf. set (base := TrimSuffix filename (Ext filename)).
  destruct (List.length (Split filename "_") <? 2)%nat eqn:Ep.
  - split; [discriminate|]. intros [H _]. apply parts_has_underscore in H. congruence.
  - apply parts_has_underscore in Ep.
    destruct (has_dec "_"%char base) as [Hb|Hb].
    + destruct (has_last_split _ _ Hb) as (a & b & E & Hnb). rewrite E.
      unfold LastIndex. rewrite LastIndex_from_last by (assumption || lia).
      unfold len.
      destruct (Z.eqb_spec (0 + Z.of_nat (String.length a)) (-1)) as [E1|_]; [lia|].
      replace (Z.to_nat (0 + Z.of_nat (String.length a) + 1))
        with (S (String.length a)) by lia.
      rewrite drop_past. split.
      * intros [= <-]. split; [assumption|]. exists a. auto.
      * intros (_ & family & E2 & Hv). f_equal.
        change (family ++ "_" ++ versionStr) with (family ++ String "_"%char versionStr)
          in E2.
        assert (G : forall x y x' y', x ++ String "_"%char y = x' ++ String "_"%char y' ->
                      ~ has "_"%char y -> ~ has "_"%char y' -> y = y').
        { clear. intros x y x' y' Hxy Hy Hy'.
          assert (Hl : LastIndex (x ++ String "_"%char y) "_"
                       = LastIndex (x' ++ String "_"%char y') "_") by (rewrite Hxy; reflexivity).
          unfold LastIndex in Hl.
          rewrite !LastIndex_from_last in Hl by (assumption || lia).
          unfold len in Hl.
          assert (Hd : drop (S (String.length x)) (x ++ String "_"%char y)
                       = drop (S (String.length x')) (x' ++ String "_"%char y')).
          { rewrite Hxy. f_equal. lia. }
          rewrite !drop_past in Hd. exact Hd. }
        apply (G a b family versionStr E2 Hnb Hv).
    + unfold LastIndex. rewrite LastIndex_from_absent by assumption. simpl.
      split; [discriminate|]. intros (_ & family & E2 & _). exfalso. apply Hb.
      rewrite E2. apply has_append. right. left. reflexivity.
Qed.

Section Further.
Context {L : Semver.Lib}.

Lemma scan_None_iff (cur : Semver.Version) (l : list VersionInfo) :
  scan cur l None = None
  <-> forall y, In y l -> Semver.GreaterThan (Version y) cur = false.
Proof.
  split; [|intro H; apply scan_none, H].
  induction l as [|x l IH] using rev_ind; [intros _ y []|].
  rewrite scan_app.
  destruct (Semver.GreaterThan (Version x) cur) eqn:E; [discriminate|].
  intros H y Hy. apply in_app_or in Hy. destruct Hy as [Hy|[<-|[]]]; auto.
Qed.

(** The loop ends on the last entry above the client's version. *)
Lemma scan_last (cur : Semver.Version) (l : list VersionInfo) (v : VersionInfo) :
  scan cur l None = Some v
  <-> exists before after,
        l = (before ++ v :: after)%list
        /\ Semver.GreaterThan (Version v) cur = true
        /\ forall y, In y after -> Semver.GreaterThan (Version y) cur = false.
Proof.
  split.
  - induction l as [|x l IH] using rev_ind; [discriminate|].
    rewrite scan_app.
    destruct (Semver.GreaterThan (Version x) cur) eqn:E.
    + intros [= <-]. exists l, []. split; [reflexivity|]. split; [assumption|intros y []].
    + intro H. destruct (IH H) as (b & a & -> & Hv & Ha).
      exists b, (a ++ [x])%list. rewrite <- app_assoc. split; [reflexivity|].
      split; [assumption|]. intros y Hy. apply in_app_or in Hy.
      destruct Hy as [Hy|[<-|[]]]; auto.
  - intros (b & a & -> & Hv & Ha).
    assert (G : forall acc, scan cur (b ++ v :: a) acc = Some v).
    { induction b as [|x b IH]; intro acc; simpl.
      - rewrite Hv. apply scan_none, Ha.
      - apply IH. }
    apply G.
Qed.

Lemma last_of_nonempty (A : Type) (l : list A) :
  (0 <? Z.of_nat (List.length l))%Z = true ->
  exists m, index l (Z.of_nat (List.length l) - 1) = Some m.
Proof.
  intro H. destruct (index l (Z.of_nat (List.length l) - 1)) eqn:E; [eauto|].
  apply SortFacts.index_last_None in E. subst. discriminate.
Qed.

(** X12.  Whatever the order of the catalog, [handleCheck] answers a
    valid [current_version] with an update exactly when some entry of
    the catalog is above it; the entry offered is then the last such
    entry of the catalog, with its version and its locator.  Without
    update the answer carries no locator and reports the last entry of
    the catalog, or [0.0.0] when the catalog is empty. *)
Theorem handleCheck_offers_last_newer (s : Server) (r : Request)
  (current : Semver.Version) :
  Query r "current_version" <> "" ->
  Semver.NewVersion (Query r "current_version") = Some current ->
  exists body,
    handleCheck s r = Encode body
    /\ (update_available body = true
        <-> exists v, In v (Versions s)
                      /\ Semver.GreaterThan (Version v) current = true)
    /\ (update_available body = true ->
        exists before v after,
          Versions s = (before ++ v :: after)%list
          /\ Semver.GreaterThan (Version v) current = true
          /\ (forall y, In y after -> Semver.GreaterThan (Version y) current = false)
          /\ latest_version body = Semver.String (Version v)
          /\ download_url body = Some (DownloadURL v))
    /\ (update_available body = false ->
        download_url body = None
        /\ latest_version body
           = match index (Versions s) (Z.of_nat (List.length (Versions s)) - 1) with
             | Some m => Semver.String (Version m)
             | None => "0.0.0"
             end).
Proof.
  intros Hcur Hparse. unfold handleCheck.
  rewrite (eqb_false Hcur), Hparse.
  destruct (scan current (Versions s) None) as [v|] eqn:Es.
  - eexists. split; [reflexivity|]. cbn.
    apply scan_last in Es. destruct Es as (b & a & E & Hv & Ha).
    split; [|split].
    + split; [|reflexivity]. intros _. exists v. split; [|assumption].
      rewrite E. apply in_or_app. right. left. reflexivity.
    + intros _. exists b, v, a. auto.
    + discriminate.
  - pose proof (proj1 (scan_None_iff _ _) Es) as Hnone.
    destruct (0 <? Z.of_nat (List.length (Versions s)))%Z eqn:En.
    + destruct (last_of_nonempty _ En) as [m Hm]. rewrite Hm.
      eexists. split; [reflexivity|]. cbn. split; [|split].
      * split; [discriminate|]. intros (v & Hin & Hv). rewrite (Hnone v Hin) in Hv.
        discriminate.
      * discriminate.
      * auto.
    + eexists. split; [reflexivity|]. cbn.
      assert (Hnil : Versions s = []).
      { destruct (Versions s); [reflexivity|]. simpl in En. discriminate. }
      rewrite Hnil. split; [|split].
      * split; [discriminate|]. intros (v & [] & _).
      * discriminate.
      * auto.
Qed.

(** X13.  [handleCheck] answers [400] exactly when [current_version] is
    missing, empty or does not parse; it never answers an error with
    another status, never panics, also on an empty catalog, and never
    serves a file. *)
Theorem handleCheck_rejects_or_answers (s : Server) (r : Request) :
  ((exists msg, handleCheck s r = Error msg 400)
   <-> Query r "current_version" = ""
       \/ Semver.NewVersion (Query r "current_version") = None)
  /\ (forall msg code, handleCheck s r = Error msg code -> code = 400%Z)
  /\ (forall msg, handleCheck s r <> Panic msg)
  /\ (forall filePath, handleCheck s r <> ServeFile filePath).
Proof.
  unfold handleCheck.
  destruct (String.eqb_spec (Query r "current_version") "") as [E|E].
  { repeat split; eauto; try discriminate. intros msg code [= _ <-]. reflexivity. }
  destruct (Semver.NewVersion (Query r "current_version")) as [current|].
  2:{ repeat split; eauto; try discriminate. intros msg code [= _ <-]. reflexivity. }
  assert (G : exists body,
            match scan current (Versions s) None with
            | Some latestAvailable =>
                Encode {| update_available := true;
                          latest_version := Semver.String (Version latestAvailable);
                          download_url := Some (DownloadURL latestAvailable) |}
            | None =>
                if (0 <? Z.of_nat (List.length (Versions s)))%Z
                then match index (Versions s) (Z.of_nat (List.length (Versions s)) - 1) with
                     | Some last =>
                         Encode {| update_available := false;
                                   latest_version := Semver.String (Version last);
                                   download_url := None |}
                     | None => Panic "index out of range"
                     end
                else Encode {| update_available := false;
                               latest_version := "0.0.0";
                               download_url := None |}
            end = Encode body).
  { destruct (scan current (Versions s) None); [eauto|].
    destruct (0 <? Z.of_nat (List.length (Versions s)))%Z eqn:En; [|eauto].
    destruct (last_of_nonempty _ En) as [m ->]. eauto. }
  destruct G as [body ->].
  repeat split; try discriminate.
  - intros [msg H]. discriminate.
  - intros [H|H]; [contradiction|discriminate].
Qed.
Lemma infosOf_In (s : Server) (name : string) (v : VersionInfo) :
  In v (infosOf s name) ->
  FileName v = name
  /\ DownloadURL v = BaseURL s ++ "/download?file=" ++ name
  /\ exists versionStr,
       versionStrOf name = Some versionStr
       /\ Semver.NewVersion versionStr = Some (Version v).
Proof.
  unfold infosOf. destruct (versionStrOf name) as [versionStr|]; [|intros []].
  destruct (Semver.NewVersion versionStr) as [version|] eqn:E; [|intros []].
  intros [<-|[]]. simpl. eauto.
Qed.

(** A scan that succeeds has walked a tree it could read. *)
Lemma loadVersions_success (s s' : Server) (fs : FileSystem) :
  result (loadVersions s fs) = (s', None) ->
  exists tree,
    resolve fs (FilesDir s) = inr tree /\ readable_tree tree = true
    /\ s' = {| FilesDir := FilesDir s;
               BaseURL := BaseURL s;
               Versions := GoSort.sort_by lessVersion
                             (flat_map (infosOf s) (files (Base (FilesDir s)) tree)) |}.
Proof.
  intro H. destruct (resolve fs (FilesDir s)) as [e|tree] eqn:Hres.
  - rewrite (loadVersions_missing _ _ Hres) in H. discriminate.
  - destruct (readable_tree tree) eqn:Hr.
    + rewrite (loadVersions_readable _ _ Hres Hr) in H. injection H as <-. eauto.
    + rewrite (loadVersions_unreadable _ _ Hres Hr) in H. discriminate.
Qed.

(** X14.  A catalog that [loadVersions] has built comes from a tree it
    could read: the scan leaves the directory and the base URL of the
    server as they were, the catalog holds, in some order, what the
    names of the regular files of the tree yield, and every entry
    carries the locator [<BaseURL>/download?file=<FileName>] and the
    version parsed from the version string of its file name. *)
Theorem loadVersions_catalog (s s' : Server) (fs : FileSystem) :
  result (loadVersions s fs) = (s', None) ->
  FilesDir s' = FilesDir s /\ BaseURL s' = BaseURL s
  /\ (exists tree,
        resolve fs (FilesDir s) = inr tree /\ readable_tree tree = true
        /\ Permutation (Versions s')
             (flat_map (infosOf s) (files (Base (FilesDir s)) tree)))
  /\ forall v, In v (Versions s') ->
       DownloadURL v = BaseURL s ++ "/download?file=" ++ FileName v
       /\ exists versionStr,
            versionStrOf (FileName v) = Some versionStr
            /\ Semver.NewVersion versionStr = Some (Version v).
Proof.
  intro H. destruct (loadVersions_success _ _ H) as (tree & Hres & Hr & ->).
  cbn [FilesDir BaseURL Versions]. split; [reflexivity|]. split; [reflexivity|]. split.
  - exists tree. split; [assumption|]. split; [assumption|]. apply SortFacts.sort_by_perm.
  - intros v Hv. apply SortFacts.sort_by_In, in_flat_map in Hv.
    destruct Hv as (name & _ & Hv). apply infosOf_In in Hv.
    destruct Hv as (<- & Hu & Hs). auto.
Qed.

Lemma main_result (fs : FileSystem) :
  main fs
  = (match result (loadVersions {| FilesDir := "./files";
                                   BaseURL := "http://localhost:8080";
                                   Versions := [] |} fs) with
     | (_, Some e) => Fatal e
     | (server, None) => Listening (Some server)
     end,
     [CallWalk "./files"]).
Proof.
  unfold main, NewServer, loadVersions, bind, call, ret, result. cbn [FilesDir fst].
  destruct (WalkDir _ fs "./files" []) as [vs [e|]]; reflexivity.
Qed.

(** X15.  [main] walks [./files] once.  It goes on to serve, with a
    server over [./files] and the base URL [http://localhost:8080],
    exactly when [./files] resolves and every directory of its tree can
    be read, and ends the process with the error of the walk exactly
    when not; it never goes on without a server. *)
Theorem main_listens_iff_walkable (fs : FileSystem) :
  calls (main fs) = [CallWalk "./files"]
  /\ (walkable fs "./files" = true
      <-> exists server,
            result (main fs) = Listening (Some server)
            /\ FilesDir server = "./files"
            /\ BaseURL server = "http://localhost:8080")
  /\ (walkable fs "./files" = false <-> exists e, result (main fs) = Fatal e)
  /\ result (main fs) <> Listening None.
Proof.
  rewrite main_result. cbn [calls result fst snd]. split; [reflexivity|].
  set (s0 := {| FilesDir := "./files"; BaseURL := "http://localhost:8080";
                Versions := [] |}).
  unfold walkable.
  destruct (resolve fs "./files") as [e|tree] eqn:Hres.
  - rewrite (loadVersions_missing s0 fs Hres).
    repeat split; try discriminate; eauto. intros (srv & [=] & _).
  - destruct (readable_tree tree) eqn:Hr.
    + rewrite (loadVersions_readable s0 fs Hres Hr).
      repeat split; try discriminate; eauto. intros (e & [=]).
    + rewrite (loadVersions_unreadable s0 fs Hres Hr).
      repeat split; try discriminate; eauto. intros (srv & [=] & _).
Qed.
Import URLFacts ResolveFacts PathFacts.

Lemma separators_iff (file : string) :
  Contains file "/" || Contains file "\" = true
  <-> has "/"%char file \/ has "\"%char file.
Proof.
  rewrite orb_true_iff.
  rewrite (Contains_byte "/"%char), (Contains_byte "\"%char). reflexivity.
Qed.

(** X16.  [handleDownload] checks the [file] parameter before it touches
    the file system.  It answers [400] without any call exactly when the
    parameter is missing or empty, or has a slash or a backslash; any
    other request makes one call, the [Stat] of the parameter joined to
    the directory of the server. *)
Theorem handleDownload_checks_before_stat (s : Server) (fs : FileSystem) (r : Request) :
  (handleDownload s fs r = (Error "Missing 'file' parameter" 400, [])
   <-> Query r "file" = "")
  /\ (handleDownload s fs r = (Error "Invalid 'file' parameter" 400, [])
      <-> has "/"%char (Query r "file") \/ has "\"%char (Query r "file"))
  /\ (calls (handleDownload s fs r) = []
      <-> Query r "file" = ""
          \/ has "/"%char (Query r "file") \/ has "\"%char (Query r "file"))
  /\ (calls (handleDownload s fs r) <> [] ->
      calls (handleDownload s fs r) = [CallStat (Join (FilesDir s) (Query r "file"))]).
Proof.
  rewrite handleDownload_outcome. rewrite <- separators_iff.
  destruct (String.eqb_spec (Query r "file") "") as [E|E].
  - rewrite E. cbn. split; [split; reflexivity|].
    split; [split; discriminate|]. split; [split; auto|congruence].
  - destruct (Contains (Query r "file") "/" || Contains (Query r "file") "\") eqn:Ec.
    + cbn. split; [split; [discriminate|contradiction]|].
      split; [split; reflexivity|]. split; [split; auto|congruence].
    + cbn [calls snd]. split; [|split; [|split; [|reflexivity]]].
      * split; [|contradiction]. intros [= H].
      * split; [|discriminate]. intros [= H].
      * split; [discriminate|]. intros [H|H]; [contradiction|discriminate].
Qed.










(** X19.  [handleDownload] panics exactly when the [file] parameter
    passes the checks and [os.Stat] fails with an error other than
    "does not exist": only [os.IsNotExist] is tested before [fi.IsDir()]
    is called, and [fi] is nil after any error. *)
Theorem handleDownload_panics_iff (s : Server) (fs : FileSystem) (r : Request) :
  (exists msg, result (handleDownload s fs r) = Panic msg)
  <-> Query r "file" <> ""
      /\ ~ has "/"%char (Query r "file") /\ ~ has "\"%char (Query r "file")
      /\ exists e, Stat fs (Join (FilesDir s) (Query r "file")) = inl e
                   /\ e <> ENOENT.
Proof.
  rewrite handleDownload_outcome.
  destruct (String.eqb_spec (Query r "file") "") as [E|E].
  { cbn. split; [intros [msg H]; discriminate|intros [H _]; contradiction]. }
  destruct (Contains (Query r "file") "/" || Contains (Query r "file") "\") eqn:Ec.
  { apply separators_iff in Ec. cbn.
    split; [intros [msg H]; discriminate|]. intros (_ & H1 & H2 & _). tauto. }
  assert (Hs : ~ (has "/"%char (Query r "file") \/ has "\"%char (Query r "file"))).
  { intro H. apply separators_iff in H. congruence. }
  cbn [result fst].
  destruct (Stat fs _) as [e|fi].
  - destruct e.
    + split; [intros [msg H]; discriminate|].
      intros (_ & _ & _ & e & [= <-] & He). contradiction.
    + split; [intros _|intros _; eexists; reflexivity].
      repeat split; try tauto. exists ENOTDIR. split; [reflexivity|discriminate].
    + split; [intros _|intros _; eexists; reflexivity].
      repeat split; try tauto. exists EACCES. split; [reflexivity|discriminate].
    + split; [intros _|intros _; eexists; reflexivity].
      repeat split; try tauto. exists EISDIR. split; [reflexivity|discriminate].
    + split; [intros _|intros _; eexists; reflexivity].
      repeat split; try tauto. exists EINVAL. split; [reflexivity|discriminate].
    + split; [intros _|intros _; eexists; reflexivity].
      repeat split; try tauto. exists ENAMETOOLONG. split; [reflexivity|discriminate].
  - split; [intros [msg H]; destruct (IsDir fi); discriminate|].
    intros (_ & _ & _ & e & [=] & _).
Qed.

End Further.

(** The server loaded from [fs_files], and its answers. *)
Lemma loadVersions_catalog_witness :
  FilesDir srv_files = FilesDir srv_start /\ BaseURL srv_files = BaseURL srv_start
  /\ (exists tree,
        resolve fs_files (FilesDir srv_start) = inr tree /\ readable_tree tree = true
        /\ Permutation (Versions srv_files)
             (flat_map (infosOf srv_start) (files (Base (FilesDir srv_start)) tree)))
  /\ forall v, In v (Versions srv_files) ->
       DownloadURL v = BaseURL srv_start ++ "/download?file=" ++ FileName v
       /\ exists versionStr,
            versionStrOf (FileName v) = Some versionStr
            /\ Semver.NewVersion versionStr = Some (Version v).
Proof.
  apply (@loadVersions_catalog Triple.lib srv_start srv_files fs_files).
  reflexivity.
Defined.

Lemma handleCheck_offers_last_newer_witness :
  exists body,
    handleCheck srv_files [("current_version", "1.0.0")] = Encode body
    /\ (update_available body = true
        <-> exists v, In v (Versions srv_files)
                      /\ Semver.GreaterThan (Version v) (1, 0, 0)%Z = true)
    /\ (update_available body = true ->
        exists before v after,
          Versions srv_files = (before ++ v :: after)%list
          /\ Semver.GreaterThan (Version v) (1, 0, 0)%Z = true
          /\ (forall y, In y after -> Semver.GreaterThan (Version y) (1, 0, 0)%Z = false)
          /\ latest_version body = Semver.String (Version v)
          /\ download_url body = Some (DownloadURL v))
    /\ (update_available body = false ->
        download_url body = None
        /\ latest_version body
           = match index (Versions srv_files)
                         (Z.of_nat (List.length (Versions srv_files)) - 1) with
             | Some m => Semver.String (Version m)
             | None => "0.0.0"
             end).
Proof.
  apply (@handleCheck_offers_last_newer Triple.lib srv_files
           [("current_version", "1.0.0")] (1, 0, 0)%Z).
  - discriminate.
  - reflexivity.
Defined.



End SemverServerFacts.

(* ===================================================================== *)
(** * Properties stated for both servers                                   *)
(* ===================================================================== *)

Module BothServers.
Import GoStrings GoFilepath FS Fixtures.

(** C2.  When the client's version is valid, both servers decide by the
    greatest catalog entry: an update is offered, with the locator of
    that entry, exactly when it is strictly above the client's version;
    otherwise no update is offered and the greatest entry is still
    reported (a tie is no update).  The semantic-version server decides
    so on its ascending catalog, empty or not.  The gin server decides
    so once the scan has found a version: at once on the blink
    endpoints, and on the default endpoint only when the plugin file of
    the latest version can be read; when it cannot, the default endpoint
    answers [500] whatever the comparison says. *)
Theorem update_iff_latest_is_newer {L : Semver.Lib} {P : Semver.Precedence L} :
  (forall (s : SemverServer.Server) (r : Request) (current : Semver.Version),
     GoSort.ascending SemverServer.lessVersion (SemverServer.Versions s) ->
     Query r "current_version" <> "" ->
     Semver.NewVersion (Query r "current_version") = Some current ->
     match index (SemverServer.Versions s)
                 (Z.of_nat (List.length (SemverServer.Versions s)) - 1) with
     | None =>
         SemverServer.handleCheck s r
         = SemverServer.Encode {| SemverServer.update_available := false;
                                  SemverServer.latest_version := "0.0.0";
                                  SemverServer.download_url := None |}
     | Some m =>
         (forall x, In x (SemverServer.Versions s) ->
                    Semver.GreaterThan (SemverServer.Version x)
                                       (SemverServer.Version m) = false)
         /\ SemverServer.handleCheck s r
            = if Semver.GreaterThan (SemverServer.Version m) current then
                SemverServer.Encode
                  {| SemverServer.update_available := true;
                     SemverServer.latest_version :=
                       Semver.String (SemverServer.Version m);
                     SemverServer.download_url := Some (SemverServer.DownloadURL m) |}
              else
                SemverServer.Encode
                  {| SemverServer.update_available := false;
                     SemverServer.latest_version :=
                       Semver.String (SemverServer.Version m);
                     SemverServer.download_url := None |}
     end)
  /\ (forall (fs : FileSystem) (c : Request) (versions : list string) (latest : string),
        Query c "current_version" <> "" ->
        result (Otaserver.getAvailableVersions fs) = (versions, None) ->
        index (GoSort.Strings versions)
              (Z.of_nat (List.length (GoSort.Strings versions)) - 1) = Some latest ->
        (In latest versions /\ forall x, In x versions -> String.ltb latest x = false)
        /\ match ReadAll fs (Otaserver.pluginPath latest) with
           | inl _ =>
               result (Otaserver.checkForUpdate fs c)
               = Otaserver.JSON 500 (Otaserver.ErrorBody "Error calculating checksum")
           | inr _ =>
               exists body,
                 result (Otaserver.checkForUpdate fs c)
                 = Otaserver.JSON 200 (Otaserver.VersionBody body)
                 /\ Otaserver.LatestVersion body = latest
                 /\ Otaserver.DownloadURL body
                    = if String.ltb (Query c "current_version") latest
                      then "/download?version=" ++ latest
                      else ""
           end)
  /\ (forall (route : string) (fs : FileSystem) (c : Request)
             (versions : list string) (latest : string),
        Query c "current_version" <> "" ->
        result (Otaserver.getAvailableVersions fs) = (versions, None) ->
        index (GoSort.Strings versions)
              (Z.of_nat (List.length (GoSort.Strings versions)) - 1) = Some latest ->
        result (Otaserver.checkForUpdateBlink route fs c)
        = Otaserver.JSON 200 (Otaserver.VersionBody {|
            Otaserver.LatestVersion := latest;
            Otaserver.DownloadURL :=
              if String.ltb (Query c "current_version") latest
              then route ++ latest
              else "";
            Otaserver.CheckSum := "" |})).
Proof.
  split; [|split].
  - intros s r current Hasc Hcur Hparse.
    rewrite (SemverServerFacts.handleCheck_by_last _ _ Hasc Hcur Hparse).
    destruct (index (SemverServer.Versions s) _) as [m|] eqn:E; [|reflexivity].
    split; [|reflexivity].
    apply SortFacts.index_last_Some in E. destruct E as [l' E].
    rewrite E in *. intros x Hx.
    apply (SemverServerFacts.greater_last _ _ _ Hasc Hx).
  - intros fs c versions latest Hcur Hscan Hlast.
    split; [apply OtaserverFacts.latest_is_maximum; assumption|].
    rewrite (OtaserverFacts.checkForUpdate_compares _ _ Hcur Hscan Hlast).
    cbn [result fst].
    destruct (ReadAll fs (Otaserver.pluginPath latest)); [reflexivity|].
    destruct (String.ltb (Query c "current_version") latest);
      eexists; repeat split; reflexivity.
  - intros route fs c versions latest Hcur Hscan Hlast.
    rewrite (OtaserverFacts.checkForUpdateBlink_compares _ _ _ Hcur Hscan Hlast).
    cbn [result fst].
    destruct (String.ltb (Query c "current_version") latest); reflexivity.
Qed.

(** The catalog 1.0.0, 1.1.0, 2.0.0 on both servers: a client at 1.0.0
    is offered 2.0.0, a client at 2.0.0 nothing. *)
Lemma update_iff_latest_is_newer_witness :
  SemverServer.handleCheck srv_files [("current_version", "1.0.0")]
  = SemverServer.Encode
      {| SemverServer.update_available := true;
         SemverServer.latest_version := "2.0.0";
         SemverServer.download_url :=
           Some "http://localhost:8080/download?file=app_2.0.0.zip" |}
  /\ SemverServer.handleCheck srv_files [("current_version", "2.0.0")]
     = SemverServer.Encode
         {| SemverServer.update_available := false;
            SemverServer.latest_version := "2.0.0";
            SemverServer.download_url := None |}
  /\ exists body,
       result (Otaserver.checkForUpdate fs_three [("current_version", "2.0.0")])
       = Otaserver.JSON 200 (Otaserver.VersionBody body)
       /\ Otaserver.LatestVersion body = "2.0.0"
       /\ Otaserver.DownloadURL body = "".
Proof.
  destruct (update_iff_latest_is_newer (P := TripleFacts.precedence))
    as (HS & HO & _).
  assert (Hasc : GoSort.ascending SemverServer.lessVersion
                   (SemverServer.Versions srv_files))
    by (apply SortFacts.ascendingb_spec; reflexivity).
  split; [|split].
  - apply (HS srv_files [("current_version", "1.0.0")] (1, 0, 0)%Z Hasc);
      [discriminate|reflexivity].
  - apply (HS srv_files [("current_version", "2.0.0")] (2, 0, 0)%Z Hasc);
      [discriminate|reflexivity].
  - apply (HO fs_three [("current_version", "2.0.0")]
              ["1.0.0"; "1.1.0"; "2.0.0"] "2.0.0");
      [discriminate|reflexivity|reflexivity].
Defined.

(** C2 as stated fails on the default endpoint of the gin server.  The
    directory holds the plugin of 1.0.0 and a five-second-delay
    artifact of 2.0.0, so the greatest catalog entry is 2.0.0.  A client
    at 1.0.0 is strictly below it and is offered no update, and a
    client at 2.0.0 is not told the greatest entry: the endpoint looks
    for [plugin_2.0.0.wasm], which the directory has not, and answers
    [500] to both.  The blink endpoint answers the same requests as the
    claim says. *)
Lemma default_check_offers_nothing_above_current :
  result (Otaserver.getAvailableVersions fs_mixed) = (["2.0.0"; "1.0.0"], None)
  /\ index (GoSort.Strings ["2.0.0"; "1.0.0"]) 1 = Some "2.0.0"
  /\ String.ltb "1.0.0" "2.0.0" = true
  /\ ReadAll fs_mixed (Otaserver.pluginPath "2.0.0") = inl ENOENT
  /\ result (Otaserver.checkForUpdate fs_mixed [("current_version", "1.0.0")])
     = Otaserver.JSON 500 (Otaserver.ErrorBody "Error calculating checksum")
  /\ result (Otaserver.checkForUpdate fs_mixed [("current_version", "2.0.0")])
     = Otaserver.JSON 500 (Otaserver.ErrorBody "Error calculating checksum")
  /\ result (Otaserver.checkForUpdateBlinkFive fs_mixed [("current_version", "1.0.0")])
     = Otaserver.JSON 200 (Otaserver.VersionBody {|
         Otaserver.LatestVersion := "2.0.0";
         Otaserver.DownloadURL := "/download-blink-five?version=2.0.0";
         Otaserver.CheckSum := "" |}).
Proof. repeat split; reflexivity. Qed.

(** What both scans do.  They walk the whole tree under the artifact
    directory.  When every directory of the tree can be read the scan
    succeeds, a regular file contributes what its name yields at
    whatever depth it lies, and nothing else contributes: the name of a
    directory never does.  When the artifact directory is missing or
    cannot be read, or a directory below it cannot be read, the scan
    returns an error: the gin handlers answer [500], [NewServer] returns
    no server and [main] ends the process. *)
Lemma scan_walks_the_tree {L : Semver.Lib} :
  (forall fs,
     walkable fs Otaserver.otaFilesPath = true ->
     exists tree versions,
       resolve fs Otaserver.otaFilesPath = inr tree
       /\ result (Otaserver.getAvailableVersions fs) = (versions, None)
       /\ (forall dirs f content t,
             lookup tree (dirs ++ [f])%list = Some (File content) ->
             In t (Otaserver.versionsOf f) -> In t versions)
       /\ (forall t, In t versions ->
             exists f, In f (files (Base Otaserver.otaFilesPath) tree)
                       /\ In t (Otaserver.versionsOf f)))
  /\ (forall fs c,
        walkable fs Otaserver.otaFilesPath = false ->
        Query c "current_version" <> "" ->
        (exists versions e,
           result (Otaserver.getAvailableVersions fs) = (versions, Some e))
        /\ result (Otaserver.checkForUpdate fs c)
           = Otaserver.JSON 500
               (Otaserver.ErrorBody "Could not fetch available versions"))
  /\ (forall (s : SemverServer.Server) fs,
        walkable fs (SemverServer.FilesDir s) = true ->
        exists tree s',
          resolve fs (SemverServer.FilesDir s) = inr tree
          /\ result (SemverServer.loadVersions s fs) = (s', None)
          /\ (forall dirs f content v,
                lookup tree (dirs ++ [f])%list = Some (File content) ->
                In v (SemverServer.infosOf s f) -> In v (SemverServer.Versions s'))
          /\ (forall v, In v (SemverServer.Versions s') ->
                exists f, In f (files (Base (SemverServer.FilesDir s)) tree)
                          /\ In v (SemverServer.infosOf s f)))
  /\ (forall filesDir baseURL fs,
        walkable fs filesDir = false ->
        exists e,
          result (SemverServer.NewServer filesDir baseURL fs) = (None, Some e))
  /\ (forall fs,
        walkable fs "./files" = false ->
        exists e, result (SemverServer.main fs) = SemverServer.Fatal e).
Proof.
  assert (HNew : forall filesDir baseURL fs,
            walkable fs filesDir = false ->
            exists e,
              result (SemverServer.NewServer filesDir baseURL fs) = (None, Some e)).
  { unfold walkable. intros filesDir baseURL fs Hw. unfold SemverServer.NewServer.
    set (server := {| SemverServer.FilesDir := filesDir;
                      SemverServer.BaseURL := baseURL;
                      SemverServer.Versions := [] |}).
    assert (H : exists e, result (SemverServer.loadVersions server fs) = (server, Some e)).
    { destruct (resolve fs filesDir) as [e|tree] eqn:Hres.
      - exists e. apply SemverServerFacts.loadVersions_missing, Hres.
      - exists EACCES. apply SemverServerFacts.loadVersions_unreadable with tree;
          assumption. }
    destruct H as [e H]. exists e. unfold result, bind in *.
    destruct (SemverServer.loadVersions server fs) as [r l]. simpl in H. subst r.
    reflexivity. }
  split; [|split; [|split; [|split; [exact HNew|]]]]; unfold walkable.
  - intros fs Hw.
    destruct (resolve fs Otaserver.otaFilesPath) as [e|tree] eqn:Hres; [discriminate|].
    exists tree. eexists. split; [reflexivity|].
    split; [apply (OtaserverFacts.getAvailableVersions_readable _ Hres Hw)|]. split.
    + intros dirs f content t Hl Ht. apply in_flat_map. exists f.
      split; [|assumption]. eapply WalkFacts.lookup_files; eassumption.
    + intros t Ht. apply in_flat_map in Ht. exact Ht.
  - intros fs c Hw Hcur.
    assert (H : exists versions e,
               result (Otaserver.getAvailableVersions fs) = (versions, Some e)).
    { destruct (resolve fs Otaserver.otaFilesPath) as [e|tree] eqn:Hres.
      - exists [], e. apply OtaserverFacts.getAvailableVersions_missing, Hres.
      - pose proof (OtaserverFacts.getAvailableVersions_unreadable _ Hres Hw) as H.
        destruct (result (Otaserver.getAvailableVersions fs)) as [versions e].
        simpl in H. subst e. eauto. }
    split; [exact H|]. destruct H as (versions & e & H).
    apply (OtaserverFacts.check_scan_error _ _ Hcur H).
  - intros s fs Hw.
    destruct (resolve fs (SemverServer.FilesDir s)) as [e|tree] eqn:Hres; [discriminate|].
    exists tree. eexists. split; [reflexivity|].
    split; [apply (SemverServerFacts.loadVersions_readable _ _ Hres Hw)|].
    cbn [SemverServer.Versions]. split.
    + intros dirs f content v Hl Hv. apply SortFacts.sort_by_In, in_flat_map.
      exists f. split; [|assumption]. eapply WalkFacts.lookup_files; eassumption.
    + intros v Hv. apply SortFacts.sort_by_In, in_flat_map in Hv. exact Hv.
  - intros fs Hw.
    destruct (HNew "./files" "http://localhost:8080" fs Hw) as [e H].
    exists e. unfold SemverServer.main, result, bind in *.
    destruct (SemverServer.NewServer _ _ fs) as [r l]. simpl in H. subst r.
    reflexivity.
Qed.

(** A nested artifact, a directory that cannot be read and a directory
    that does not exist. *)
Lemma scan_walks_the_tree_on_examples :
  (exists versions,
     result (Otaserver.getAvailableVersions fs_nested) = (versions, None)
     /\ In "9.9.9" versions)
  /\ result (Otaserver.checkForUpdate fs_locked [("current_version", "1.0.0")])
     = Otaserver.JSON 500 (Otaserver.ErrorBody "Could not fetch available versions")
  /\ (exists e, result (SemverServer.main (L := Triple.lib) fs_missing)
                = SemverServer.Fatal e).
Proof.
  destruct (scan_walks_the_tree (L := Triple.lib)) as (H1 & H2 & _ & _ & H5).
  split; [|split].
  - destruct (H1 fs_nested eq_refl) as (tree & versions & Hres & Hscan & Hin & _).
    exists versions. split; [exact Hscan|].
    injection Hres as <-.
    apply (Hin ["old"] "plugin_9.9.9.wasm" (Some "nine") "9.9.9");
      [reflexivity|left; reflexivity].
  - apply (H2 fs_locked [("current_version", "1.0.0")]); [reflexivity|discriminate].
  - apply (H5 fs_missing). reflexivity.
Defined.

(** C6, on both servers.  The callbacks pass over a directory entry and
    return [nil], so the walk goes on into the directory.  The artifact
    directory of the gin server holds a subdirectory and no regular
    file, and the file in the subdirectory enters the catalog; likewise
    on the semantic-version server, whose directory has no
    [app_2.0.0.zip] of its own. *)
Theorem file_in_subdirectory_is_cataloged :
  resolve fs_nested Otaserver.otaFilesPath
  = inr (Dir true [("old", Dir true [("plugin_9.9.9.wasm", File (Some "nine"))])])
  /\ result (Otaserver.getAvailableVersions fs_nested) = (["9.9.9"], None)
  /\ result (SemverServer.NewServer "./files" "http://localhost:8080" fs_files_nested)
     = (Some srv_nested, None)
  /\ In (info (2, 0, 0)%Z "app_2.0.0.zip") (SemverServer.Versions srv_nested)
  /\ resolve fs_files_nested "./files/app_2.0.0.zip" = inl ENOENT
  /\ resolve fs_files_nested "./files/beta/app_2.0.0.zip" = inr (File (Some "two")).
Proof. repeat split; try reflexivity. right. left. reflexivity. Qed.

(** C3, on [otaserver/main.go].  A family name with underscores splits
    into more than two parts and [extractVersionFromFile] returns the
    empty string, so the file never enters the catalog; the cut at the
    last underscore of the other server yields the token. *)
Theorem extractVersionFromFile_two_parts_only :
  Otaserver.extractVersionFromFile "one_second_delay_1.2.0.wasm" = ""
  /\ Otaserver.versionsOf "one_second_delay_1.2.0.wasm" = []
  /\ SemverServer.versionStrOf "one_second_delay_1.2.0.wasm" = Some "1.2.0"
  /\ Otaserver.extractVersionFromFile "five-second-delay_1.2.0.wasm" = "1.2.0".
Proof. repeat split; reflexivity. Qed.

(** X20.  The two extractors agree wherever the one of the gin server
    finds a version: a file name from which [extractVersionFromFile]
    cuts a version yields the same version string in the walk callback
    of [loadVersions]. *)
Theorem extractors_agree_on_single_underscore (fileName version : string) :
  version <> "" ->
  Otaserver.extractVersionFromFile fileName = version ->
  SemverServer.versionStrOf fileName = Some version.
Proof.
  intros Hne H.
  destruct (OtaserverFacts.extractVersionFromFile_inv _ Hne H) as (family & Hb & _ & Hv).
  unfold SemverServer.versionStrOf.
  assert (Hu : has "_"%char fileName).
  { apply StringFacts.has_TrimSuffix with (Ext fileName). rewrite Hb.
    apply StringFacts.has_append. right. left. reflexivity. }
  rewrite (proj2 (SemverServerFacts.parts_has_underscore fileName) Hu).
  rewrite Hb.
  change (family ++ "_" ++ version) with (family ++ String "_"%char version).
  unfold LastIndex. rewrite StringFacts.LastIndex_from_last by (assumption || lia).
  unfold len.
  destruct (Z.eqb_spec (0 + Z.of_nat (String.length family)) (-1)) as [E|_]; [lia|].
  replace (Z.to_nat (0 + Z.of_nat (String.length family) + 1))
    with (S (String.length family)) by lia.
  rewrite StringFacts.drop_past. reflexivity.
Qed.

Lemma extractors_agree_on_single_underscore_witness :
  SemverServer.versionStrOf "plugin_1.2.0.wasm" = Some "1.2.0".
Proof.
  apply (@extractors_agree_on_single_underscore "plugin_1.2.0.wasm" "1.2.0").
  - discriminate.
  - reflexivity.
Defined.

End BothServers.

(* ===================================================================== *)
(** * Examples                                                             *)
(* ===================================================================== *)

(** The library functions on the inputs the Go documentation and the
    standard test vectors give, and the servers on small directories. *)
Module Examples.
Import GoStrings GoFilepath FS Fixtures.

Example Split_one_separator :
  Split "five-second-delay_1.2.0" "_" = ["five-second-delay"; "1.2.0"].
Proof. reflexivity. Qed.

Example Split_adjacent_separators : Split "a__b" "_" = ["a"; ""; "b"].
Proof. reflexivity. Qed.

Example Split_without_separator : Split "abc" "_" = ["abc"].
Proof. reflexivity. Qed.

Example Split_long_separator : Split "a--b--" "--" = ["a"; "b"; ""].
Proof. reflexivity. Qed.

Example LastIndex_found : LastIndex "go gopher" "go" = 3%Z.
Proof. reflexivity. Qed.

Example LastIndex_absent : LastIndex "go gopher" "rodent" = (-1)%Z.
Proof. reflexivity. Qed.

Example TrimSuffix_extension : TrimSuffix "app_1.2.0.zip" ".zip" = "app_1.2.0".
Proof. reflexivity. Qed.

Example Contains_backslash : Contains "a\b" "\" = true.
Proof. reflexivity. Qed.

Example Ext_last_dot : Ext "app_1.2.0.zip" = ".zip".
Proof. reflexivity. Qed.

Example Ext_stops_at_separator : Ext "a.b/c" = "".
Proof. reflexivity. Qed.

Example Clean_dot_dot : Clean "abc/def/../../.." = "..".
Proof. reflexivity. Qed.

Example Clean_rooted : Clean "/../a/./b/.." = "/a".
Proof. reflexivity. Qed.

Example Clean_empty : Clean "" = ".".
Proof. reflexivity. Qed.

Example Join_artifact :
  Join "./ota_files/" "plugin_1.0.0.wasm" = "ota_files/plugin_1.0.0.wasm".
Proof. reflexivity. Qed.

Example Join_parent : Join "./files" ".." = ".".
Proof. reflexivity. Qed.

Example Base_trailing_separator : Base "./ota_files/" = "ota_files".
Proof. reflexivity. Qed.

Example Strings_is_lexicographic :
  GoSort.Strings ["9.0.0"; "1.1.0"; "10.0.0"; "1.0.0"]
  = ["1.0.0"; "1.1.0"; "10.0.0"; "9.0.0"].
Proof. reflexivity. Qed.

Example EncodeToString_bytes : GoHex.EncodeToString [0; 171; 255]%Z = "00abff".
Proof. reflexivity. Qed.

Example Sum256_abc :
  GoHex.EncodeToString (SHA256.Sum256 (SHA256.bytes_of_string "abc"))
  = "ba7816bf8f01cfea414140de5dae2223b00361a396177a9cb410ff61f20015ad".
Proof. vm_compute. reflexivity. Qed.

Example Sum256_empty :
  GoHex.EncodeToString (SHA256.Sum256 [])
  = "e3b0c44298fc1c149afbf4c8996fb92427ae41e4649b934ca495991b7852b855".
Proof. vm_compute. reflexivity. Qed.

Example Sum256_two_blocks :
  GoHex.EncodeToString (SHA256.Sum256 (repeat 97%Z 70))
  = "6bd5e5034855a11241f0dee8fc72850ffd9955b28347a86428b5fa19119f6ad0".
Proof. vm_compute. reflexivity. Qed.

Example Stat_trailing_separator_on_file :
  Stat fs_secret "./secret.wasm/" = inl ENOTDIR.
Proof. reflexivity. Qed.

Example ReadAll_through_parent :
  ReadAll fs_secret "../../srv/secret.wasm" = inr "credentials".
Proof. reflexivity. Qed.

Example request_of_locator :
  GoURL.request_of "http://localhost:8080/download?file=app_2.0.0.zip"
  = [("file", "app_2.0.0.zip")].
Proof. reflexivity. Qed.

Example request_of_escaped :
  GoURL.request_of "/download?version=1.0.0+build%2e5&x=1;y=2&z"
  = [("version", "1.0.0 build.5"); ("z", "")].
Proof. reflexivity. Qed.

(** The catalog 1.0.0, 1.1.0, 2.0.0 of the gin server. *)
Example check_offers_latest :
  result (Otaserver.checkForUpdate fs_three [("current_version", "1.0.0")])
  = Otaserver.JSON 200 (Otaserver.VersionBody {|
      Otaserver.LatestVersion := "2.0.0";
      Otaserver.DownloadURL := "/download?version=2.0.0";
      Otaserver.CheckSum :=
        "8b5b9db0c13db24256c829aa364aa90c6d2eba318b9232a4ab9313b954d3555f" |}).
Proof. vm_compute. reflexivity. Qed.

Example check_tie_is_no_update :
  result (Otaserver.checkForUpdate fs_three [("current_version", "2.0.0")])
  = Otaserver.JSON 200 (Otaserver.VersionBody {|
      Otaserver.LatestVersion := "2.0.0";
      Otaserver.DownloadURL := "";
      Otaserver.CheckSum := "" |}).
Proof. vm_compute. reflexivity. Qed.

Example check_without_version :
  Otaserver.checkForUpdate fs_three []
  = (Otaserver.JSON 400 (Otaserver.ErrorBody "current_version is required"), []).
Proof. reflexivity. Qed.

Example download_existing_version :
  Otaserver.downloadNewVersion fs_three [("version", "1.1.0")]
  = (Otaserver.SendFile
       ("attachment; filename=" ++ dquote ++ "plugin_1.1.0.wasm" ++ dquote)
       "ota_files/plugin_1.1.0.wasm",
     [CallStat "ota_files/plugin_1.1.0.wasm"]).
Proof. reflexivity. Qed.

Example download_unknown_version :
  result (Otaserver.downloadNewVersion fs_three [("version", "3.0.0")])
  = Otaserver.JSON 404 (Otaserver.ErrorBody "version not found").
Proof. reflexivity. Qed.

(** The same catalog on the semantic-version server. *)
Example NewServer_sorts_by_precedence :
  result (SemverServer.NewServer "./files" "http://localhost:8080" fs_files)
  = (Some srv_files, None).
Proof. reflexivity. Qed.

Example handleCheck_rejects_garbage :
  SemverServer.handleCheck srv_files [("current_version", "banana")]
  = SemverServer.Error "Invalid 'current_version' format" 400.
Proof. reflexivity. Qed.

Example handleDownload_serves_file :
  SemverServer.handleDownload srv_files fs_files [("file", "app_1.1.0.zip")]
  = (SemverServer.ServeFile "files/app_1.1.0.zip", [CallStat "files/app_1.1.0.zip"]).
Proof. reflexivity. Qed.

Example handleDownload_refuses_traversal :
  SemverServer.handleDownload srv_files fs_files [("file", "../../etc/passwd")]
  = (SemverServer.Error "Invalid 'file' parameter" 400, []).
Proof. reflexivity. Qed.

(** Names the system refuses: [os.Stat] fails with an error that is
    not "does not exist", so [handleDownload] goes on to [fi.IsDir()]
    with a nil [fi], and the gin handler goes on to [c.File]. *)
Example Stat_NUL_byte :
  Stat fs_files ("files/" ++ String NUL "a") = inl EINVAL.
Proof. reflexivity. Qed.

Example Stat_long_name :
  Stat fs_files ("files/" ++ long_name) = inl ENAMETOOLONG.
Proof. vm_compute. reflexivity. Qed.

Example handleDownload_long_name_panics :
  result (SemverServer.handleDownload srv_files fs_files [("file", long_name)])
  = SemverServer.Panic "nil pointer dereference".
Proof. vm_compute. reflexivity. Qed.

Example handleDownload_NUL_byte_panics :
  result (SemverServer.handleDownload srv_files fs_files [("file", String NUL "a")])
  = SemverServer.Panic "nil pointer dereference".
Proof. vm_compute. reflexivity. Qed.

Example download_long_version_goes_to_File :
  result (Otaserver.downloadNewVersion fs_plugin [("version", long_name)])
  = Otaserver.SendFile
      ("attachment; filename=" ++ dquote ++ "plugin_" ++ long_name ++ ".wasm" ++ dquote)
      ("ota_files/plugin_" ++ long_name ++ ".wasm").
Proof. vm_compute. reflexivity. Qed.

Example handleDownload_parent_is_directory :
  SemverServer.handleDownload srv_files fs_files [("file", "..")]
  = (SemverServer.Error "Requested file is a directory" 400, [CallStat "."]).
Proof. reflexivity. Qed.

End Examples.
